(** * Brusselator batch renderer: a shallow embedding of [brusselator.py]

    The Python module drives three third-party libraries (py-pde for the
    integration, matplotlib for the frames, OpenCV for the video).  The
    embedding keeps the control flow, the arithmetic and the file and log
    traffic of the module itself and takes what the libraries compute as
    an explicit record of externals.

    - Python floats are IEEE binary64 numbers: [spec_float] at precision 53,
      with the library's correctly rounded operations.
    - Statements run in a state-and-exception monad over a [World]: the file
      tree, the sequence of logging calls, the random generator state, the
      record of solver invocations and the record of files opened for
      writing.
    - A directory is a finite map from entry names to nodes; the file tree
      maps directory paths to directories.  A path is a directory path
      followed by [/] and an entry name; an entry name that the operating
      system would resolve further (one holding [/], the names [.] and
      [..]) or refuse (an empty or overlong name, one holding NUL) is not
      an entry of this tree, and the statements that depend on it ask for
      plain names.
    - A string is the sequence of bytes of its UTF-8 encoding.  What
      Python makes of text outside ASCII in [str.isdigit] and [int] is
      taken from the externals. *)

From Stdlib Require Import ZArith List Bool Lia Ascii String.
From Stdlib Require Import Decimal DecimalString DecimalNat DecimalN.
From Stdlib Require Import Floats.SpecFloat.
From stdpp Require Import base option list sorting gmap strings.

Local Open Scope Z_scope.

(** ** binary64 arithmetic *)

Module F64.

Definition prec : Z := 53.
Definition emax : Z := 1024.

Definition float : Type := spec_float.

(** Conversion of a Python [int] (or an int64 array cell) to a float:
    round to nearest, ties to even. *)
Definition of_Z (z : Z) : float := binary_normalize prec emax z 0 false.

Definition add : float -> float -> float := SFadd prec emax.
Definition mul : float -> float -> float := SFmul prec emax.
Definition div : float -> float -> float := SFdiv prec emax.
Definition sqrt : float -> float := SFsqrt prec emax.
Definition leb : float -> float -> bool := SFleb.

Definition zero : float := S754_zero false.

Definition is_zero (x : float) : bool :=
  match x with S754_zero _ => true | _ => false end.
Definition is_nan (x : float) : bool :=
  match x with S754_nan => true | _ => false end.
Definition is_inf (x : float) : bool :=
  match x with S754_infinity _ => true | _ => false end.

(** The literal [0.1]: the binary64 number nearest to one tenth. *)
Definition one_tenth : float := Eval vm_compute in div (of_Z 1) (of_Z 10).

(** The float with value [n / 2]. *)
Definition half_of (n : Z) : float := binary_normalize prec emax n (-1) false.

End F64.

Abbreviation float := F64.float.

(** ** Exceptions and the statement monad *)

(** Text of a [ValueError]: the two messages the module builds. *)
Inductive errtext :=
| ErrInvalidValues (title : string) (time_point : float)
| ErrText (s : string).

Inductive exn :=
| ZeroDivisionError
| ValueError (text : errtext)
| RuntimeWarning
| FileExistsError
| FileNotFoundError
| LibraryError (code : N).   (* any other exception a library call raises *)

Inductive res (A : Type) :=
| Ok (a : A)
| Raise (e : exn).
Arguments Ok {A} a.
Arguments Raise {A} e.

Definition first_frame_not_found : string :=
  "First frame not found. Check if the frames are being saved correctly.".

(** ** Data of the module *)

(** A scalar field over the grid: rows of cells. *)
Abbreviation Field := (list (list float)).

(** One tracked state of the solver: the field pair. *)
Record Snapshot := { snap_u : Field; snap_v : Field }.

(** [state_data.data]: the array holding both fields. *)
Definition snapshot_data (s : Snapshot) : list Field := [snap_u s; snap_v s].

Record Mode := {
  m_title : string;
  m_a : float;
  m_b : float;
  m_d0 : float;
  m_d1 : float;
  m_filename : string;
  m_description : string
}.

(** The settings document as [json.load] returns it.  Numbers that the
    module mixes with floats are taken at their binary64 value. *)
Record RawSettings := {
  raw_resolution : Z;
  raw_frame_rate : Z;
  raw_t_max : float;
  raw_dt : float;
  raw_color_vmin : float;
  raw_color_vmax : float;
  raw_u_color : string;
  raw_v_color : string;
  raw_fixed_boundary : bool;
  raw_zoom_factor : float;
  raw_modes : list Mode
}.

(** The dictionary after [settings.update]: the document plus the
    upper-case keys [process_mode] reads. *)
Record Settings := {
  s_raw : RawSettings;
  RESOLUTION : Z;
  FRAME_RATE : Z;
  T_MAX : float;
  DT : float;
  COLOR_VMIN : float;
  COLOR_VMAX : float;
  U_COLOR : string;
  V_COLOR : string;
  FIXED_BOUNDARY : bool;
  ZOOM_FACTOR : float
}.

(** The two right-hand sides handed to [PDE]: they are determined by the
    four coefficients. *)
Record PDE := { pde_d0 : float; pde_a : float; pde_b : float; pde_d1 : float }.

Record Grid := { g_radius : float; g_resolution : Z; g_periodic : bool }.

Record Image := { img_height : Z; img_width : Z; img_layers : Z; img_id : N }.

Record Video := {
  vid_fourcc : string;
  vid_fps : Z;
  vid_size : Z * Z;
  vid_frames : list Image
}.

(** What one figure shows: the two masked layers and the annotations. *)
Record Figure := {
  fig_u : list (list (option float));
  fig_v : list (list (option float));
  fig_u_cmap : string;
  fig_v_cmap : string;
  fig_vmin : float;
  fig_vmax : float;
  fig_extent : float;
  fig_title : string;
  fig_params : float * float * float * float;
  fig_description : string
}.

Inductive file :=
| FImage (img : Image)          (* a file [cv2.imread] decodes *)
| FVideo (v : Video)
| FSettings (s : Settings)
| FLog
| FData (tag : N).              (* any other content *)

Inductive node :=
| Dir
| File (f : file).

Inductive level := DEBUG | INFO | WARNING | ERROR.

Inductive message :=
| MsgStartingMode (title : string)
| MsgFramesDirCreated (title frames_dir : string)
| MsgInvalidValues (title : string) (time_point : float)
| MsgDebugInfoFor (title : string) (time_point : float)
| MsgMinMax (data : list Field)
| MsgMeanStd (data : list Field)
| MsgWarningOrError (title : string) (e : exn)
| MsgSavedFrame (frame_idx : nat) (title : string) (time : float)
| MsgFinished (title : string)
| MsgErrorReadingFrame (frame_file : string)
| MsgVideoSaved (video_path : string)
| MsgCreatedResultsDir (render_dir : string)
| MsgLoggingConfigured
| MsgSettingsSaved (path : string)
| MsgAllModesProcessed.

Inductive solve_outcome :=
| Solved (items : list (float * Snapshot))
| SolveRaised (e : exn).

(** One invocation of [eq.solve]: the [t_range] and [dt] arguments. *)
Record solve_call := { sc_t_range : float; sc_dt : float }.

Record World := {
  w_fs : gmap string (gmap string node);
  w_log : list (level * message);
  w_rng : nat;
  w_solves : list solve_call;
  w_writes : list (string * string)   (* directory and name of each file opened for writing *)
}.

(** What the libraries compute, and what the character tables of the
    interpreter say of text outside ASCII. *)
Record Externals := {
  ext_PDE : PDE -> option exn;
  ext_CartesianGrid : Grid -> option exn;
  ext_random_normal : nat -> nat -> nat -> float;
  ext_solve : PDE -> Grid -> Field * Field -> float -> float -> solve_outcome;
  ext_savefig : Figure -> res Image;
  ext_isdigit : string -> bool;     (* [str.isdigit] on text that is not ASCII *)
  ext_int : string -> option N      (* [int] on such text, [None] for a [ValueError] *)
}.

Definition M (A : Type) : Type := World -> res A * World.

Definition ret {A} (a : A) : M A := fun w => (Ok a, w).
Definition raise {A} (e : exn) : M A := fun w => (Raise e, w).
Definition bind {A B} (m : M A) (k : A -> M B) : M B :=
  fun w => match m w with
           | (Ok a, w') => k a w'
           | (Raise e, w') => (Raise e, w')
           end.
Definition lift {A} (r : res A) : M A := fun w => (r, w).

Notation "x <- m ;; k" := (bind m (fun x => k))
  (at level 100, m at next level, right associativity).
Notation "m ;;; k" := (bind m (fun _ => k))
  (at level 100, right associativity).

(** [try: body except (caught) as e: handler]. *)
Definition try_except {A} (body : M A) (caught : exn -> bool) (handler : exn -> M A) : M A :=
  fun w => match body w with
           | (Ok a, w') => (Ok a, w')
           | (Raise e, w') => if caught e then handler e w' else (Raise e, w')
           end.

(** [for x in xs: body]. *)
Fixpoint for_each {A} (xs : list A) (body : A -> M unit) : M unit :=
  match xs with
  | [] => ret tt
  | x :: rest => body x ;;; for_each rest body
  end.

(** [enumerate]. *)
Definition enumerate {A} (xs : list A) : list (nat * A) :=
  zip (seq 0 (length xs)) xs.

(** ** World primitives *)

Definition set_fs (fs : gmap string (gmap string node)) (w : World) : World :=
  {| w_fs := fs; w_log := w_log w; w_rng := w_rng w; w_solves := w_solves w;
     w_writes := w_writes w |}.
Definition set_log (l : list (level * message)) (w : World) : World :=
  {| w_fs := w_fs w; w_log := l; w_rng := w_rng w; w_solves := w_solves w;
     w_writes := w_writes w |}.
Definition set_rng (n : nat) (w : World) : World :=
  {| w_fs := w_fs w; w_log := w_log w; w_rng := n; w_solves := w_solves w;
     w_writes := w_writes w |}.
Definition set_solves (l : list solve_call) (w : World) : World :=
  {| w_fs := w_fs w; w_log := w_log w; w_rng := w_rng w; w_solves := l;
     w_writes := w_writes w |}.
(** A file of directory [d] is created or replaced. *)
Definition put_file (d name : string) (entries : gmap string node) (f : file)
    (w : World) : World :=
  {| w_fs := <[d := <[name := File f]> entries]> (w_fs w); w_log := w_log w;
     w_rng := w_rng w; w_solves := w_solves w;
     w_writes := w_writes w ++ [(d, name)] |}.

(** One call of the [logging] module. *)
Definition logging (lv : level) (m : message) : M unit :=
  fun w => (Ok tt, set_log (w_log w ++ [(lv, m)]) w).

(** [os.path.join] of a directory path and a plain entry name. *)
Definition path_join (d name : string) : string := d +:+ "/" +:+ name.

Definition lookup_node (fs : gmap string (gmap string node)) (d name : string) : option node :=
  fs !! d ≫= (.!! name).

(** [os.makedirs(path, exist_ok=True)] for a top-level directory. *)
Definition makedirs (d : string) : M unit :=
  fun w => match w_fs w !! d with
           | Some _ => (Ok tt, w)
           | None => (Ok tt, set_fs (<[d := ∅]> (w_fs w)) w)
           end.

(** [os.makedirs(os.path.join(parent, name), exist_ok=True)] for a plain
    entry name: the parent is created when missing, the entry is
    registered, and a file of that name is an error. *)
Definition makedirs_in (parent name : string) : M unit :=
  fun w =>
    let pd := default ∅ (w_fs w !! parent) in
    match pd !! name with
    | Some (File _) => (Raise FileExistsError, w)
    | _ =>
        let fs1 := <[parent := <[name := Dir]> pd]> (w_fs w) in
        let child := path_join parent name in
        match fs1 !! child with
        | Some _ => (Ok tt, set_fs fs1 w)
        | None => (Ok tt, set_fs (<[child := ∅]> fs1) w)
        end
    end.

(** [os.listdir]. *)
Definition listdir (d : string) : M (list string) :=
  fun w => match w_fs w !! d with
           | Some entries => (Ok (map_to_list entries).*1, w)
           | None => (Raise FileNotFoundError, w)
           end.

(** Creating or replacing the file [name] of directory [d]. *)
Definition write_file (d name : string) (f : file) : M unit :=
  fun w => match w_fs w !! d with
           | None => (Raise FileNotFoundError, w)
           | Some entries =>
               match entries !! name with
               | Some Dir => (Raise (LibraryError 21), w)
               | _ => (Ok tt, put_file d name entries f w)
               end
           end.

(** What [cv2.imread] makes of a directory entry: the decoded image, or
    [None] for a missing entry, a directory or any other file. *)
Definition decode_node (entry : option node) : option Image :=
  match entry with
  | Some (File (FImage img)) => Some img
  | _ => None
  end.

(** [cv2.imread]. *)
Definition imread (d name : string) : M (option Image) :=
  fun w => (Ok (decode_node (lookup_node (w_fs w) d name)), w).

(** [cv2.VideoWriter(path, fourcc, fps, size)]: the file is opened empty;
    nothing is raised when it cannot be opened. *)
Definition VideoWriter (d name fourcc : string) (fps : Z) (size : Z * Z) : M unit :=
  fun w => match w_fs w !! d with
           | None => (Ok tt, w)
           | Some entries =>
               match entries !! name with
               | Some Dir => (Ok tt, w)
               | _ =>
                   let v := {| vid_fourcc := fourcc; vid_fps := fps;
                               vid_size := size; vid_frames := [] |} in
                   (Ok tt, put_file d name entries (FVideo v) w)
               end
           end.

Definition video_append (v : Video) (frames : list Image) : Video :=
  {| vid_fourcc := vid_fourcc v; vid_fps := vid_fps v; vid_size := vid_size v;
     vid_frames := vid_frames v ++ frames |}.

(** [out.write(frame)]: the frame is appended to the open video. *)
Definition video_write (d name : string) (frame : Image) : M unit :=
  fun w => match w_fs w !! d with
           | Some entries =>
               match entries !! name with
               | Some (File (FVideo v)) =>
                   (Ok tt, set_fs (<[d := <[name := File (FVideo (video_append v [frame]))]>
                                            entries]> (w_fs w)) w)
               | _ => (Ok tt, w)
               end
           | None => (Ok tt, w)
           end.

(** ** Python helpers *)

(** True division of floats: a zero divisor raises. *)
Definition py_truediv (x y : float) : res float :=
  if F64.is_zero y then Raise ZeroDivisionError else Ok (F64.div x y).

Definition is_ascii_digit (c : ascii) : bool :=
  let n := nat_of_ascii c in (48 <=? n)%nat && (n <=? 57)%nat.

Fixpoint all_chars (p : ascii -> bool) (s : string) : bool :=
  match s with
  | EmptyString => true
  | String c rest => p c && all_chars p rest
  end.

(** Characters of the ASCII range, on which [str.lower] is the map of
    [lower]. *)
Definition is_ascii (c : ascii) : bool := (nat_of_ascii c <? 128)%nat.

(** [str(n)] for an integer. *)
Definition py_str (z : Z) : string := NilEmpty.string_of_int (Z.to_int z).

(** [max(xs, default=d)]. *)
Definition py_max (xs : list Z) (d : Z) : Z :=
  match xs with
  | [] => d
  | x :: rest => fold_left Z.max rest x
  end.

Fixpoint map_chars (f : ascii -> ascii) (s : string) : string :=
  match s with
  | EmptyString => EmptyString
  | String c rest => String (f c) (map_chars f rest)
  end.

(** [s.replace(" ", "_")]. *)
Definition replace_space (s : string) : string :=
  map_chars (fun c => if Ascii.eqb c " " then "_"%char else c) s.

(** [s.lower()] on ASCII text. *)
Definition lower (s : string) : string :=
  map_chars (fun c => let n := nat_of_ascii c in
                      if (65 <=? n)%nat && (n <=? 90)%nat
                      then ascii_of_nat (n + 32) else c) s.

(** [s.endswith(suffix)]. *)
Definition endswith (s suffix : string) : bool :=
  let n := String.length s in
  let k := String.length suffix in
  (k <=? n)%nat && String.eqb (substring (n - k) k s) suffix.

(** [f'{n:04d}']: decimal digits, padded with zeros to four characters. *)
Definition format_04d (n : nat) : string :=
  let digits := NilEmpty.string_of_uint (Nat.to_uint n) in
  string_of_list_ascii (repeat "0"%char (4 - String.length digits)) +:+ digits.

Definition frame_name (frame_idx : nat) : string :=
  "frame_" +:+ format_04d frame_idx +:+ ".png".

(** The frame names of [count] successive indices, starting from the index
    whose little-endian decimal digits are [lu]. *)
Fixpoint names_from (lu : Decimal.uint) (count : nat) : list string :=
  match count with
  | O => []
  | S count' =>
      (let digits := NilEmpty.string_of_uint (Decimal.rev lu) in
       "frame_" +:+ (string_of_list_ascii (repeat "0"%char (4 - String.length digits))
                     +:+ digits) +:+ ".png")
      :: names_from (Decimal.Little.succ lu) count'
  end.

(** Each name is strictly below the next one. *)
Fixpoint strictly_ascending (names : list string) : bool :=
  match names with
  | a :: (b :: _) as rest => String.ltb a b && strictly_ascending rest
  | _ => true
  end.

(** The number a decimal literal denotes (leading zeros allowed). *)
Definition parse_nat (s : string) : option nat :=
  Nat.of_uint <$> NilEmpty.uint_of_string s.

(** [sorted] on a list of strings: ascending in the character-wise order
    [String.leb]. *)
Definition sorted (names : list string) : list string := merge_sort String.le names.

(** ** numpy helpers *)

(** Arithmetic of an int64 array cell. *)
Definition wrap64 (z : Z) : Z := (z + 2 ^ 63) mod 2 ^ 64 - 2 ^ 63.

(** [np.isnan(data).any()], [np.isinf(data).any()]. *)
Definition np_any (p : float -> bool) (data : list Field) : bool :=
  existsb (existsb (existsb p)) data.

(** [ScalarField(grid, value)]. *)
Definition full (rows cols : nat) (x : float) : Field := replicate rows (replicate cols x).

Definition tabulate {A} (rows cols : nat) (f : nat -> nat -> A) : list (list A) :=
  (fun y => (fun x => f y x) <$> seq 0 cols) <$> seq 0 rows.

(** [np.sqrt((X - center[1]) ** 2 + (Y - center[0]) ** 2)] on [np.ogrid]. *)
Definition dist_from_center (rows cols : nat) (center : Z * Z) : Field :=
  tabulate rows cols (fun y x =>
    let dx := wrap64 (Z.of_nat x - snd center) in
    let dy := wrap64 (Z.of_nat y - fst center) in
    F64.sqrt (F64.of_Z (wrap64 (wrap64 (dx ^ 2) + wrap64 (dy ^ 2))))).

(** The cell of row [y], column [x]. *)
Definition cell {A} (grid : list (list A)) (y x : nat) : option A :=
  grid !! y ≫= (.!! x).

(** [data[~mask] = 0]. *)
Definition zero_outside (mask : list (list bool)) (data : Field) : Field :=
  zip_with (zip_with (fun (m : bool) c => if m then c else F64.zero)) mask data.

(** [np.ma.masked_where(~mask, data)]. *)
Definition masked_where_not (mask : list (list bool)) (data : Field)
  : list (list (option float)) :=
  zip_with (zip_with (fun (m : bool) c => if m then Some c else None)) mask data.

(** ** The module's functions *)

Section Program.

Context (ext : Externals).

(** A library constructor: returns, or raises what the library raises. *)
Definition construct (outcome : option exn) : M unit :=
  match outcome with
  | None => ret tt
  | Some e => raise e
  end.

(** [ScalarField.random_normal(grid)]: one draw per cell. *)
Definition random_normal (rows cols : nat) : M Field :=
  fun w => (Ok (tabulate rows cols (ext_random_normal ext (w_rng w))),
            set_rng (S (w_rng w)) w).

(** [eq.solve(state, t_range, dt, tracker)] followed by [storage.items()]. *)
Definition eq_solve (eq : PDE) (grid : Grid) (state : Field * Field)
    (t_range dt : float) : M (list (float * Snapshot)) :=
  fun w =>
    let w' := set_solves (w_solves w ++ [{| sc_t_range := t_range; sc_dt := dt |}]) w in
    match ext_solve ext eq grid state t_range dt with
    | Solved items => (Ok items, w')
    | SolveRaised e => (Raise e, w')
    end.

(** [np.isnan(state_data).any() or np.isinf(state_data).any()]. *)
Definition has_invalid_values (state_data : list Field) : bool :=
  np_any F64.is_nan state_data || np_any F64.is_inf state_data.

Definition check_for_invalid_values (state_data : list Field) (title : string)
    (time_point : float) : M bool :=
  if has_invalid_values state_data
  then logging ERROR (MsgInvalidValues title time_point) ;;; ret true
  else ret false.

Definition print_debug_info (state_data : list Field) (title : string)
    (time_point : float) : M unit :=
  logging DEBUG (MsgDebugInfoFor title time_point) ;;;
  logging DEBUG (MsgMinMax state_data) ;;;
  logging DEBUG (MsgMeanStd state_data).

(** The equation [process_mode] builds for a mode (lines 78 to 83). *)
Definition pde_of (mode : Mode) : PDE :=
  {| pde_d0 := m_d0 mode; pde_a := m_a mode; pde_b := m_b mode; pde_d1 := m_d1 mode |}.

(** What [process_mode] holds once the state is built (lines 67 to 107). *)
Record ModeContext := {
  cx_eq : PDE;
  cx_grid : Grid;
  cx_RADIUS : float;
  cx_circular_mask : list (list bool);
  cx_state : Field * Field;
  cx_frames_dir : string
}.

Definition frames_dir_name (title : string) : string :=
  "frames_" +:+ lower (replace_space title).

(** [RADIUS * (settings["RESOLUTION"] / (2 * RADIUS))]. *)
Definition mask_threshold (RADIUS : float) (resolution : Z) : res float :=
  match py_truediv (F64.of_Z resolution) (F64.mul (F64.of_Z 2) RADIUS) with
  | Ok q => Ok (F64.mul RADIUS q)
  | Raise e => Raise e
  end.

(** [dist_from_center <= threshold]. *)
Definition circular_mask_of (resolution : Z) (threshold : float) : list (list bool) :=
  let n := Z.to_nat resolution in
  let center := (resolution / 2, resolution / 2) in
  (fun row : list float => (fun d => F64.leb d threshold) <$> row)
    <$> dist_from_center n n center.

(** The mask as a function of the settings alone. *)
Definition circular_mask (settings : Settings) : res (list (list bool)) :=
  match py_truediv (F64.of_Z 1) (ZOOM_FACTOR settings) with
  | Ok RADIUS =>
      match mask_threshold RADIUS (RESOLUTION settings) with
      | Ok threshold => Ok (circular_mask_of (RESOLUTION settings) threshold)
      | Raise e => Raise e
      end
  | Raise e => Raise e
  end.

(** Lines 67 to 107 of [process_mode]: equation, grid, initial fields, mask,
    frames directory. *)
Definition process_mode_setup (mode : Mode) (render_dir : string)
    (settings : Settings) : M ModeContext :=
  let title := m_title mode in
  let a := m_a mode in
  let b := m_b mode in
  logging INFO (MsgStartingMode title) ;;;
  let eq := pde_of mode in
  construct (ext_PDE ext eq) ;;;
  RADIUS <- lift (py_truediv (F64.of_Z 1) (ZOOM_FACTOR settings)) ;;
  let grid := {| g_radius := RADIUS; g_resolution := RESOLUTION settings;
                 g_periodic := negb (FIXED_BOUNDARY settings) |} in
  construct (ext_CartesianGrid ext grid) ;;;
  let n := Z.to_nat (RESOLUTION settings) in
  let u := full n n a in
  b_over_a <- lift (py_truediv b a) ;;
  noise <- random_normal n n ;;
  let v := (fun row : list float =>
              (fun c => F64.add b_over_a (F64.mul F64.one_tenth c)) <$> row) <$> noise in
  threshold <- lift (mask_threshold RADIUS (RESOLUTION settings)) ;;
  let mask := circular_mask_of (RESOLUTION settings) threshold in
  let state := if FIXED_BOUNDARY settings
               then (zero_outside mask u, zero_outside mask v)
               else (u, v) in
  let frames_dir := path_join render_dir (frames_dir_name title) in
  makedirs_in render_dir (frames_dir_name title) ;;;
  logging DEBUG (MsgFramesDirCreated title frames_dir) ;;;
  ret {| cx_eq := eq; cx_grid := grid; cx_RADIUS := RADIUS;
         cx_circular_mask := mask; cx_state := state;
         cx_frames_dir := frames_dir |}.

Definition caught_by_process_mode (e : exn) : bool :=
  match e with
  | RuntimeWarning | ValueError _ => true
  | _ => false
  end.

(** The body of the validation loop (lines 112 to 114). *)
Definition validate_snapshot (title : string) (item : float * Snapshot) : M unit :=
  let '(time_point, state_data) := item in
  invalid <- check_for_invalid_values (snapshot_data state_data) title time_point ;;
  if invalid : bool
  then print_debug_info (snapshot_data state_data) title time_point ;;;
       raise (ValueError (ErrInvalidValues title time_point))
  else ret tt.

(** A tracked item whose snapshot holds a NaN or an infinity. *)
Definition invalid_item (item : float * Snapshot) : bool :=
  has_invalid_values (snapshot_data item.2).

(** Lines 109 to 117: the [try] block.  [None] is the early [return]. *)
Definition solve_and_validate (title : string) (settings : Settings)
    (cx : ModeContext) : M (option (list (float * Snapshot))) :=
  try_except
    (items <- eq_solve (cx_eq cx) (cx_grid cx) (cx_state cx)
                       (T_MAX settings) (DT settings) ;;
     for_each items (validate_snapshot title) ;;;
     ret (Some items))
    caught_by_process_mode
    (fun e => logging ERROR (MsgWarningOrError title e) ;;; ret None).

Definition figure_of (mode : Mode) (settings : Settings) (cx : ModeContext)
    (state : Snapshot) : Figure :=
  {| fig_u := masked_where_not (cx_circular_mask cx) (snap_u state);
     fig_v := masked_where_not (cx_circular_mask cx) (snap_v state);
     fig_u_cmap := U_COLOR settings;
     fig_v_cmap := V_COLOR settings;
     fig_vmin := COLOR_VMIN settings;
     fig_vmax := COLOR_VMAX settings;
     fig_extent := cx_RADIUS cx;
     fig_title := m_title mode;
     fig_params := (m_a mode, m_b mode, m_d0 mode, m_d1 mode);
     fig_description := m_description mode |}.

(** The image [plt.savefig] produces for a snapshot, when it produces one. *)
Definition rendered_image (mode : Mode) (settings : Settings) (cx : ModeContext)
    (state : Snapshot) : option Image :=
  match ext_savefig ext (figure_of mode settings cx state) with
  | Ok img => Some img
  | Raise _ => None
  end.

(** The body of the frame loop (lines 123 to 156); [size] is the pair
    [(width, height)], [None] while unset. *)
Definition render_frame (mode : Mode) (settings : Settings) (cx : ModeContext)
    (size : option (Z * Z)) (frame : nat * (float * Snapshot)) : M (option (Z * Z)) :=
  let '(frame_idx, (time, state)) := frame in
  img <- lift (ext_savefig ext (figure_of mode settings cx state)) ;;
  write_file (cx_frames_dir cx) (frame_name frame_idx) (FImage img) ;;;
  logging INFO (MsgSavedFrame frame_idx (m_title mode) time) ;;;
  match size with
  | Some _ => ret size
  | None =>
      first_frame <- imread (cx_frames_dir cx) (frame_name frame_idx) ;;
      match first_frame with
      | Some f => ret (Some (img_width f, img_height f))
      | None => ret None
      end
  end.

Fixpoint for_fold {A S} (xs : list A) (s : S) (body : S -> A -> M S) : M S :=
  match xs with
  | [] => ret s
  | x :: rest => s' <- body s x ;; for_fold rest s' body
  end.

(** Lines 119 to 158. *)
Definition render_frames (mode : Mode) (settings : Settings) (cx : ModeContext)
    (items : list (float * Snapshot)) : M unit :=
  let storage_dict := items in
  for_fold (enumerate storage_dict) None (render_frame mode settings cx) ;;;
  logging INFO (MsgFinished (m_title mode)).

(** Line 170: [sorted([f for f in names if f.endswith('.png')])]. *)
Definition frame_files_of (names : list string) : list string :=
  sorted (filter (fun f => endswith f ".png") names).

(** The body of the encoder loop (lines 172 to 176). *)
Definition encode_frame (frames_dir render_dir filename frame_file : string) : M unit :=
  frame <- imread frames_dir frame_file ;;
  match frame with
  | None => logging WARNING (MsgErrorReadingFrame frame_file)
  | Some f => video_write render_dir filename f
  end.

(** The encoder loop (lines 170 to 176). *)
Definition encode_frames (frames_dir render_dir filename : string) : M unit :=
  names <- listdir frames_dir ;;
  let frame_files := frame_files_of names in
  for_each frame_files (encode_frame frames_dir render_dir filename).

(** Lines 160 to 179. *)
Definition encode_video (mode : Mode) (render_dir : string) (settings : Settings)
    (cx : ModeContext) : M unit :=
  let filename := m_filename mode in
  let frames_dir := cx_frames_dir cx in
  first_frame <- imread frames_dir "frame_0000.png" ;;
  match first_frame with
  | None => raise (ValueError (ErrText first_frame_not_found))
  | Some f =>
      let frame_size := (img_width f, img_height f) in
      VideoWriter render_dir filename "mp4v" (FRAME_RATE settings) frame_size ;;;
      encode_frames frames_dir render_dir filename ;;;
      logging INFO (MsgVideoSaved (path_join render_dir filename))
  end.

Definition process_mode (mode : Mode) (render_dir : string) (settings : Settings) : M unit :=
  cx <- process_mode_setup mode render_dir settings ;;
  checked <- solve_and_validate (m_title mode) settings cx ;;
  match checked with
  | None => ret tt
  | Some items =>
      render_frames mode settings cx items ;;;
      encode_video mode render_dir settings cx
  end.

(** [setup_logging]: the file handler opens [processing.log]. *)
Definition setup_logging (render_dir : string) : M unit :=
  write_file render_dir "processing.log" FLog.

Definition write_settings_to_file (settings : Settings) (render_dir : string) : M unit :=
  write_file render_dir "settings.txt" (FSettings settings).

(** [pool.apply_async(f, args)] whose result is never fetched: the call
    runs, an exception it raises is dropped.  Modes are run one after the
    other. *)
Definition apply_async (call : M unit) : M unit :=
  fun w => (Ok tt, snd (call w)).

(** [str.isdigit].  On ASCII text: a non-empty string of decimal digits.
    Text with other characters is a digit string when the character tables
    say so; its ASCII characters are then decimal digits as well. *)
Definition isdigit (s : string) : bool :=
  match s with
  | EmptyString => false
  | _ =>
      if all_chars is_ascii s then all_chars is_ascii_digit s
      else all_chars (fun c => negb (is_ascii c) || is_ascii_digit c) s
           && ext_isdigit ext s
  end.

(** [int(name)] for a name that [str.isdigit] accepts: the number that
    ASCII digits denote; for other text the number the character tables
    give, and a [ValueError] when they give none (as for a superscript
    digit). *)
Definition py_int (s : string) : res Z :=
  match s with
  | EmptyString => Raise (ValueError (ErrText "invalid literal for int()"))
  | _ =>
      if all_chars is_ascii s
      then match NilEmpty.uint_of_string s with
           | Some u => Ok (Z.of_N (N.of_uint u))
           | None => Raise (ValueError (ErrText "invalid literal for int()"))
           end
      else match ext_int ext s with
           | Some n => Ok (Z.of_N n)
           | None => Raise (ValueError (ErrText "invalid literal for int()"))
           end
  end.

(** [[int(name) for name in names if name.isdigit()]]. *)
Fixpoint render_numbers_of (names : list string) : res (list Z) :=
  match names with
  | [] => Ok []
  | name :: rest =>
      if isdigit name
      then match py_int name with
           | Ok n => match render_numbers_of rest with
                     | Ok ns => Ok (n :: ns)
                     | Raise e => Raise e
                     end
           | Raise e => Raise e
           end
      else render_numbers_of rest
  end.

(** Lines 217 and 218: [max(render_numbers, default=0) + 1]. *)
Definition next_render_number (names : list string) : res Z :=
  match render_numbers_of names with
  | Ok render_numbers => Ok (py_max render_numbers 0 + 1)
  | Raise e => Raise e
  end.

Definition results_dir : string := "results".

(** Lines 187 to 210. *)
Definition resolve_settings (raw : RawSettings) : res Settings :=
  match py_truediv (raw_dt raw) (F64.of_Z 100) with
  | Ok dt =>
      Ok {| s_raw := raw;
            RESOLUTION := raw_resolution raw;
            FRAME_RATE := raw_frame_rate raw;
            T_MAX := raw_t_max raw;
            DT := dt;
            COLOR_VMIN := raw_color_vmin raw;
            COLOR_VMAX := raw_color_vmax raw;
            U_COLOR := raw_u_color raw;
            V_COLOR := raw_v_color raw;
            FIXED_BOUNDARY := raw_fixed_boundary raw;
            ZOOM_FACTOR := raw_zoom_factor raw |}
  | Raise e => Raise e
  end.

(** [main]; [document] is what opening and parsing [settings.json] gives. *)
Definition main (document : res RawSettings) : M unit :=
  raw <- lift document ;;
  settings <- lift (resolve_settings raw) ;;
  makedirs results_dir ;;;
  names <- listdir results_dir ;;
  render_number <- lift (next_render_number names) ;;
  let render_dir := path_join results_dir (py_str render_number) in
  makedirs_in results_dir (py_str render_number) ;;;
  logging INFO (MsgCreatedResultsDir render_dir) ;;;
  setup_logging render_dir ;;;
  logging INFO MsgLoggingConfigured ;;;
  write_settings_to_file settings render_dir ;;;
  logging INFO (MsgSettingsSaved (path_join render_dir "settings.txt")) ;;;
  for_each (raw_modes raw)
    (fun mode => apply_async (process_mode mode render_dir settings)) ;;;
  logging INFO MsgAllModesProcessed.

End Program.

(** *** Square roots against half-integers *)

(** [np.sqrt] of the integer [k]. *)
Definition sqrt_of (k : Z) : float := F64.sqrt (F64.of_Z k).

(** The pixel-distance test of the disc of radius [resolution / 2] around
    the centre cell, in exact integer arithmetic. *)
Definition in_disc (resolution : Z) (y x : nat) : bool :=
  let c := resolution / 2 in
  4 * ((Z.of_nat x - c) ^ 2 + (Z.of_nat y - c) ^ 2) <=? resolution * resolution.

(** The settings with another boundary flag. *)
Definition with_fixed_boundary (b : bool) (settings : Settings) : Settings :=
  {| s_raw := s_raw settings;
     RESOLUTION := RESOLUTION settings;
     FRAME_RATE := FRAME_RATE settings;
     T_MAX := T_MAX settings;
     DT := DT settings;
     COLOR_VMIN := COLOR_VMIN settings;
     COLOR_VMAX := COLOR_VMAX settings;
     U_COLOR := U_COLOR settings;
     V_COLOR := V_COLOR settings;
     FIXED_BOUNDARY := b;
     ZOOM_FACTOR := ZOOM_FACTOR settings |}.

(** The entries of the results root, as [os.listdir] reports them (none
    when the root does not exist yet). *)
Definition run_listing (w : World) : list string :=
  match w_fs w !! results_dir with
  | Some entries => (map_to_list entries).*1
  | None => []
  end.

(** Every numbered run directory of the tree is an entry of the results
    root. *)
Definition runs_listed (ext : Externals) (w : World) : Prop :=
  forall name, isdigit ext name = true ->
    is_Some (w_fs w !! path_join results_dir name) ->
    is_Some (lookup_node (w_fs w) results_dir name).

(** [int] accepts every name of the listing that [str.isdigit] accepts. *)
Definition numbers_readable (ext : Externals) (names : list string) : Prop :=
  forall name, name ∈ names -> isdigit ext name = true ->
               exists n, py_int ext name = Ok n.


(** An entry name that the file system takes as it stands: not empty, of
    at most 255 bytes, without [/] and NUL, and neither [.] nor [..]. *)
Definition plain_name (s : string) : bool :=
  negb (String.eqb s EmptyString) && negb (String.eqb s ".") && negb (String.eqb s "..")
  && (String.length s <=? 255)%nat
  && all_chars (fun c => negb (Ascii.eqb c "/") && negb (Ascii.eqb c "000")) s.

(** A mode that stays inside its run directory: the name of its video and
    the name of its frames directory are plain names.  Its title is ASCII
    text, on which [lower] is [str.lower]. *)
Definition plain_mode (mode : Mode) : bool :=
  plain_name (m_filename mode) && plain_name (frames_dir_name (m_title mode))
  && all_chars is_ascii (m_title mode).

(** ** Predicates used in the statements *)

(** What [os.makedirs] leaves behind when it returns. *)
Record made_dir (parent name : string) (w w' : World) : Prop := {
  md_solves : w_solves w' = w_solves w;
  md_writes : w_writes w' = w_writes w;
  md_parent : is_Some (w_fs w' !! parent);
  md_child : is_Some (w_fs w' !! path_join parent name);
  md_entry : lookup_node (w_fs w') parent name = Some Dir;
  md_other_dirs : forall d, d <> parent -> d <> path_join parent name ->
                            w_fs w' !! d = w_fs w !! d;
  md_nodes : forall d n, (d, n) <> (parent, name) ->
                         lookup_node (w_fs w') d n = lookup_node (w_fs w) d n;
  md_no_file : forall f, lookup_node (w_fs w) parent name <> Some (File f)
}.

(** What holds when lines 67 to 107 of [process_mode] complete. *)
Record setup_done (ext : Externals) (mode : Mode) (render_dir : string)
    (settings : Settings) (w : World) (cx : ModeContext) (w1 : World) : Prop := {
  sd_pde : ext_PDE ext (pde_of mode) = None;
  sd_radius : py_truediv (F64.of_Z 1) (ZOOM_FACTOR settings) = Ok (cx_RADIUS cx);
  sd_grid : cx_grid cx = {| g_radius := cx_RADIUS cx;
                            g_resolution := RESOLUTION settings;
                            g_periodic := negb (FIXED_BOUNDARY settings) |};
  sd_grid_ok : ext_CartesianGrid ext (cx_grid cx) = None;
  sd_eq : cx_eq cx = pde_of mode;
  sd_mask : circular_mask settings = Ok (cx_circular_mask cx);
  sd_state : exists b_over_a,
      py_truediv (m_b mode) (m_a mode) = Ok b_over_a
      /\ let n := Z.to_nat (RESOLUTION settings) in
         let u := full n n (m_a mode) in
         let v := (fun row : list float =>
                     (fun c => F64.add b_over_a (F64.mul F64.one_tenth c)) <$> row)
                  <$> tabulate n n (ext_random_normal ext (w_rng w)) in
         cx_state cx = if FIXED_BOUNDARY settings
                       then (zero_outside (cx_circular_mask cx) u,
                             zero_outside (cx_circular_mask cx) v)
                       else (u, v);
  sd_frames_dir : cx_frames_dir cx = path_join render_dir (frames_dir_name (m_title mode));
  sd_made : made_dir render_dir (frames_dir_name (m_title mode)) w w1;
  sd_logged : w_log w1 = w_log w ++
      [(INFO, MsgStartingMode (m_title mode));
       (DEBUG, MsgFramesDirCreated (m_title mode) (cx_frames_dir cx))]
}.

(** The footprint of one mode: directories other than the run directory
    [rd] and the frames directory [fd] are untouched, every call of the
    solver carries the time step [dt], and every file opened for writing
    lies in [rd] or [fd]. *)
Record mode_effect (rd fd : string) (dt : float) (w w' : World) : Prop := {
  me_dirs : forall d, d <> rd -> d <> fd -> w_fs w' !! d = w_fs w !! d;
  me_solves : exists calls, w_solves w' = w_solves w ++ calls
                            /\ Forall (fun c => sc_dt c = dt) calls;
  me_writes : exists new, w_writes w' = w_writes w ++ new
                          /\ Forall (fun p => p.1 = rd \/ p.1 = fd) new
}.

(** Every run of [m] relates the world before to the world after. *)
Definition respects {A} (R : World -> World -> Prop) (m : M A) : Prop :=
  forall w r w', m w = (r, w') -> R w w'.

(** The solver is called only with the arguments of [call]. *)
Definition calls_only (call : solve_call) (w w' : World) : Prop :=
  exists calls, w_solves w' = w_solves w ++ calls
                /\ Forall (fun c => c = call) calls.

(** What the run number is, independently of the order of the listing. *)
Definition is_next_render_number (ext : Externals) (names : list string) (N : Z) : Prop :=
  1 <= N
  /\ (forall name, name ∈ names -> isdigit ext name = true ->
                   exists n, py_int ext name = Ok n /\ n < N)
  /\ (N = 1 \/ exists name, name ∈ names /\ isdigit ext name = true
                            /\ py_int ext name = Ok (N - 1)).



(** *** Footprint of a mode, and characters of a title *)

(** The entries one call of [process_mode] may create or replace: in the
    run directory [rd] the video file and the entry of the frames
    directory, in the frames directory the frame files. *)
Definition mode_may_touch (mode : Mode) (rd d n : string) : Prop :=
  (d = rd /\ (n = m_filename mode \/ n = frames_dir_name (m_title mode)))
  \/ (d = path_join rd (frames_dir_name (m_title mode)) /\ exists i, n = frame_name i).

(** The files one call of [process_mode] may open for writing. *)
Definition mode_may_write (mode : Mode) (rd : string) (p : string * string) : Prop :=
  p = (rd, m_filename mode)
  \/ exists i, p = (path_join rd (frames_dir_name (m_title mode)), frame_name i).

(** The footprint of a mode on the file tree. *)
Record mode_footprint (mode : Mode) (rd : string) (w w' : World) : Prop := {
  mf_dirs : forall d, d <> rd -> d <> path_join rd (frames_dir_name (m_title mode)) ->
                      w_fs w' !! d = w_fs w !! d;
  mf_nodes : forall d n, ~ mode_may_touch mode rd d n ->
                         lookup_node (w_fs w') d n = lookup_node (w_fs w) d n;
  mf_writes : exists new, w_writes w' = w_writes w ++ new
                          /\ Forall (mode_may_write mode rd) new
}.

(** The footprint of the statements of a mode other than the call of the
    solver. *)
Definition mode_quiet (mode : Mode) (rd : string) (w w' : World) : Prop :=
  mode_footprint mode rd w w' /\ w_solves w' = w_solves w.

Definition is_ascii_upper (c : ascii) : bool :=
  let n := nat_of_ascii c in (65 <=? n)%nat && (n <=? 90)%nat.

(** Neither a space nor an upper-case letter. *)
Definition is_normalised (c : ascii) : bool :=
  negb (Ascii.eqb c " ") && negb (is_ascii_upper c).

(** ** A small configuration, for examples *)

Definition demo_mode : Mode :=
  {| m_title := "Spots A"; m_a := F64.of_Z 1; m_b := F64.of_Z 3;
     m_d0 := F64.of_Z 1; m_d1 := F64.of_Z 10;
     m_filename := "spots.mp4"; m_description := "a = 1, b = 3" |}.

(** The same mode with [a = 0]. *)
Definition demo_mode_zero_a : Mode :=
  {| m_title := "Spots A"; m_a := F64.of_Z 0; m_b := F64.of_Z 3;
     m_d0 := F64.of_Z 1; m_d1 := F64.of_Z 10;
     m_filename := "spots.mp4"; m_description := "a = 0, b = 3" |}.

Definition demo_raw (zoom_factor resolution : Z) (fixed_boundary : bool) : RawSettings :=
  {| raw_resolution := resolution; raw_frame_rate := 30;
     raw_t_max := F64.of_Z 20; raw_dt := F64.of_Z 1;
     raw_color_vmin := F64.of_Z 0; raw_color_vmax := F64.of_Z 4;
     raw_u_color := "viridis"; raw_v_color := "plasma";
     raw_fixed_boundary := fixed_boundary;
     raw_zoom_factor := F64.of_Z zoom_factor;
     raw_modes := [demo_mode] |}.

Definition demo_settings (zoom_factor resolution : Z) (fixed_boundary : bool) : Settings :=
  match resolve_settings (demo_raw zoom_factor resolution fixed_boundary) with
  | Ok settings => settings
  | Raise _ =>
      {| s_raw := demo_raw zoom_factor resolution fixed_boundary;
         RESOLUTION := 0; FRAME_RATE := 0; T_MAX := F64.zero; DT := F64.zero;
         COLOR_VMIN := F64.zero; COLOR_VMAX := F64.zero; U_COLOR := ""; V_COLOR := "";
         FIXED_BOUNDARY := false; ZOOM_FACTOR := F64.zero |}
  end.

Definition demo_image : Image :=
  {| img_height := 1200; img_width := 1300; img_layers := 3; img_id := 0 |}.

(** A snapshot whose two fields hold [x] in each of the 2 x 2 cells. *)
Definition demo_snapshot (x : float) : Snapshot :=
  {| snap_u := [[x; x]; [x; x]]; snap_v := [[x; x]; [x; x]] |}.

(** The character tables, cut down to the superscripts one, two and
    three (in UTF-8 the byte 194 followed by 185, 178 or 179): digits for
    [str.isdigit], alone or among ASCII digits, and no literal for [int].
    No other text outside ASCII is taken for a digit string. *)
Fixpoint demo_isdigit (s : string) : bool :=
  match s with
  | EmptyString => true
  | String c rest =>
      if is_ascii_digit c then demo_isdigit rest
      else match rest with
           | String c' rest' =>
               Ascii.eqb c "194"
               && (Ascii.eqb c' "178" || Ascii.eqb c' "179" || Ascii.eqb c' "185")
               && demo_isdigit rest'
           | EmptyString => false
           end
  end.

Definition demo_int (s : string) : option N := None.

(** Libraries that accept every input, draw no noise, track [items] and
    render every figure as [demo_image]. *)
Definition demo_ext (items : list (float * Snapshot)) : Externals :=
  {| ext_PDE := fun _ => None;
     ext_CartesianGrid := fun _ => None;
     ext_random_normal := fun _ _ _ => F64.zero;
     ext_solve := fun _ _ _ _ _ => Solved items;
     ext_savefig := fun _ => Ok demo_image;
     ext_isdigit := demo_isdigit;
     ext_int := demo_int |}.

Definition demo_world : World :=
  {| w_fs := ∅; w_log := []; w_rng := 0; w_solves := []; w_writes := [] |}.

(** Two finite snapshots; a finite one followed by one holding a NaN. *)
Definition demo_items : list (float * Snapshot) :=
  [(F64.of_Z 0, demo_snapshot (F64.of_Z 1)); (F64.of_Z 1, demo_snapshot (F64.of_Z 2))].

Definition demo_items_nan : list (float * Snapshot) :=
  [(F64.of_Z 0, demo_snapshot (F64.of_Z 1)); (F64.of_Z 1, demo_snapshot S754_nan);
   (F64.of_Z 2, demo_snapshot (S754_infinity false))].

Definition demo_run_dir : string := "results/1".

(** The context and the world that initialisation leaves in the small
    configuration (zoom factor 2, resolution 2, fixed boundary). *)
Definition demo_setup (items : list (float * Snapshot)) : res ModeContext * World :=
  process_mode_setup (demo_ext items) demo_mode demo_run_dir
    (demo_settings 2 2 true) demo_world.

Definition demo_cx (items : list (float * Snapshot)) : ModeContext :=
  match (demo_setup items).1 with
  | Ok cx => cx
  | Raise _ =>
      {| cx_eq := pde_of demo_mode;
         cx_grid := {| g_radius := F64.zero; g_resolution := 0; g_periodic := false |};
         cx_RADIUS := F64.zero; cx_circular_mask := []; cx_state := ([], []);
         cx_frames_dir := "" |}
  end.

(** A frames directory holding two readable frames, one corrupt frame and
    a file that is no frame, next to its run directory. *)
Definition demo_frames : gmap string node :=
  <["frame_0000.png" := File (FImage demo_image)]>
    (<["frame_0001.png" := File (FData 7)]>
       (<["frame_0002.png" := File (FImage demo_image)]>
          (<["notes.txt" := File (FData 8)]> ∅))).

(** The video of the mode, just opened. *)
Definition demo_video : Video :=
  {| vid_fourcc := "mp4v"; vid_fps := 30; vid_size := (1300, 1200); vid_frames := [] |}.

Definition demo_video_world : World :=
  {| w_fs := <[demo_run_dir := <["spots.mp4" := File (FVideo demo_video)]>
                                 (<["frames_spots_a" := Dir]> ∅)]>
               (<[path_join demo_run_dir "frames_spots_a" := demo_frames]> ∅);
     w_log := []; w_rng := 0; w_solves := []; w_writes := [] |}.

(** Libraries as in [demo_ext], with a solver that raises [e]. *)
Definition demo_ext_solver_raises (e : exn) : Externals :=
  {| ext_PDE := fun _ => None;
     ext_CartesianGrid := fun _ => None;
     ext_random_normal := fun _ _ _ => F64.zero;
     ext_solve := fun _ _ _ _ _ => SolveRaised e;
     ext_savefig := fun _ => Ok demo_image;
     ext_isdigit := demo_isdigit;
     ext_int := demo_int |}.


(** Libraries as in [demo_ext], with a renderer that fails on a figure
    whose first layer shows a value of at least [x]. *)
Definition demo_ext_savefig_fails (x : float) (items : list (float * Snapshot))
  : Externals :=
  {| ext_PDE := fun _ => None;
     ext_CartesianGrid := fun _ => None;
     ext_random_normal := fun _ _ _ => F64.zero;
     ext_solve := fun _ _ _ _ _ => Solved items;
     ext_savefig := fun fig =>
       if existsb (existsb (fun c => match c with
                                     | Some y => F64.leb x y
                                     | None => false
                                     end)) (fig_u fig)
       then Raise (LibraryError 3)
       else Ok demo_image;
     ext_isdigit := demo_isdigit;
     ext_int := demo_int |}.

Definition demo_stale_image : Image :=
  {| img_height := 1200; img_width := 1300; img_layers := 3; img_id := 7 |}.

(** A run directory whose frames directory holds a frame of an earlier
    mode of the same title. *)
Definition demo_stale_world : World :=
  {| w_fs := <[demo_run_dir := <["frames_spots_a" := Dir]> ∅]>
               (<[path_join demo_run_dir "frames_spots_a" :=
                    <["frame_0007.png" := File (FImage demo_stale_image)]> ∅]> ∅);
     w_log := []; w_rng := 0; w_solves := []; w_writes := [] |}.



(** [demo_mode] with a video named as its frames directory. *)
Definition demo_mode_clash : Mode :=
  {| m_title := "Spots A"; m_a := F64.of_Z 1; m_b := F64.of_Z 3;
     m_d0 := F64.of_Z 1; m_d1 := F64.of_Z 10;
     m_filename := "frames_spots_a"; m_description := "a = 1, b = 3" |}.

Arguments F64.of_Z : simpl never.
Arguments F64.add : simpl never.
Arguments F64.mul : simpl never.
Arguments F64.div : simpl never.
Arguments F64.sqrt : simpl never.
Arguments F64.leb : simpl never.
Arguments F64.half_of : simpl never.

(** * Properties *)

(** ** Running monadic code *)

Lemma bind_ok {A B} (m : M A) (k : A -> M B) w a w1 :
  m w = (Ok a, w1) -> bind m k w = k a w1.
Proof. intros H. unfold bind. by rewrite H. Qed.

Lemma bind_raise {A B} (m : M A) (k : A -> M B) w e w1 :
  m w = (Raise e, w1) -> bind m k w = (Raise e, w1).
Proof. intros H. unfold bind. by rewrite H. Qed.

Lemma bind_inv {A B} (m : M A) (k : A -> M B) w r w2 :
  bind m k w = (r, w2) ->
  (exists a w1, m w = (Ok a, w1) /\ k a w1 = (r, w2))
  \/ (exists e, m w = (Raise e, w2) /\ r = Raise e).
Proof.
  unfold bind. destruct (m w) as [[a|e] w1]; intros H.
  - left. eauto.
  - right. inversion H; subst. eauto.
Qed.

Lemma py_truediv_zero x y : F64.is_zero y = true -> py_truediv x y = Raise ZeroDivisionError.
Proof. intros H. unfold py_truediv. by rewrite H. Qed.

Lemma py_truediv_ok x y q : py_truediv x y = Ok q -> F64.is_zero y = false /\ q = F64.div x y.
Proof. unfold py_truediv. destruct (F64.is_zero y); [done|]. intros [= <-]. done. Qed.

Lemma py_truediv_raise x y e : py_truediv x y = Raise e -> e = ZeroDivisionError.
Proof. unfold py_truediv. destruct (F64.is_zero y); congruence. Qed.

Lemma setup_zero_a ext mode render_dir settings w :
  F64.is_zero (m_a mode) = true ->
  let grid := {| g_radius := F64.div (F64.of_Z 1) (ZOOM_FACTOR settings);
                 g_resolution := RESOLUTION settings;
                 g_periodic := negb (FIXED_BOUNDARY settings) |} in
  exists e w',
    process_mode_setup ext mode render_dir settings w = (Raise e, w')
    /\ w_solves w' = w_solves w /\ w_fs w' = w_fs w /\ w_writes w' = w_writes w
    /\ w_rng w' = w_rng w
    /\ e = match ext_PDE ext (pde_of mode) with
           | Some raised => raised
           | None =>
               if F64.is_zero (ZOOM_FACTOR settings) then ZeroDivisionError
               else match ext_CartesianGrid ext grid with
                    | Some raised => raised
                    | None => ZeroDivisionError
                    end
           end.
Proof.
  intros Ha grid. unfold process_mode_setup, bind, logging, construct, lift, raise, ret.
  destruct (ext_PDE ext (pde_of mode)) as [e|] eqn:HP.
  { eexists _, _. split; [reflexivity|]. by simpl. }
  unfold py_truediv at 1.
  destruct (F64.is_zero (ZOOM_FACTOR settings)) eqn:Hz.
  { eexists _, _. split; [reflexivity|]. by simpl. }
  fold grid.
  destruct (ext_CartesianGrid ext grid) as [e|] eqn:HG.
  { eexists _, _. split; [reflexivity|]. by simpl. }
  rewrite (py_truediv_zero _ _ Ha).
  eexists _, _. split; [reflexivity|]. by simpl.
Qed.

(** C10.  A mode whose reaction parameter [a] is zero never reaches the
    solver: [process_mode] raises during initialisation, before any call of
    [eq.solve] and without touching a file.  The exception is the
    [ZeroDivisionError] of a division ([b / a], or [1 / ZOOM_FACTOR] when the
    zoom factor is zero as well) unless the [PDE] constructor has rejected
    the equation of the mode, or the [CartesianGrid] constructor the grid
    of the settings, with an exception of its own; when both constructors
    accept, the exception is the [ZeroDivisionError]. *)
Theorem process_mode_zero_a_division_error ext mode render_dir settings w :
  F64.is_zero (m_a mode) = true ->
  let grid := {| g_radius := F64.div (F64.of_Z 1) (ZOOM_FACTOR settings);
                 g_resolution := RESOLUTION settings;
                 g_periodic := negb (FIXED_BOUNDARY settings) |} in
  exists e w',
    process_mode ext mode render_dir settings w = (Raise e, w')
    /\ w_solves w' = w_solves w
    /\ w_fs w' = w_fs w
    /\ w_writes w' = w_writes w
    /\ e = match ext_PDE ext (pde_of mode) with
           | Some raised => raised
           | None =>
               if F64.is_zero (ZOOM_FACTOR settings) then ZeroDivisionError
               else match ext_CartesianGrid ext grid with
                    | Some raised => raised
                    | None => ZeroDivisionError
                    end
           end
    /\ (ext_PDE ext (pde_of mode) = None -> ext_CartesianGrid ext grid = None ->
        e = ZeroDivisionError).
Proof.
  intros Ha grid.
  destruct (setup_zero_a ext mode render_dir settings w Ha)
    as (e & w' & Hrun & Hs & Hf & Hw & _ & He).
  exists e, w'. unfold process_mode. rewrite (bind_raise _ _ _ _ _ Hrun).
  repeat (split; [done|]). intros HP HG. fold grid in He. rewrite HP, HG in He.
  by destruct (F64.is_zero (ZOOM_FACTOR settings)).
Qed.

(** ** Strings and paths *)

Lemma length_append (a b : string) :
  String.length (a +:+ b) = (String.length a + String.length b)%nat.
Proof. induction a as [|c a IH]; simpl; [done|]. by rewrite IH. Qed.

Lemma all_chars_impl (p q : ascii -> bool) s :
  (forall c, q c = true -> p c = true) ->
  all_chars q s = true -> all_chars p s = true.
Proof.
  intros Hpq. induction s as [|c s IH]; [done|]. simpl.
  intros [Hc Hs]%andb_prop. by rewrite (Hpq c Hc), IH.
Qed.

Lemma path_join_ne d name : path_join d name <> d.
Proof.
  intros H. apply (f_equal String.length) in H.
  unfold path_join in H. rewrite !length_append in H. simpl in H. lia.
Qed.


(** ** The file tree under [os.makedirs] *)

Lemma lookup_node_register (fs : gmap string (gmap string node)) parent name d n :
  lookup_node (<[parent := <[name := Dir]> (default ∅ (fs !! parent))]> fs) d n =
  if decide (d = parent)
  then (if decide (n = name) then Some Dir else lookup_node fs parent n)
  else lookup_node fs d n.
Proof.
  unfold lookup_node. destruct (decide (d = parent)) as [->|Hd].
  - rewrite lookup_insert_eq. simpl. destruct (decide (n = name)) as [->|Hn].
    + by rewrite lookup_insert_eq.
    + rewrite lookup_insert_ne by done.
      destruct (fs !! parent); simpl; [done|]. by rewrite lookup_empty.
  - by rewrite lookup_insert_ne.
Qed.

Lemma lookup_node_new_dir (fs : gmap string (gmap string node)) child d n :
  fs !! child = None ->
  lookup_node (<[child := ∅]> fs) d n = lookup_node fs d n.
Proof.
  intros Hc. unfold lookup_node. destruct (decide (d = child)) as [->|Hd].
  - rewrite lookup_insert_eq, Hc. simpl. by rewrite lookup_empty.
  - by rewrite lookup_insert_ne.
Qed.

Lemma makedirs_in_inv parent name w r w' :
  makedirs_in parent name w = (r, w') ->
  (r = Raise FileExistsError /\ w' = w
   /\ exists f, lookup_node (w_fs w) parent name = Some (File f))
  \/ (r = Ok tt /\ made_dir parent name w w').
Proof.
  unfold makedirs_in.
  set (child := path_join parent name).
  assert (Hne : child <> parent) by apply path_join_ne.
  assert (Hpd : default ∅ (w_fs w !! parent) !! name = lookup_node (w_fs w) parent name).
  { unfold lookup_node. destruct (w_fs w !! parent); simpl; [done|].
    by rewrite lookup_empty. }
  pose proof (lookup_node_register (w_fs w) parent name) as H1.
  set (fs1 := <[parent := <[name := Dir]> (default ∅ (w_fs w !! parent))]> (w_fs w)) in *.
  assert (HP : is_Some (fs1 !! parent)) by (unfold fs1; rewrite lookup_insert_eq; eauto).
  assert (Hnofile :
            forall w2, w_solves w2 = w_solves w -> w_writes w2 = w_writes w ->
              (w_fs w2 = fs1 /\ is_Some (fs1 !! child)
               \/ w_fs w2 = <[child := ∅]> fs1 /\ fs1 !! child = None) ->
              (forall f, default ∅ (w_fs w !! parent) !! name <> Some (File f)) ->
              made_dir parent name w w2).
  { intros w2 Hs Hw Hfs Hnf. rewrite Hpd in Hnf.
    assert (Hlk : forall d n, lookup_node (w_fs w2) d n = lookup_node fs1 d n).
    { intros d n. destruct Hfs as [[-> _]|[-> Hc]]; [done|].
      by apply lookup_node_new_dir. }
    split; try done.
    - destruct Hfs as [[-> _]|[-> _]]; [done|]. by rewrite lookup_insert_ne.
    - destruct Hfs as [[-> ?]|[-> _]]; [done|]. rewrite lookup_insert_eq. eauto.
    - rewrite Hlk, H1. by rewrite !decide_True.
    - intros d Hd1 Hd2. destruct Hfs as [[-> _]|[-> _]];
        unfold fs1; by rewrite ?lookup_insert_ne by done.
    - intros d n Hdn. rewrite Hlk, H1.
      destruct (decide (d = parent)) as [->|]; [|done].
      destruct (decide (n = name)) as [->|]; [congruence|done]. }
  destruct (default ∅ (w_fs w !! parent) !! name) as [[|f0]|] eqn:Hn.
  - destruct (fs1 !! child) eqn:Hc; intros [= <- <-]; right; split; try done;
      apply Hnofile; simpl; try done; eauto.
  - intros [= <- <-]. left. rewrite <- Hpd. eauto.
  - destruct (fs1 !! child) eqn:Hc; intros [= <- <-]; right; split; try done;
      apply Hnofile; simpl; try done; eauto.
Qed.

Lemma makedirs_in_log parent name w r w' :
  makedirs_in parent name w = (r, w') -> w_log w' = w_log w /\ w_rng w' = w_rng w.
Proof.
  unfold makedirs_in.
  destruct (default ∅ (w_fs w !! parent) !! name) as [[|f0]|];
    repeat (match goal with |- context [match ?x with _ => _ end] => destruct x end);
    by intros [= <- <-].
Qed.

(** ** Initialisation of a mode *)

Lemma setup_ok_inv ext mode render_dir settings w cx w1 :
  process_mode_setup ext mode render_dir settings w = (Ok cx, w1) ->
  setup_done ext mode render_dir settings w cx w1.
Proof.
  unfold process_mode_setup, bind, logging, construct, lift, raise, ret, random_normal.
  destruct (ext_PDE ext (pde_of mode)) as [e|] eqn:HP; [done|].
  destruct (py_truediv (F64.of_Z 1) (ZOOM_FACTOR settings)) as [R|e] eqn:HR; [|done].
  match goal with |- context [ext_CartesianGrid ext ?g] =>
    destruct (ext_CartesianGrid ext g) as [e|] eqn:HG; [done|] end.
  destruct (py_truediv (m_b mode) (m_a mode)) as [ba|e] eqn:Hba; [|done].
  destruct (mask_threshold R (RESOLUTION settings)) as [thr|e] eqn:Hthr; [|done].
  match goal with |- context [makedirs_in ?p ?n ?w0] =>
    destruct (makedirs_in p n w0) as [[[]|e] wm] eqn:Hmk; [|done] end.
  intros [= <- <-]. simpl.
  pose proof (makedirs_in_log _ _ _ _ _ Hmk) as [Hlog _].
  apply makedirs_in_inv in Hmk as [(? & _)|(_ & Hmd)]; [done|].
  destruct Hmd. simpl in *.
  split; simpl; try done.
  - unfold circular_mask. by rewrite HR, Hthr.
  - eauto.
  - rewrite Hlog. simpl. by rewrite <- app_assoc.
Qed.

(** ** Grids *)

Lemma cell_tabulate {A} rows cols (f : nat -> nat -> A) y x :
  cell (tabulate rows cols f) y x =
  if decide (y < rows)%nat then (if decide (x < cols)%nat then Some (f y x) else None)
  else None.
Proof.
  unfold cell, tabulate. rewrite list_lookup_fmap.
  destruct (decide (y < rows)%nat) as [Hy|Hy].
  - rewrite lookup_seq_lt by done. simpl. rewrite list_lookup_fmap.
    destruct (decide (x < cols)%nat) as [Hx|Hx].
    + by rewrite lookup_seq_lt.
    + by rewrite lookup_seq_ge by lia.
  - by rewrite lookup_seq_ge by lia.
Qed.

Lemma cell_fmap {A B} (g : A -> B) (grid : list (list A)) y x :
  cell ((fun row : list A => g <$> row) <$> grid) y x = g <$> cell grid y x.
Proof.
  unfold cell. rewrite list_lookup_fmap. destruct (grid !! y) as [row|]; simpl; [|done].
  by rewrite list_lookup_fmap.
Qed.

Lemma cell_full rows cols a y x :
  cell (full rows cols a) y x =
  if decide (y < rows)%nat then (if decide (x < cols)%nat then Some a else None)
  else None.
Proof.
  unfold cell, full.
  destruct (decide (y < rows)%nat) as [Hy|Hy].
  - rewrite lookup_replicate_2 by done. simpl.
    destruct (decide (x < cols)%nat) as [Hx|Hx].
    + by rewrite lookup_replicate_2.
    + apply lookup_replicate_None. lia.
  - assert (replicate rows (replicate cols a) !! y = None) as ->; [|done].
    apply lookup_replicate_None. lia.
Qed.

Lemma cell_zip_with {A B C} (g : A -> B -> C) (l : list (list A)) (k : list (list B)) y x :
  cell (zip_with (zip_with g) l k) y x =
  match cell l y x, cell k y x with
  | Some a, Some b => Some (g a b)
  | _, _ => None
  end.
Proof.
  unfold cell. rewrite lookup_zip_with.
  destruct (l !! y) as [lr|]; simpl; [|done].
  destruct (k !! y) as [kr|]; simpl.
  - rewrite lookup_zip_with.
    destruct (lr !! x); simpl; [|done]. by destruct (kr !! x).
  - by destruct (lr !! x).
Qed.

Lemma cell_circular_mask_of resolution threshold y x :
  is_Some (cell (circular_mask_of resolution threshold) y x) <->
  (y < Z.to_nat resolution)%nat /\ (x < Z.to_nat resolution)%nat.
Proof.
  unfold circular_mask_of, dist_from_center. rewrite cell_fmap, cell_tabulate.
  repeat case_decide; simpl; split; intros Hc; try done; try lia;
    by destruct Hc as [? ?].
Qed.

Lemma circular_mask_ok settings mask :
  circular_mask settings = Ok mask ->
  exists threshold, mask = circular_mask_of (RESOLUTION settings) threshold.
Proof.
  unfold circular_mask.
  destruct (py_truediv _ _) as [R|]; [|done].
  destruct (mask_threshold _ _) as [thr|]; [|done].
  intros [= <-]. eauto.
Qed.

(** C2.  With [FIXED_BOUNDARY] set, the state that initialisation hands to
    the solver has the shape of the computed circular mask, and every cell
    of [u] and of [v] lying outside that mask is exactly zero. *)
Theorem fixed_boundary_zero_outside_mask ext mode render_dir settings w cx w1 :
  FIXED_BOUNDARY settings = true ->
  process_mode_setup ext mode render_dir settings w = (Ok cx, w1) ->
  circular_mask settings = Ok (cx_circular_mask cx)
  /\ forall y x,
       (is_Some (cell (cx_state cx).1 y x) <-> is_Some (cell (cx_circular_mask cx) y x))
       /\ (is_Some (cell (cx_state cx).2 y x) <-> is_Some (cell (cx_circular_mask cx) y x))
       /\ (cell (cx_circular_mask cx) y x = Some false ->
           cell (cx_state cx).1 y x = Some F64.zero
           /\ cell (cx_state cx).2 y x = Some F64.zero).
Proof.
  intros Hfixed Hrun. apply setup_ok_inv in Hrun as [].
  split; [done|]. intros y x.
  destruct sd_state0 as (ba & _ & Hst). simpl in Hst. rewrite Hfixed in Hst.
  rewrite Hst. simpl.
  destruct (circular_mask_ok _ _ sd_mask0) as [thr Hmask].
  pose proof (cell_circular_mask_of (RESOLUTION settings) thr y x) as Hshape.
  rewrite <- Hmask in Hshape.
  unfold zero_outside. rewrite !cell_zip_with, cell_fmap, cell_full, cell_tabulate.
  destruct (cell (cx_circular_mask cx) y x) as [m|] eqn:Hm.
  - destruct Hshape as [Hshape _]. destruct Hshape as [Hy Hx]; [eauto|].
    rewrite !decide_True by done. simpl.
    repeat split; eauto; intros; by simplify_eq.
  - repeat split; try done. all: intros [? ?]; done.
Qed.

(** ** Validation of the snapshots *)

Lemma set_log_set_log l l' w : set_log l (set_log l' w) = set_log l w.
Proof. reflexivity. Qed.

Lemma validate_all_finite title items w :
  forallb (fun item => negb (invalid_item item)) items = true ->
  for_each items (validate_snapshot title) w = (Ok tt, w).
Proof.
  induction items as [|[t s] items IH]; simpl; [done|].
  intros [Hs Hrest]%andb_prop. unfold invalid_item in Hs. simpl in Hs.
  unfold bind at 1. unfold validate_snapshot, bind, check_for_invalid_values.
  destruct (has_invalid_values (snapshot_data s)); [done|]. simpl. by apply IH.
Qed.

Lemma validate_first_invalid title items w t s :
  List.find invalid_item items = Some (t, s) ->
  for_each items (validate_snapshot title) w =
  (Raise (ValueError (ErrInvalidValues title t)),
   set_log (w_log w ++ [(ERROR, MsgInvalidValues title t);
                        (DEBUG, MsgDebugInfoFor title t);
                        (DEBUG, MsgMinMax (snapshot_data s));
                        (DEBUG, MsgMeanStd (snapshot_data s))]) w).
Proof.
  induction items as [|[t0 s0] items IH]; simpl; [done|].
  unfold invalid_item at 1. simpl.
  unfold bind at 1. unfold validate_snapshot, bind, check_for_invalid_values.
  destruct (has_invalid_values (snapshot_data s0)) eqn:Hinv.
  - intros [= -> ->]. unfold print_debug_info, bind, logging, ret, raise. simpl.
    rewrite <- !app_assoc. reflexivity.
  - intros Hfind. simpl. by apply IH.
Qed.

(** The world right after the call of [eq.solve]. *)
Lemma eq_solve_run ext eq grid state t_range dt w :
  eq_solve ext eq grid state t_range dt w =
  (match ext_solve ext eq grid state t_range dt with
   | Solved items => Ok items
   | SolveRaised e => Raise e
   end,
   set_solves (w_solves w ++ [{| sc_t_range := t_range; sc_dt := dt |}]) w).
Proof. unfold eq_solve. by destruct (ext_solve _ _ _ _ _ _). Qed.

Lemma solve_and_validate_finite ext title settings cx w items :
  ext_solve ext (cx_eq cx) (cx_grid cx) (cx_state cx) (T_MAX settings) (DT settings)
    = Solved items ->
  forallb (fun item => negb (invalid_item item)) items = true ->
  solve_and_validate ext title settings cx w =
  (Ok (Some items),
   set_solves (w_solves w ++ [{| sc_t_range := T_MAX settings; sc_dt := DT settings |}]) w).
Proof.
  intros Hsolve Hfin. unfold solve_and_validate, try_except, bind.
  rewrite eq_solve_run, Hsolve. by rewrite (validate_all_finite _ _ _ Hfin).
Qed.

Lemma solve_and_validate_invalid ext title settings cx w items t s :
  ext_solve ext (cx_eq cx) (cx_grid cx) (cx_state cx) (T_MAX settings) (DT settings)
    = Solved items ->
  List.find invalid_item items = Some (t, s) ->
  solve_and_validate ext title settings cx w =
  (Ok None,
   set_log (w_log w ++ [(ERROR, MsgInvalidValues title t);
                        (DEBUG, MsgDebugInfoFor title t);
                        (DEBUG, MsgMinMax (snapshot_data s));
                        (DEBUG, MsgMeanStd (snapshot_data s));
                        (ERROR, MsgWarningOrError title
                                  (ValueError (ErrInvalidValues title t)))])
     (set_solves (w_solves w ++
        [{| sc_t_range := T_MAX settings; sc_dt := DT settings |}]) w)).
Proof.
  intros Hsolve Hfind. unfold solve_and_validate, try_except, bind.
  rewrite eq_solve_run, Hsolve. rewrite (validate_first_invalid _ _ _ _ _ Hfind).
  simpl. unfold logging, ret. simpl. rewrite <- !app_assoc. reflexivity.
Qed.

(** C1.  When the snapshot sequence of a mode holds a NaN or an infinity,
    [process_mode] logs the error and the diagnostic statistics of the first
    offending snapshot, logs the abort and returns: no file is opened for
    writing, so the mode gets neither frame files nor a video file. *)
Theorem process_mode_aborts_on_invalid_snapshot
    ext mode render_dir settings w cx w1 items t s :
  process_mode_setup ext mode render_dir settings w = (Ok cx, w1) ->
  ext_solve ext (cx_eq cx) (cx_grid cx) (cx_state cx) (T_MAX settings) (DT settings)
    = Solved items ->
  List.find invalid_item items = Some (t, s) ->
  exists w',
    process_mode ext mode render_dir settings w = (Ok tt, w')
    /\ w_log w' = w_log w1 ++
         [(ERROR, MsgInvalidValues (m_title mode) t);
          (DEBUG, MsgDebugInfoFor (m_title mode) t);
          (DEBUG, MsgMinMax (snapshot_data s));
          (DEBUG, MsgMeanStd (snapshot_data s));
          (ERROR, MsgWarningOrError (m_title mode)
                    (ValueError (ErrInvalidValues (m_title mode) t)))]
    /\ w_writes w' = w_writes w
    /\ w_fs w' = w_fs w1
    /\ (forall d n f, lookup_node (w_fs w') d n = Some (File f) ->
                      lookup_node (w_fs w) d n = Some (File f)).
Proof.
  intros Hsetup Hsolve Hfind.
  pose proof (setup_ok_inv _ _ _ _ _ _ _ Hsetup) as [].
  eexists. unfold process_mode.
  rewrite (bind_ok _ _ _ _ _ Hsetup).
  rewrite (bind_ok _ _ _ _ _
             (solve_and_validate_invalid _ _ _ _ _ _ _ _ Hsolve Hfind)).
  split; [reflexivity|]. simpl. destruct sd_made0.
  repeat split; try done.
  intros d n f Hf. rewrite md_nodes0 in Hf; [done|].
  intros [= -> ->]. rewrite md_entry0 in Hf. done.
Qed.

(** ** The encoder loop *)

Lemma video_write_open rd fname frame w v :
  lookup_node (w_fs w) rd fname = Some (File (FVideo v)) ->
  exists w',
    video_write rd fname frame w = (Ok tt, w')
    /\ lookup_node (w_fs w') rd fname = Some (File (FVideo (video_append v [frame])))
    /\ (forall d, d <> rd -> w_fs w' !! d = w_fs w !! d)
    /\ (forall n, n <> fname -> lookup_node (w_fs w') rd n = lookup_node (w_fs w) rd n)
    /\ w_log w' = w_log w /\ w_writes w' = w_writes w /\ w_solves w' = w_solves w.
Proof.
  unfold lookup_node, video_write. destruct (w_fs w !! rd) as [entries|] eqn:Hrd; [|done].
  simpl. intros ->. eexists. split; [reflexivity|]. simpl.
  rewrite lookup_insert_eq. simpl. rewrite lookup_insert_eq.
  repeat split; try done.
  - intros d Hd. by rewrite lookup_insert_ne.
  - intros n Hn. by rewrite lookup_insert_ne.
Qed.

(** Whatever the state of the writer, [out.write] returns and changes at
    most the directory of the video. *)
Lemma video_write_frame rd fname frame w :
  exists w',
    video_write rd fname frame w = (Ok tt, w')
    /\ (forall d, d <> rd -> w_fs w' !! d = w_fs w !! d)
    /\ w_writes w' = w_writes w /\ w_solves w' = w_solves w.
Proof.
  unfold video_write. destruct (w_fs w !! rd) as [entries|] eqn:Hrd; [|by eexists].
  destruct (entries !! fname) as [[|[| | | |]]|]; try by eexists.
  eexists. split; [reflexivity|]. simpl. repeat split; try done.
  intros d Hd. by rewrite lookup_insert_ne.
Qed.

Lemma encode_loop fd rd fname entries names : forall w v,
  fd <> rd ->
  w_fs w !! fd = Some entries ->
  lookup_node (w_fs w) rd fname = Some (File (FVideo v)) ->
  exists w',
    for_each names (encode_frame fd rd fname) w = (Ok tt, w')
    /\ lookup_node (w_fs w') rd fname =
         Some (File (FVideo (video_append v
            (omap (fun name => decode_node (entries !! name)) names))))
    /\ (forall d, d <> rd -> w_fs w' !! d = w_fs w !! d)
    /\ (forall n, n <> fname -> lookup_node (w_fs w') rd n = lookup_node (w_fs w) rd n)
    /\ w_log w' = w_log w ++
         ((fun name => (WARNING, MsgErrorReadingFrame name)) <$>
            filter (fun name => decode_node (entries !! name) = None) names)
    /\ w_writes w' = w_writes w /\ w_solves w' = w_solves w.
Proof.
  induction names as [|name names IH]; intros w v Hne Hfd Hv.
  - eexists. split; [reflexivity|]. simpl. rewrite app_nil_r.
    repeat split; try done. rewrite Hv. by destruct v; unfold video_append; simpl; rewrite app_nil_r.
  - simpl. unfold bind at 1. unfold encode_frame, bind, imread.
    assert (Hlk : lookup_node (w_fs w) fd name = entries !! name).
    { unfold lookup_node. by rewrite Hfd. }
    rewrite Hlk. rewrite filter_cons.
    destruct (decode_node (entries !! name)) as [img|] eqn:Hdec.
    + destruct (video_write_open rd fname img w v Hv)
        as (w1 & Hrun & Hv1 & Hd1 & Hn1 & Hl1 & Hw1 & Hs1).
      rewrite Hrun.
      destruct (IH w1 (video_append v [img]) Hne) as (w' & Hrun' & Hv' & Hd' & Hn' & Hl' & Hw' & Hs').
      { by rewrite Hd1. }
      { done. }
      exists w'. split; [done|].
      rewrite decide_False by done.
      repeat split.
      * rewrite Hv'. unfold video_append. simpl. by rewrite <- app_assoc.
      * intros d Hd. by rewrite Hd', Hd1.
      * intros n Hn. by rewrite Hn', Hn1.
      * by rewrite Hl', Hl1.
      * congruence.
      * congruence.
    + unfold logging.
      destruct (IH (set_log (w_log w ++ [(WARNING, MsgErrorReadingFrame name)]) w) v Hne)
        as (w' & Hrun' & Hv' & Hd' & Hn' & Hl' & Hw' & Hs'); [done..|].
      exists w'. split; [done|].
      rewrite decide_True by done.
      repeat split; try done.
      rewrite Hl'. simpl. by rewrite <- app_assoc.
Qed.

Lemma encode_loop_frame fd rd fname names : forall w,
  exists w',
    for_each names (encode_frame fd rd fname) w = (Ok tt, w')
    /\ (forall d, d <> rd -> w_fs w' !! d = w_fs w !! d)
    /\ w_writes w' = w_writes w /\ w_solves w' = w_solves w.
Proof.
  induction names as [|name names IH]; intros w.
  - by eexists.
  - simpl. unfold bind at 1. unfold encode_frame, bind, imread.
    destruct (decode_node _) as [img|].
    + destruct (video_write_frame rd fname img w) as (w1 & -> & Hd1 & Hw1 & Hs1).
      destruct (IH w1) as (w' & Hrun' & Hd' & Hw' & Hs').
      exists w'. split; [done|]. repeat split; try congruence.
      intros d Hd. by rewrite Hd', Hd1.
    + unfold logging.
      destruct (IH (set_log (w_log w ++ [(WARNING, MsgErrorReadingFrame name)]) w))
        as (w' & Hrun' & Hd' & Hw' & Hs').
      exists w'. by split.
Qed.

(** ** Frame file names *)

Lemma app_cons c (a b : string) : String c a +:+ b = String c (a +:+ b).
Proof. reflexivity. Qed.

Lemma app_inj_r (a b c : string) : a +:+ c = b +:+ c -> a = b.
Proof.
  intros H.
  assert (Hlen : String.length a = String.length b).
  { apply (f_equal String.length) in H. rewrite !length_append in H. lia. }
  revert b H Hlen. induction a as [|x a IH]; intros [|y b] H Hlen; try done.
  rewrite !app_cons in H. injection H as -> H. f_equal. apply IH; [done|].
  simpl in Hlen. lia.
Qed.

Lemma parse_nat_zeros k s n :
  parse_nat s = Some n ->
  parse_nat (string_of_list_ascii (repeat "0"%char k) +:+ s) = Some n.
Proof.
  intros Hs. induction k as [|k IH]; [done|].
  simpl. rewrite app_cons. unfold parse_nat in *. simpl.
  destruct (NilEmpty.uint_of_string (_ +:+ s)) as [d|]; [|done].
  simpl in *. by injection IH as <-.
Qed.

Lemma parse_nat_format n : parse_nat (format_04d n) = Some n.
Proof.
  unfold format_04d. apply parse_nat_zeros. unfold parse_nat.
  rewrite NilEmpty.usu. simpl. f_equal. apply DecimalNat.Unsigned.of_to.
Qed.

Lemma frame_name_inj i j : frame_name i = frame_name j -> i = j.
Proof.
  unfold frame_name. intros H.
  apply (inj (String.app "frame_")) in H. apply app_inj_r in H.
  apply (f_equal parse_nat) in H. rewrite !parse_nat_format in H. by injection H.
Qed.

(** ** The frame loop *)

Lemma render_frame_run ext mode settings cx size i t s w entries img :
  w_fs w !! cx_frames_dir cx = Some entries ->
  entries !! frame_name i <> Some Dir ->
  rendered_image ext mode settings cx s = Some img ->
  exists size',
    render_frame ext mode settings cx size (i, (t, s)) w =
    (Ok size',
     set_log (w_log w ++ [(INFO, MsgSavedFrame i (m_title mode) t)])
       (put_file (cx_frames_dir cx) (frame_name i) entries (FImage img) w)).
Proof.
  intros Hfd Hnd Himg. unfold rendered_image in Himg.
  unfold render_frame, bind, lift, write_file, logging.
  destruct (ext_savefig ext _) as [img'|]; [|done]. injection Himg as ->.
  rewrite Hfd.
  destruct (entries !! frame_name i) as [[|f]|] eqn:He; [done| |];
    destruct size; simpl; eauto;
    unfold imread, ret; simpl; destruct (decode_node _); eauto.
Qed.

Lemma render_loop ext mode settings cx frames : forall w size entries,
  w_fs w !! cx_frames_dir cx = Some entries ->
  NoDup frames.*1 ->
  (forall p, p ∈ frames ->
     is_Some (rendered_image ext mode settings cx p.2.2)
     /\ entries !! frame_name p.1 <> Some Dir) ->
  exists w' size' entries',
    for_fold frames size (render_frame ext mode settings cx) w = (Ok size', w')
    /\ w_fs w' !! cx_frames_dir cx = Some entries'
    /\ (forall p, p ∈ frames ->
          entries' !! frame_name p.1 =
          (fun img => File (FImage img)) <$> rendered_image ext mode settings cx p.2.2)
    /\ (forall name, (forall p, p ∈ frames -> frame_name p.1 <> name) ->
                     entries' !! name = entries !! name)
    /\ (forall d, d <> cx_frames_dir cx -> w_fs w' !! d = w_fs w !! d)
    /\ w_writes w' = w_writes w ++ ((fun p => (cx_frames_dir cx, frame_name p.1)) <$> frames)
    /\ w_log w' = w_log w ++
         ((fun p => (INFO, MsgSavedFrame p.1 (m_title mode) p.2.1)) <$> frames)
    /\ w_solves w' = w_solves w.
Proof.
  induction frames as [|[i [t s]] frames IH]; intros w size entries Hfd Hnd Hok.
  - exists w, size, entries. simpl. rewrite !app_nil_r.
    repeat split; try done. intros p Hp. by apply elem_of_nil in Hp.
  - apply NoDup_cons in Hnd as [Hi Hnd]. simpl in Hi.
    destruct (Hok (i, (t, s))) as [[img Himg] Hdir]; [left|]. simpl in *.
    destruct (render_frame_run ext mode settings cx size i t s w entries img
                Hfd Hdir Himg) as [size1 Hstep].
    simpl. rewrite (bind_ok _ _ _ _ _ Hstep).
    set (entries1 := <[frame_name i := File (FImage img)]> entries).
    edestruct (IH (set_log (w_log w ++ [(INFO, MsgSavedFrame i (m_title mode) t)])
                    (put_file (cx_frames_dir cx) (frame_name i) entries (FImage img) w))
                 size1 entries1)
      as (w' & size' & entries' & Hrun & Hfd' & Hin & Hout & Hd & Hw & Hl & Hs).
    { simpl. by rewrite lookup_insert_eq. }
    { done. }
    { intros p Hp. destruct (Hok p) as [? Hpd]; [by right|]. split; [done|].
      unfold entries1. destruct (decide (frame_name i = frame_name p.1)) as [->|Hne].
      - by rewrite lookup_insert_eq.
      - by rewrite lookup_insert_ne. }
    exists w', size', entries'. split; [done|]. split; [done|].
    assert (Hfresh : forall p, p ∈ frames -> frame_name p.1 <> frame_name i).
    { intros p Hp Heq. apply frame_name_inj in Heq. apply Hi.
      rewrite <- Heq. apply list_elem_of_fmap. eauto. }
    repeat split.
    + intros p [->|Hp]%elem_of_cons; simpl.
      * rewrite Hout by done. unfold entries1. rewrite lookup_insert_eq.
        by rewrite Himg.
      * by apply Hin.
    + intros name Hname. rewrite Hout.
      * unfold entries1. rewrite lookup_insert_ne; [done|].
        apply (Hname (i, (t, s))). left.
      * intros p Hp. apply Hname. by right.
    + intros d Hd'. rewrite Hd by done. simpl. by rewrite lookup_insert_ne.
    + rewrite Hw. simpl. by rewrite <- app_assoc.
    + rewrite Hl. simpl. by rewrite <- app_assoc.
    + by rewrite Hs.
Qed.

Lemma enumerate_indices {A} (xs : list A) : (enumerate xs).*1 = seq 0 (length xs).
Proof. unfold enumerate. apply fst_zip. by rewrite length_seq. Qed.

Lemma enumerate_lookup {A} (xs : list A) i x :
  xs !! i = Some x -> (i, x) ∈ enumerate xs.
Proof.
  intros Hx. unfold enumerate. apply list_elem_of_lookup. exists i.
  rewrite lookup_zip_with. rewrite lookup_seq_lt by (by eapply lookup_lt_Some).
  simpl. by rewrite Hx.
Qed.

Lemma enumerate_elem {A} (xs : list A) i x :
  (i, x) ∈ enumerate xs -> xs !! i = Some x.
Proof.
  unfold enumerate. intros (k & Hk)%list_elem_of_lookup.
  rewrite lookup_zip_with in Hk.
  destruct (seq 0 (length xs) !! k) as [j|] eqn:Hj; simpl in Hk; [|done].
  destruct (xs !! k) as [y|] eqn:Hy; simpl in Hk; [|done].
  apply lookup_seq in Hj as [-> _]. by simplify_eq.
Qed.

(** ** What a mode can change *)

Lemma mode_effect_same rd fd dt w w' :
  w_fs w' = w_fs w -> w_solves w' = w_solves w -> w_writes w' = w_writes w ->
  mode_effect rd fd dt w w'.
Proof.
  intros Hf Hs Hw. split.
  - intros. by rewrite Hf.
  - exists []. by rewrite app_nil_r.
  - exists []. by rewrite app_nil_r.
Qed.

Lemma mode_effect_trans rd fd dt w1 w2 w3 :
  mode_effect rd fd dt w1 w2 -> mode_effect rd fd dt w2 w3 -> mode_effect rd fd dt w1 w3.
Proof.
  intros [Hd1 (c1 & Hc1 & Hf1) (n1 & Hn1 & Hg1)] [Hd2 (c2 & Hc2 & Hf2) (n2 & Hn2 & Hg2)].
  split.
  - intros d H1 H2. by rewrite Hd2, Hd1.
  - exists (c1 ++ c2). rewrite Hc2, Hc1, <- app_assoc. split; [done|].
    by apply Forall_app.
  - exists (n1 ++ n2). rewrite Hn2, Hn1, <- app_assoc. split; [done|].
    by apply Forall_app.
Qed.


Lemma validate_effect title items : forall w r w',
  for_each items (validate_snapshot title) w = (r, w') ->
  w_fs w' = w_fs w /\ w_solves w' = w_solves w /\ w_writes w' = w_writes w.
Proof.
  induction items as [|[t s] items IH]; intros w r w'; simpl.
  - by intros [= <- <-].
  - unfold bind at 1. unfold validate_snapshot, bind, check_for_invalid_values.
    destruct (has_invalid_values (snapshot_data s)); simpl.
    + by intros [= <- <-].
    + intros H. by apply IH in H.
Qed.

Lemma solve_and_validate_effect ext title settings cx rd fd w r w' :
  solve_and_validate ext title settings cx w = (r, w') ->
  mode_effect rd fd (DT settings) w w'.
Proof.
  unfold solve_and_validate, try_except, bind. rewrite eq_solve_run.
  set (w0 := set_solves _ w).
  assert (H0 : forall w1, w_fs w1 = w_fs w0 -> w_solves w1 = w_solves w0 ->
                          w_writes w1 = w_writes w0 ->
                          mode_effect rd fd (DT settings) w w1).
  { intros w1 Hf Hs Hw. split.
    - intros. by rewrite Hf.
    - eexists. rewrite Hs. split; [reflexivity|]. by repeat constructor.
    - exists []. by rewrite app_nil_r, Hw. }
  destruct (ext_solve _ _ _ _ _ _) as [items|e].
  - destruct (for_each items _ w0) as [[[]|e] w1] eqn:Hv;
      apply validate_effect in Hv as (Hf & Hs & Hw).
    + intros [= <- <-]. by apply H0.
    + destruct (caught_by_process_mode e); intros [= <- <-]; by apply H0.
  - destruct (caught_by_process_mode e); intros [= <- <-]; by apply H0.
Qed.

Lemma write_file_inv d name f w r w' :
  write_file d name f w = (r, w') ->
  (w' = w /\ r <> Ok tt)
  \/ (exists entries, r = Ok tt /\ w_fs w !! d = Some entries
                      /\ w' = put_file d name entries f w).
Proof.
  unfold write_file. destruct (w_fs w !! d) as [entries|].
  - destruct (entries !! name) as [[|f0]|]; intros [= <- <-]; eauto.
  - intros [= <- <-]. eauto.
Qed.

Lemma render_frame_effect ext mode settings cx rd dt size p w r w' :
  render_frame ext mode settings cx size p w = (r, w') ->
  mode_effect rd (cx_frames_dir cx) dt w w'.
Proof.
  destruct p as [i [t s]]. unfold render_frame, bind, lift.
  destruct (ext_savefig ext _) as [img|e];
    [|intros [= <- <-]; by apply mode_effect_same].
  destruct (write_file _ _ _ w) as [[[]|e] w1] eqn:Hw.
  - apply write_file_inv in Hw as [[_ ?]|(entries & _ & Hfd & ->)]; [done|].
    assert (He : forall w2, w_fs w2 = w_fs (put_file (cx_frames_dir cx) (frame_name i)
                                              entries (FImage img) w) ->
                            w_solves w2 = w_solves w ->
                            w_writes w2 = w_writes w ++ [(cx_frames_dir cx, frame_name i)] ->
                            mode_effect rd (cx_frames_dir cx) dt w w2).
    { intros w2 Hf Hs Hwr. split.
      - intros d H1 H2. rewrite Hf. simpl. by rewrite lookup_insert_ne.
      - exists []. by rewrite app_nil_r.
      - eexists. split; [done|]. constructor; [by right|constructor]. }
    unfold logging, imread, ret. simpl.
    destruct size; [intros [= <- <-]; by apply He|].
    destruct (decode_node _); intros [= <- <-]; by apply He.
  - apply write_file_inv in Hw as [[-> _]|(? & ? & _)]; [|done].
    intros [= <- <-]. by apply mode_effect_same.
Qed.

Lemma render_loop_effect ext mode settings cx rd dt frames : forall size w r w',
  for_fold frames size (render_frame ext mode settings cx) w = (r, w') ->
  mode_effect rd (cx_frames_dir cx) dt w w'.
Proof.
  induction frames as [|p frames IH]; intros size w r w'; simpl.
  - intros [= <- <-]. by apply mode_effect_same.
  - unfold bind.
    destruct (render_frame ext mode settings cx size p w) as [[size1|e] w1] eqn:Hstep;
      apply (render_frame_effect _ _ _ _ rd dt) in Hstep.
    + intros H. apply IH in H. by eapply mode_effect_trans.
    + by intros [= <- <-].
Qed.

Lemma render_frames_effect ext mode settings cx rd dt items w r w' :
  render_frames ext mode settings cx items w = (r, w') ->
  mode_effect rd (cx_frames_dir cx) dt w w'.
Proof.
  unfold render_frames, bind.
  destruct (for_fold _ _ _ w) as [[size1|e] w1] eqn:Hloop;
    apply (render_loop_effect _ _ _ _ rd dt) in Hloop.
  - unfold logging. intros [= <- <-].
    eapply mode_effect_trans; [done|]. by apply mode_effect_same.
  - by intros [= <- <-].
Qed.

Lemma VideoWriter_effect rd name fourcc fps size fd dt w :
  exists w', VideoWriter rd name fourcc fps size w = (Ok tt, w')
             /\ mode_effect rd fd dt w w'
             /\ (w_writes w' = w_writes w \/ w_writes w' = w_writes w ++ [(rd, name)])
             /\ w_log w' = w_log w.
Proof.
  unfold VideoWriter.
  destruct (w_fs w !! rd) as [entries|];
    [|eexists; split; [done|]; split; [by apply mode_effect_same|eauto]].
  destruct (entries !! name) as [[|f]|];
    try (eexists; split; [done|]; split; [by apply mode_effect_same|eauto]).
  all: eexists; split; [done|]; split; [|simpl; eauto].
  all: split; simpl.
  all: try (intros d H1 H2; by rewrite lookup_insert_ne).
  all: try (exists []; by rewrite app_nil_r).
  all: eexists; split; [done|]; constructor; [by left|constructor].
Qed.

Lemma encode_video_effect mode rd settings cx fd dt w r w' :
  encode_video mode rd settings cx w = (r, w') ->
  mode_effect rd fd dt w w'
  /\ (w_writes w' = w_writes w \/ w_writes w' = w_writes w ++ [(rd, m_filename mode)]).
Proof.
  unfold encode_video, bind, imread.
  destruct (decode_node _) as [f|];
    [|intros [= <- <-]; split; [by apply mode_effect_same|by left]].
  destruct (VideoWriter_effect rd (m_filename mode) "mp4v" (FRAME_RATE settings)
              (img_width f, img_height f) fd dt w)
    as (w1 & -> & He1 & Hw1 & _).
  unfold encode_frames, bind, listdir.
  destruct (w_fs w1 !! cx_frames_dir cx) as [entries|]; [|by intros [= <- <-]].
  destruct (encode_loop_frame (cx_frames_dir cx) rd (m_filename mode)
              (frame_files_of (map_to_list entries).*1) w1)
    as (w2 & -> & Hd & Hw & Hs).
  unfold logging. intros [= <- <-]. split.
  - eapply mode_effect_trans; [done|]. split; simpl.
    + intros d H1 H2. by apply Hd.
    + exists []. by rewrite app_nil_r.
    + exists []. by rewrite app_nil_r.
  - simpl. rewrite Hw. done.
Qed.


(** ** Relational reasoning on statements *)

Section Respects.

Context (R : World -> World -> Prop).
Context (R_refl : forall w, R w w).
Context (R_trans : forall w1 w2 w3, R w1 w2 -> R w2 w3 -> R w1 w3).

Lemma respects_ret {A} (a : A) : respects R (ret a).
Proof using R_refl. intros w r w' [= <- <-]. apply R_refl. Qed.

Lemma respects_raise {A} e : respects R (@raise A e).
Proof using R_refl. intros w r w' [= <- <-]. apply R_refl. Qed.

Lemma respects_lift {A} (x : res A) : respects R (lift x).
Proof using R_refl. intros w r w' [= <- <-]. apply R_refl. Qed.

Lemma respects_bind {A B} (m : M A) (k : A -> M B) :
  respects R m ->
  (forall a w w1, m w = (Ok a, w1) -> respects R (k a)) ->
  respects R (bind m k).
Proof using R_trans.
  intros Hm Hk w r w'. unfold bind.
  destruct (m w) as [[a|e] w1] eqn:Hrun.
  - intros Hka. eapply R_trans; [by eapply Hm|]. by eapply Hk.
  - intros [= <- <-]. by eapply Hm.
Qed.

Lemma respects_for_each {A} (xs : list A) (body : A -> M unit) :
  (forall x, x ∈ xs -> respects R (body x)) ->
  respects R (for_each xs body).
Proof using R_refl R_trans.
  induction xs as [|x xs IH]; intros Hbody; simpl.
  - apply respects_ret.
  - apply respects_bind; [apply Hbody; left|].
    intros _ _ _ _. apply IH. intros y Hy. apply Hbody. by right.
Qed.

Lemma respects_apply_async (call : M unit) :
  respects R call -> respects R (apply_async call).
Proof.
  intros Hc w r w'. unfold apply_async. intros [= <- <-].
  destruct (call w) as [r1 w1] eqn:Hrun. simpl. by eapply Hc.
Qed.

End Respects.

Lemma resolve_settings_ok raw :
  exists settings, resolve_settings raw = Ok settings
                   /\ DT settings = F64.div (raw_dt raw) (F64.of_Z 100)
                   /\ s_raw settings = raw.
Proof.
  unfold resolve_settings, py_truediv.
  assert (F64.is_zero (F64.of_Z 100) = false) as -> by by vm_compute.
  eexists. split; [done|]. by split.
Qed.

(** ** Frames of a mode *)

(** The world in which the frame loop starts. *)
Lemma render_frames_run ext mode settings cx items w entries :
  w_fs w !! cx_frames_dir cx = Some entries ->
  (forall item, item ∈ items -> is_Some (rendered_image ext mode settings cx item.2)) ->
  (forall i, (i < length items)%nat -> entries !! frame_name i <> Some Dir) ->
  exists w' entries',
    render_frames ext mode settings cx items w = (Ok tt, w')
    /\ w_fs w' !! cx_frames_dir cx = Some entries'
    /\ (forall i item, items !! i = Some item ->
          entries' !! frame_name i =
          (fun img => File (FImage img)) <$> rendered_image ext mode settings cx item.2)
    /\ (forall name, (forall i, (i < length items)%nat -> frame_name i <> name) ->
                     entries' !! name = entries !! name)
    /\ (forall d, d <> cx_frames_dir cx -> w_fs w' !! d = w_fs w !! d)
    /\ w_writes w' = w_writes w ++
         ((fun i => (cx_frames_dir cx, frame_name i)) <$> seq 0 (length items))
    /\ w_solves w' = w_solves w.
Proof.
  intros Hfd Himg Hdir.
  destruct (render_loop ext mode settings cx (enumerate items) w None entries Hfd)
    as (w' & size' & entries' & Hrun & Hfd' & Hin & Hout & Hd & Hw & Hl & Hs).
  { rewrite enumerate_indices. apply NoDup_seq. }
  { intros [i item] Hp%enumerate_elem. simpl. split.
    - apply Himg. by eapply list_elem_of_lookup_2.
    - apply Hdir. by eapply lookup_lt_Some. }
  unfold render_frames. rewrite (bind_ok _ _ _ _ _ Hrun). unfold logging.
  eexists _, entries'. split; [reflexivity|]. simpl. repeat split; try done.
  - intros i item Hi. by apply (Hin (i, item)), enumerate_lookup.
  - intros name Hname. apply Hout. intros [i item] Hp%enumerate_elem. simpl.
    apply Hname. by eapply lookup_lt_Some.
  - rewrite Hw. f_equal. rewrite <- enumerate_indices.
    rewrite <- list_fmap_compose. done.
Qed.

(** C3.  When the solver returns and every snapshot is finite, the frame
    loop of [process_mode] opens exactly one file per tracked snapshot, named
    by the snapshot's index counted from 0, in snapshot order; the names are
    pairwise distinct, frame [i] holds the image rendered from snapshot [i],
    and the only other file the mode may open afterwards is its video.  The
    rendering library is assumed to return an image for each snapshot, and no
    directory to stand where a frame is to be written. *)
Theorem process_mode_one_frame_per_snapshot
    ext mode render_dir settings w cx w1 items :
  process_mode_setup ext mode render_dir settings w = (Ok cx, w1) ->
  ext_solve ext (cx_eq cx) (cx_grid cx) (cx_state cx) (T_MAX settings) (DT settings)
    = Solved items ->
  forallb (fun item => negb (invalid_item item)) items = true ->
  (forall item, item ∈ items -> is_Some (rendered_image ext mode settings cx item.2)) ->
  (forall i, (i < length items)%nat ->
     lookup_node (w_fs w1) (cx_frames_dir cx) (frame_name i) <> Some Dir) ->
  exists r w' video,
    process_mode ext mode render_dir settings w = (r, w')
    /\ w_writes w' = w_writes w ++
         ((fun i => (cx_frames_dir cx, frame_name i)) <$> seq 0 (length items)) ++ video
    /\ (video = [] \/ video = [(render_dir, m_filename mode)])
    /\ NoDup ((fun i => (cx_frames_dir cx, frame_name i)) <$> seq 0 (length items))
    /\ forall i item, items !! i = Some item ->
         lookup_node (w_fs w') (cx_frames_dir cx) (frame_name i) =
         (fun img => File (FImage img)) <$> rendered_image ext mode settings cx item.2.
Proof.
  intros Hsetup Hsolve Hfin Himg Hdir.
  pose proof (setup_ok_inv _ _ _ _ _ _ _ Hsetup) as []. destruct sd_made0.
  rewrite <- sd_frames_dir0 in *.
  destruct md_child0 as [entries Hfd].
  pose proof (solve_and_validate_finite ext (m_title mode) settings cx w1 items
                Hsolve Hfin) as Hsv.
  set (w1' := set_solves _ w1) in Hsv.
  destruct (render_frames_run ext mode settings cx items w1' entries)
    as (w2 & entries' & Hrender & Hfd' & Hin & Hout & Hd & Hw & Hs);
    [exact Hfd|exact Himg| |].
  { intros i Hi. specialize (Hdir i Hi). unfold lookup_node in Hdir.
    by rewrite Hfd in Hdir. }
  destruct (encode_video mode render_dir settings cx w2) as [r w3] eqn:Henc.
  pose proof (encode_video_effect _ _ _ _ render_dir (DT settings) _ _ _ Henc)
    as [[Hdirs _ _] Hvideo].
  exists r, w3. unfold process_mode.
  rewrite (bind_ok _ _ _ _ _ Hsetup), (bind_ok _ _ _ _ _ Hsv).
  rewrite (bind_ok _ _ _ _ _ Hrender), Henc.
  assert (Hne : cx_frames_dir cx <> render_dir)
    by (rewrite sd_frames_dir0; apply path_join_ne).
  destruct Hvideo as [Hv|Hv].
  - exists []. split; [done|]. rewrite app_nil_r. repeat split.
    + rewrite Hv, Hw. simpl. by rewrite md_writes0.
    + by left.
    + apply NoDup_fmap_2; [|apply NoDup_seq]. intros i j Hij.
      exact (frame_name_inj _ _ (f_equal snd Hij)).
    + intros i item Hi. unfold lookup_node. rewrite Hdirs by done. rewrite Hfd'. simpl.
      by apply Hin.
  - exists [(render_dir, m_filename mode)]. split; [done|]. repeat split.
    + rewrite Hv, Hw. simpl. by rewrite md_writes0, <- app_assoc.
    + by right.
    + apply NoDup_fmap_2; [|apply NoDup_seq]. intros i j Hij.
      exact (frame_name_inj _ _ (f_equal snd Hij)).
    + intros i item Hi. unfold lookup_node. rewrite Hdirs by done. rewrite Hfd'. simpl.
      by apply Hin.
Qed.

(** ** The video stage *)

Lemma encode_video_no_first_frame mode render_dir settings cx w :
  decode_node (lookup_node (w_fs w) (cx_frames_dir cx) "frame_0000.png") = None ->
  encode_video mode render_dir settings cx w =
  (Raise (ValueError (ErrText first_frame_not_found)), w).
Proof. intros H. unfold encode_video, bind, imread. by rewrite H. Qed.

(** C5.  A mode that reaches the video stage while its frames directory
    holds no readable [frame_0000.png] makes [process_mode] raise the
    [ValueError] "First frame not found..." right there: the world is left as
    the frame loop left it, every file opened so far lies in the frames
    directory, and no video file is opened. *)
Theorem process_mode_first_frame_not_found
    ext mode render_dir settings w cx w1 items w1' w2 :
  process_mode_setup ext mode render_dir settings w = (Ok cx, w1) ->
  solve_and_validate ext (m_title mode) settings cx w1 = (Ok (Some items), w1') ->
  render_frames ext mode settings cx items w1' = (Ok tt, w2) ->
  decode_node (lookup_node (w_fs w2) (cx_frames_dir cx) "frame_0000.png") = None ->
  process_mode ext mode render_dir settings w =
    (Raise (ValueError (ErrText first_frame_not_found)), w2)
  /\ cx_frames_dir cx <> render_dir
  /\ exists new, w_writes w2 = w_writes w ++ new
                 /\ Forall (fun p => p.1 = cx_frames_dir cx) new.
Proof.
  intros Hsetup Hsolve Hrender Hnone. split; [|split].
  - unfold process_mode.
    rewrite (bind_ok _ _ _ _ _ Hsetup), (bind_ok _ _ _ _ _ Hsolve).
    rewrite (bind_ok _ _ _ _ _ Hrender).
    by apply encode_video_no_first_frame.
  - apply setup_ok_inv in Hsetup as []. rewrite sd_frames_dir0. apply path_join_ne.
  - apply setup_ok_inv in Hsetup as []. destruct sd_made0.
    apply (solve_and_validate_effect _ _ _ _ (cx_frames_dir cx) (cx_frames_dir cx))
      in Hsolve as [_ _ (n1 & Hn1 & Hf1)].
    apply (render_frames_effect _ _ _ _ (cx_frames_dir cx) (DT settings))
      in Hrender as [_ _ (n2 & Hn2 & Hf2)].
    exists (n1 ++ n2). rewrite Hn2, Hn1, md_writes0, <- app_assoc. split; [done|].
    apply Forall_app. split; (eapply Forall_impl; [done|]); simpl; tauto.
Qed.

Lemma length_omap_filter {A B} (f : A -> option B) (l : list A) :
  length (omap f l) = length (filter (fun x => is_Some (f x)) l).
Proof.
  induction l as [|x l IH]; [done|]. rewrite filter_cons.
  change (omap f (x :: l))
    with (match f x with Some y => y :: omap f l | None => omap f l end).
  destruct (f x) as [y|] eqn:Hx.
  - rewrite decide_True by eauto. simpl. by rewrite IH.
  - rewrite decide_False; [done|]. by intros [? ?].
Qed.

Lemma encode_frames_run
    frames_dir render_dir filename w entries v :
  frames_dir <> render_dir ->
  w_fs w !! frames_dir = Some entries ->
  lookup_node (w_fs w) render_dir filename = Some (File (FVideo v)) ->
  exists w',
    encode_frames frames_dir render_dir filename w = (Ok tt, w')
    /\ lookup_node (w_fs w') render_dir filename
         = Some (File (FVideo (video_append v
              (omap (fun name => decode_node (entries !! name))
                    (frame_files_of (map_to_list entries).*1))))).
Proof.
  intros Hne Hfd Hv.
  destruct (encode_loop frames_dir render_dir filename entries
              (frame_files_of (map_to_list entries).*1) w v Hne Hfd Hv)
    as (w' & Hloop & Hv' & _).
  exists w'. split; [|exact Hv'].
  unfold encode_frames, bind, listdir. rewrite Hfd. exact Hloop.
Qed.

(** C6.  Whatever the frames directory holds, the encoder loop visits its
    [.png] entries in ascending lexical order of their names and appends
    exactly the readable ones to the open video, logging one warning per
    unreadable entry and going on: the loop returns normally, the video
    gains as many frames as the directory holds readable [.png] files, the
    frames already written stay, and the frames directory is unchanged. *)
Theorem encoder_writes_readable_frames_in_order
    frames_dir render_dir filename w entries v :
  frames_dir <> render_dir ->
  w_fs w !! frames_dir = Some entries ->
  lookup_node (w_fs w) render_dir filename = Some (File (FVideo v)) ->
  let names := (map_to_list entries).*1 in
  let frame_files := frame_files_of names in
  let written := omap (fun name => decode_node (entries !! name)) frame_files in
  exists w',
    encode_frames frames_dir render_dir filename w = (Ok tt, w')
    /\ Sorted String.le frame_files
    /\ frame_files ≡ₚ filter (fun f => endswith f ".png") names
    /\ lookup_node (w_fs w') render_dir filename
         = Some (File (FVideo (video_append v written)))
    /\ length written =
         length (filter (fun name => endswith name ".png"
                                     /\ is_Some (decode_node (entries !! name))) names)
    /\ w_log w' = w_log w ++
         ((fun name => (WARNING, MsgErrorReadingFrame name)) <$>
            filter (fun name => decode_node (entries !! name) = None) frame_files)
    /\ w_fs w' !! frames_dir = Some entries.
Proof.
  intros Hne Hfd Hv names frame_files written.
  destruct (encode_loop frames_dir render_dir filename entries frame_files w v Hne Hfd Hv)
    as (w' & Hloop & Hv' & Hd' & _ & Hl' & _ & _).
  exists w'. split.
  { unfold encode_frames, bind, listdir. rewrite Hfd. exact Hloop. }
  assert (Hperm : frame_files ≡ₚ filter (fun f => endswith f ".png") names)
    by apply merge_sort_Permutation.
  repeat split; try done.
  - apply Sorted_merge_sort. apply _.
  - unfold written. rewrite length_omap_filter, Hperm, list_filter_filter.
    f_equal. apply list_filter_iff. intros name. tauto.
  - by rewrite Hd'.
Qed.

(** The whole video stage on a directory whose first frame is readable. *)
Lemma encode_video_run mode render_dir settings cx w entries rentries img0 :
  cx_frames_dir cx <> render_dir ->
  w_fs w !! cx_frames_dir cx = Some entries ->
  decode_node (entries !! "frame_0000.png") = Some img0 ->
  w_fs w !! render_dir = Some rentries ->
  rentries !! m_filename mode <> Some Dir ->
  exists w',
    encode_video mode render_dir settings cx w = (Ok tt, w')
    /\ lookup_node (w_fs w') render_dir (m_filename mode)
       = Some (File (FVideo
           {| vid_fourcc := "mp4v"; vid_fps := FRAME_RATE settings;
              vid_size := (img_width img0, img_height img0);
              vid_frames := omap (fun name => decode_node (entries !! name))
                              (frame_files_of (map_to_list entries).*1) |})).
Proof.
  intros Hne Hfd Hfirst Hrd Hnodir.
  set (v0 := {| vid_fourcc := "mp4v"; vid_fps := FRAME_RATE settings;
                vid_size := (img_width img0, img_height img0); vid_frames := [] |}).
  set (w1 := put_file render_dir (m_filename mode) rentries (FVideo v0) w).
  assert (Hopen : VideoWriter render_dir (m_filename mode) "mp4v" (FRAME_RATE settings)
                    (img_width img0, img_height img0) w = (Ok tt, w1)).
  { unfold VideoWriter. rewrite Hrd.
    by destruct (rentries !! m_filename mode) as [[|f]|]. }
  assert (Hfd1 : w_fs w1 !! cx_frames_dir cx = Some entries).
  { unfold w1. simpl. by rewrite lookup_insert_ne. }
  assert (Hv1 : lookup_node (w_fs w1) render_dir (m_filename mode)
                = Some (File (FVideo v0))).
  { unfold lookup_node, w1. simpl. rewrite lookup_insert_eq. simpl.
    by rewrite lookup_insert_eq. }
  destruct (encode_frames_run (cx_frames_dir cx) render_dir
              (m_filename mode) w1 entries v0 Hne Hfd1 Hv1)
    as (w2 & Hloop & Hv2).
  eexists. split.
  { unfold encode_video, bind, imread, lookup_node. rewrite Hfd. simpl.
    rewrite Hfirst, Hopen. fold (bind (A:=unit) (B:=unit)).
    unfold bind. rewrite Hloop. unfold logging. reflexivity. }
  simpl. exact Hv2.
Qed.

(** ** Lexical order of the frame names *)

Lemma compare_refl (s : string) : (s ?= s)%string = Eq.
Proof.
  induction s as [|c s IH]; simpl; [done|].
  unfold Ascii.compare. by rewrite N.compare_refl.
Qed.

Lemma ltb_le_ne (a b : string) : String.ltb a b = true <-> String.le a b /\ a <> b.
Proof.
  unfold String.le, String.ltb, String.leb.
  destruct (a ?= b)%string eqn:Hc; simpl; split; try done.
  - apply String.compare_eq_iff in Hc. intros [_ ?]. done.
  - intros _. split; [done|]. intros ->. by rewrite compare_refl in Hc.
  - intros [[] _].
Qed.

Lemma ltb_trans (a b c : string) :
  String.ltb a b = true -> String.ltb b c = true -> String.ltb a c = true.
Proof.
  rewrite !ltb_le_ne. intros [Hab Hne] [Hbc Hne']. split.
  - by etrans.
  - intros ->. apply Hne. by apply (anti_symm String.le).
Qed.

Lemma names_from_frame_names count : forall n,
  names_from (DecimalNat.Unsigned.to_lu n) count = frame_name <$> seq n count.
Proof.
  induction count as [|count IH]; intros n; [done|].
  simpl. rewrite <- DecimalNat.Unsigned.to_lu_succ, IH. f_equal.
  unfold frame_name, format_04d. by rewrite DecimalNat.Unsigned.to_uint_alt.
Qed.

Lemma strictly_ascending_head names : forall x,
  strictly_ascending (x :: names) = true ->
  forall k c, names !! k = Some c -> String.ltb x c = true.
Proof.
  induction names as [|y names IH]; intros x Hasc k c Hk; [done|].
  simpl in Hasc. apply andb_prop in Hasc as [Hxy Hrest].
  destruct k as [|k]; simpl in Hk.
  - by injection Hk as <-.
  - apply (ltb_trans _ y); [done|]. by apply (IH y Hrest k).
Qed.

Lemma strictly_ascending_lookup names :
  strictly_ascending names = true ->
  forall i j a b, (i < j)%nat -> names !! i = Some a -> names !! j = Some b ->
                  String.ltb a b = true.
Proof.
  induction names as [|x names IH]; intros Hasc i j a b Hij Hi Hj; [done|].
  assert (Htail : strictly_ascending names = true).
  { destruct names as [|y names]; [done|]. simpl in Hasc.
    by apply andb_prop in Hasc as [_ ?]. }
  destruct i as [|i], j as [|j]; simpl in *; try lia.
  - injection Hi as <-. by eapply strictly_ascending_head.
  - apply (IH Htail i j); [lia|done..].
Qed.

Lemma first_10000_names_ascending :
  strictly_ascending (names_from Decimal.zero (Z.to_nat 10000)) = true.
Proof. vm_compute. reflexivity. Qed.

Lemma frame_name_lt i j :
  (i < j)%nat -> Z.of_nat j < 10000 ->
  String.ltb (frame_name i) (frame_name j) = true.
Proof.
  intros Hij Hj.
  pose proof first_10000_names_ascending as Hasc.
  change Decimal.zero with (DecimalNat.Unsigned.to_lu 0) in Hasc.
  rewrite names_from_frame_names in Hasc.
  apply (strictly_ascending_lookup _ Hasc i j); [done|..];
    rewrite list_lookup_fmap, lookup_seq_lt by lia; done.
Qed.

Lemma substring_skip (a s : string) k :
  substring (String.length a) k (a +:+ s) = substring 0 k s.
Proof. induction a as [|c a IH]; [done|]. rewrite app_cons. simpl. apply IH. Qed.

Lemma substring_all (s : string) : substring 0 (String.length s) s = s.
Proof. induction s as [|c s IH]; [done|]. simpl. by rewrite IH. Qed.

Lemma endswith_append (a suffix : string) : endswith (a +:+ suffix) suffix = true.
Proof.
  unfold endswith. rewrite length_append.
  replace (String.length a + String.length suffix - String.length suffix)%nat
    with (String.length a) by lia.
  rewrite substring_skip, substring_all, String.eqb_refl.
  rewrite andb_true_r. apply Nat.leb_le. lia.
Qed.

Lemma frame_name_png i : endswith (frame_name i) ".png" = true.
Proof.
  unfold frame_name.
  assert (forall a b c : string, a +:+ (b +:+ c) = (a +:+ b) +:+ c) as ->.
  { intros a b c. induction a as [|x a IH]; [done|]. rewrite !app_cons. by rewrite IH. }
  apply endswith_append.
Qed.

Lemma filter_all {A} (P : A -> Prop) `{!forall x, Decision (P x)} (l : list A) :
  Forall P l -> filter P l = l.
Proof.
  induction 1 as [|x l Hx _ IH]; [done|]. rewrite filter_cons_True by done.
  by rewrite IH.
Qed.

Lemma frame_names_sorted k : forall a,
  Z.of_nat (a + k) <= 10000 -> Sorted String.le (frame_name <$> seq a k).
Proof.
  induction k as [|k IH]; intros a Hb; [constructor|].
  simpl. constructor.
  - apply IH. lia.
  - destruct k as [|k]; simpl; constructor.
    apply ltb_le_ne, frame_name_lt; lia.
Qed.

(** C8, as amended.  Below index 10000 the four-digit names keep the index
    order: an earlier frame's name is lexically smaller, and sorting the
    [.png] names of up to 10000 frames yields them in snapshot order. *)
Theorem frame_names_keep_index_order (i j n : nat) (names : list string) :
  (i < j)%nat ->
  Z.of_nat j < 10000 ->
  Z.of_nat n <= 10000 ->
  names ≡ₚ frame_name <$> seq 0 n ->
  String.ltb (frame_name i) (frame_name j) = true
  /\ frame_files_of names = frame_name <$> seq 0 n.
Proof.
  intros Hij Hj Hn Hperm. split; [by apply frame_name_lt|].
  unfold frame_files_of, sorted.
  apply (Sorted_unique String.le).
  - apply Sorted_merge_sort. apply _.
  - apply frame_names_sorted. lia.
  - rewrite merge_sort_Permutation, Hperm.
    rewrite filter_all; [done|].
    apply Forall_forall. intros name (k & -> & _)%list_elem_of_fmap.
    by rewrite frame_name_png.
Qed.

(** C8, as stated, fails once a fifth digit appears: [frame_10000.png]
    sorts before [frame_9999.png], and the encoder visits it first. *)
Lemma frame_names_out_of_order_at_10000 :
  (Z.to_nat 9999 < Z.to_nat 10000)%nat
  /\ String.ltb (frame_name (Z.to_nat 9999)) (frame_name (Z.to_nat 10000)) = false
  /\ frame_files_of [frame_name (Z.to_nat 9999); frame_name (Z.to_nat 10000)]
     = [frame_name (Z.to_nat 10000); frame_name (Z.to_nat 9999)].
Proof. split; [lia|]. split; vm_compute; reflexivity. Qed.

(** ** Run numbers *)

Lemma uint_of_digit c d :
  is_ascii_digit c = true -> exists d', uint_of_char c (Some d) = Some d'.
Proof.
  destruct c as [[] [] [] [] [] [] [] []]; try discriminate; intros _; simpl; eauto.
Qed.

Lemma uint_of_digits s :
  all_chars is_ascii_digit s = true -> exists d, NilEmpty.uint_of_string s = Some d.
Proof.
  induction s as [|c s IH]; simpl; [eauto|].
  intros [Hc Hs]%andb_prop. destruct (IH Hs) as [d ->]. by apply uint_of_digit.
Qed.

Lemma digits_ascii s : all_chars is_ascii_digit s = true -> all_chars is_ascii s = true.
Proof.
  apply all_chars_impl. intros c Hc.
  destruct c as [[] [] [] [] [] [] [] []]; try discriminate Hc; reflexivity.
Qed.

Lemma isdigit_digits ext s :
  s <> EmptyString -> all_chars is_ascii_digit s = true -> isdigit ext s = true.
Proof.
  intros Hne Hd. unfold isdigit. destruct s as [|c s]; [done|].
  by rewrite (digits_ascii _ Hd).
Qed.

Lemma py_int_nonneg ext name n : py_int ext name = Ok n -> 0 <= n.
Proof.
  unfold py_int. destruct name as [|c s]; [done|].
  destruct (all_chars is_ascii _);
    [destruct (NilEmpty.uint_of_string _)|destruct (ext_int ext _)];
    intros [= <-]; lia.
Qed.

Lemma py_int_raise ext name e :
  py_int ext name = Raise e -> e = ValueError (ErrText "invalid literal for int()").
Proof.
  unfold py_int. destruct name as [|c s]; [by intros [= <-]|].
  destruct (all_chars is_ascii _);
    [destruct (NilEmpty.uint_of_string _)|destruct (ext_int ext _)];
    by intros [= <-].
Qed.

Lemma numbers_readable_cons ext name names :
  numbers_readable ext (name :: names) <->
  (isdigit ext name = true -> exists n, py_int ext name = Ok n)
  /\ numbers_readable ext names.
Proof.
  unfold numbers_readable. split.
  - intros H. split; [apply H; left|]. intros x Hx. apply H. by right.
  - intros [H1 H2] x [->|Hx]%elem_of_cons; [done|by apply H2].
Qed.

Lemma render_numbers_of_spec ext names :
  numbers_readable ext names ->
  exists numbers,
    render_numbers_of ext names = Ok numbers
    /\ forall n, n ∈ numbers <->
                 exists name, name ∈ names /\ isdigit ext name = true
                              /\ py_int ext name = Ok n.
Proof.
  induction names as [|name names IH]; simpl.
  - intros _. exists []. split; [done|]. intros n. split.
    + by intros ?%elem_of_nil.
    + intros (name & ?%elem_of_nil & _). done.
  - intros [Hhead (numbers & IH' & Hspec)%IH]%numbers_readable_cons.
    destruct (isdigit ext name) eqn:Hd.
    + destruct (Hhead eq_refl) as (n0 & Hn0). rewrite Hn0, IH'.
      exists (n0 :: numbers). split; [done|]. intros n. rewrite elem_of_cons, Hspec.
      split.
      * intros [->|(x & Hx & ?)]; [exists name|exists x]; rewrite elem_of_cons; eauto.
      * intros (x & [->|Hx]%elem_of_cons & Hdx & Hix); [left; congruence|right; eauto].
    + exists numbers. split; [done|]. intros n. rewrite Hspec. split.
      * intros (x & Hx & ?). exists x. rewrite elem_of_cons. eauto.
      * intros (x & [->|Hx]%elem_of_cons & Hdx & Hix); [congruence|eauto].
Qed.

(** The list comprehension of line 217 raises exactly when [int] refuses
    a name that [str.isdigit] accepts. *)
Lemma render_numbers_of_raise ext names :
  ~ numbers_readable ext names ->
  render_numbers_of ext names = Raise (ValueError (ErrText "invalid literal for int()")).
Proof.
  induction names as [|name names IH]; simpl; intros Hbad.
  - destruct Hbad. by intros name ?%elem_of_nil.
  - destruct (isdigit ext name) eqn:Hd.
    + destruct (py_int ext name) as [n|e] eqn:Hn.
      * rewrite IH; [done|]. intros Hr. apply Hbad, numbers_readable_cons. eauto.
      * by rewrite (py_int_raise _ _ _ Hn).
    + apply IH. intros Hr. apply Hbad, numbers_readable_cons.
      split; [intros ?; congruence|done].
Qed.

Lemma numbers_readable_dec ext names :
  numbers_readable ext names \/ ~ numbers_readable ext names.
Proof.
  induction names as [|name names [IH|IH]].
  - left. by intros name ?%elem_of_nil.
  - destruct (isdigit ext name) eqn:Hd.
    + destruct (py_int ext name) as [n|e] eqn:Hn.
      * left. apply numbers_readable_cons. eauto.
      * right. intros [H _]%numbers_readable_cons.
        destruct (H Hd) as [n Hn']. congruence.
    + left. apply numbers_readable_cons. split; [intros ?; congruence|done].
  - right. by intros [_ ?]%numbers_readable_cons.
Qed.

Lemma fold_left_max_spec xs : forall x,
  let m := fold_left Z.max xs x in
  (x <= m /\ forall y, y ∈ xs -> y <= m) /\ (m = x \/ m ∈ xs).
Proof.
  induction xs as [|z xs IH]; intros x; simpl.
  - split; [split; [lia|]|by left]. by intros y ?%elem_of_nil.
  - destruct (IH (Z.max x z)) as [[H1 H2] H3]. split; [split|].
    + lia.
    + intros y [->|Hy]%elem_of_cons; [lia|by apply H2].
    + destruct H3 as [H3|H3]; [|right; by right].
      destruct (Z.max_spec x z) as [[_ Hm]|[_ Hm]].
      * right. apply elem_of_cons. left. by rewrite H3.
      * left. by rewrite H3.
Qed.

Lemma py_max_spec xs :
  let m := py_max xs 0 in
  (forall y, y ∈ xs -> y <= m) /\ (m ∈ xs \/ (xs = [] /\ m = 0)).
Proof.
  destruct xs as [|x xs]; simpl.
  - split; [|by right]. by intros y ?%elem_of_nil.
  - destruct (fold_left_max_spec xs x) as [[H1 H2] H3]. split.
    + intros y [->|Hy]%elem_of_cons; [done|by apply H2].
    + left. apply elem_of_cons. destruct H3 as [H3|H3]; [by left|by right].
Qed.

Lemma next_render_number_total ext names :
  numbers_readable ext names ->
  exists N, next_render_number ext names = Ok N /\ is_next_render_number ext names N.
Proof.
  intros Hread. unfold next_render_number.
  destruct (render_numbers_of_spec ext names Hread) as (numbers & -> & Hspec).
  eexists. split; [done|].
  destruct (py_max_spec numbers) as [Hmax Hin].
  assert (Hnonneg : forall n, n ∈ numbers -> 0 <= n).
  { intros n (name & _ & _ & Hi)%Hspec. by eapply py_int_nonneg. }
  split; [|split].
  - destruct Hin as [Hin|[_ ->]]; [|lia]. specialize (Hnonneg _ Hin). lia.
  - intros name Hname Hd. destruct (Hread name Hname Hd) as (n & Hn).
    exists n. split; [done|]. assert (Hn' : n ∈ numbers) by (apply Hspec; eauto).
    apply Hmax in Hn'. lia.
  - destruct Hin as [Hin|[_ ->]]; [|by left]. right.
    apply Hspec in Hin as (name & ? & ? & Hi). exists name.
    replace (py_max numbers 0 + 1 - 1) with (py_max numbers 0) by lia. eauto.
Qed.

Lemma next_render_number_unreadable ext names :
  ~ numbers_readable ext names ->
  next_render_number ext names
  = Raise (ValueError (ErrText "invalid literal for int()")).
Proof. intros H. unfold next_render_number. by rewrite render_numbers_of_raise. Qed.

Lemma is_next_render_number_unique ext names N M :
  is_next_render_number ext names N -> is_next_render_number ext names M -> N = M.
Proof.
  intros (HN1 & HN2 & HN3) (HM1 & HM2 & HM3).
  assert (forall A B, 1 <= B ->
            (forall name, name ∈ names -> isdigit ext name = true ->
                          exists n, py_int ext name = Ok n /\ n < B) ->
            (A = 1 \/ exists name, name ∈ names /\ isdigit ext name = true
                                   /\ py_int ext name = Ok (A - 1)) -> A <= B) as Hle.
  { intros A B HB Hall [->|(name & Hin & Hd & Hi)]; [done|].
    destruct (Hall name Hin Hd) as (n & Hn & ?). rewrite Hi in Hn. injection Hn as <-. lia. }
  apply Z.le_antisymm; by apply Hle.
Qed.

Lemma py_str_nonneg N :
  0 <= N -> py_str N = NilEmpty.string_of_uint (N.to_uint (Z.to_N N)).
Proof. intros HN. unfold py_str. by destruct N. Qed.

Lemma to_uint_nonnil n : N.to_uint n <> Nil.
Proof. destruct n; [done|]. apply DecimalPos.Unsigned.to_uint_nonnil. Qed.

Lemma string_of_uint_digits d :
  all_chars is_ascii_digit (NilEmpty.string_of_uint d) = true.
Proof. induction d; simpl; try done. Qed.

Lemma py_str_digits N :
  0 <= N -> py_str N <> EmptyString /\ all_chars is_ascii_digit (py_str N) = true.
Proof.
  intros HN. rewrite py_str_nonneg by done.
  split; [|apply string_of_uint_digits].
  pose proof (to_uint_nonnil (Z.to_N N)) as Hnil.
  destruct (N.to_uint (Z.to_N N)); simpl in *; done.
Qed.

Lemma py_str_isdigit ext N : 0 <= N -> isdigit ext (py_str N) = true.
Proof. intros [? ?]%py_str_digits. by apply isdigit_digits. Qed.

Lemma py_int_py_str ext N : 0 <= N -> py_int ext (py_str N) = Ok N.
Proof.
  intros HN. destruct (py_str_digits N HN) as [Hne Hd].
  unfold py_int. rewrite (digits_ascii _ Hd).
  rewrite py_str_nonneg in * by done.
  destruct (NilEmpty.string_of_uint _) eqn:Hs; [done|]. rewrite <- Hs.
  rewrite NilEmpty.usu, DecimalN.Unsigned.of_to. f_equal. lia.
Qed.


Lemma all_chars_append p (a b : string) :
  all_chars p (a +:+ b) = all_chars p a && all_chars p b.
Proof. induction a as [|c a IH]; [done|]. rewrite app_cons. simpl. by rewrite IH, andb_assoc. Qed.







(** The run number after a run: the listing has gained [str(N)]. *)
Lemma next_render_number_after ext names names' N :
  numbers_readable ext names ->
  next_render_number ext names = Ok N ->
  names' ≡ₚ (py_str N :: names) ->
  (py_str N ∉ names) /\ numbers_readable ext names'
  /\ next_render_number ext names' = Ok (N + 1).
Proof.
  intros Hread HN Hperm.
  destruct (next_render_number_total ext names Hread) as (N0 & HN0 & Hspec).
  rewrite HN in HN0. injection HN0 as <-.
  destruct Hspec as (H1 & H2 & H3).
  assert (Hread' : numbers_readable ext names').
  { intros name Hname Hd. rewrite Hperm in Hname.
    apply elem_of_cons in Hname as [->|Hname]; [|by apply Hread].
    exists N. apply py_int_py_str. lia. }
  split; [|split; [done|]].
  - intros Hin. destruct (H2 _ Hin) as (n & Hn & Hlt); [apply py_str_isdigit; lia|].
    rewrite py_int_py_str in Hn by lia. injection Hn as <-. lia.
  - destruct (next_render_number_total ext names' Hread') as (M & HM & HMspec).
    rewrite HM. f_equal.
    apply (is_next_render_number_unique ext names'); [done|].
    split; [lia|]. split.
    + intros name Hname Hd. rewrite Hperm in Hname.
      apply elem_of_cons in Hname as [->|Hname].
      * exists N. rewrite py_int_py_str by lia. split; [done|lia].
      * destruct (H2 name Hname Hd) as (n & ? & ?). exists n. split; [done|lia].
    + right. exists (py_str N). rewrite Hperm. split; [left|].
      split; [apply py_str_isdigit; lia|].
      rewrite py_int_py_str by lia. f_equal. lia.
Qed.

(** ** A run of [main] *)


Lemma write_file_run d name f w entries :
  w_fs w !! d = Some entries -> entries !! name <> Some Dir ->
  write_file d name f w = (Ok tt, put_file d name entries f w).
Proof.
  intros Hd Hn. unfold write_file. rewrite Hd.
  by destruct (entries !! name) as [[|f0]|].
Qed.

Lemma run_listing_keys w entries :
  w_fs w !! results_dir = Some entries -> run_listing w = (map_to_list entries).*1.
Proof. intros H. unfold run_listing. by rewrite H. Qed.

Lemma elem_of_keys (entries : gmap string node) name :
  name ∈ (map_to_list entries).*1 <-> is_Some (entries !! name).
Proof.
  rewrite list_elem_of_fmap. split.
  - intros ([n x] & -> & Hx%elem_of_map_to_list). eauto.
  - intros [x Hx]. exists (name, x). split; [done|]. by apply elem_of_map_to_list.
Qed.




(** ** The circular mask *)

(** *** Floats with a mantissa of 53 bits *)

Lemma Zdigits2_log2 p : Zdigits2 (Z.pos p) = Z.log2 (Z.pos p) + 1.
Proof.
  assert (H : forall q, digits2_pos q = Pos.size q) by (induction q; simpl; congruence).
  simpl. rewrite H. destruct p; simpl; lia.
Qed.

Lemma Zdigits2_53 m : 2 ^ 52 <= m < 2 ^ 53 -> Zdigits2 m = 53.
Proof.
  intros Hm. destruct m as [|p|p]; try lia.
  rewrite Zdigits2_log2. rewrite (Z.log2_unique (Z.pos p) 52); lia.
Qed.

Lemma iter_xO p n : Z.pos (Pos.iter xO p n) = Z.pos p * 2 ^ Z.pos n.
Proof.
  induction n as [|n IH] using Pos.peano_ind.
  - simpl. lia.
  - rewrite Pos.iter_succ, Pos2Z.inj_succ, Z.pow_succ_r by lia.
    rewrite Pos2Z.inj_xO, IH. lia.
Qed.

Lemma fexp_53 e : -1074 <= e -> fexp 53 1024 (53 + e) = e.
Proof. intros He. unfold fexp, emin. lia. Qed.

Lemma pow2_add a b : 0 <= a -> 0 <= b -> 2 ^ a * 2 ^ b = 2 ^ (a + b).
Proof. intros. by rewrite Z.pow_add_r. Qed.

(** Rounding a mantissa of 53 bits: no digit is shifted out. *)
Lemma binary_round_aux_53 m e l :
  2 ^ 52 <= m < 2 ^ 53 -> -1074 <= e <= 971 ->
  round_nearest_even m l < 2 ^ 53 ->
  binary_round_aux 53 1024 false m e l
  = S754_finite false (Z.to_pos (round_nearest_even m l)) e.
Proof.
  intros Hm He Hr. unfold binary_round_aux, shr_fexp.
  rewrite (Zdigits2_53 m Hm), fexp_53, Z.sub_diag by lia. simpl shr.
  assert (Hm' : shr_m (shr_record_of_loc m l) = m) by (by destruct l as [|[]]).
  assert (Hl' : loc_of_shr_record (shr_record_of_loc m l) = l) by (by destruct l as [|[]]).
  cbv zeta. cbn iota beta. rewrite Hm', Hl'. set (Q := round_nearest_even m l) in *.
  assert (HQ : 2 ^ 52 <= Q < 2 ^ 53).
  { split; [|done]. unfold Q, round_nearest_even.
    destruct l as [|[]]; try lia. destruct (Z.even m); lia. }
  rewrite (Zdigits2_53 Q HQ), fexp_53, Z.sub_diag by lia. simpl.
  destruct Q as [|q|q]; try lia. simpl.
  replace (e <=? 1024 - 53) with true by (symmetry; apply Z.leb_le; lia). done.
Qed.

(** The float of a positive integer below [2 ^ 53], scaled by [2 ^ e]:
    the conversion is exact. *)
Lemma binary_normalize_pos k e :
  0 < k < 2 ^ 53 -> -1022 <= e <= 0 ->
  let d := Z.log2 k + 1 in
  binary_normalize 53 1024 k e false
  = S754_finite false (Z.to_pos (k * 2 ^ (53 - d))) (e + d - 53).
Proof.
  intros Hk He d. destruct k as [|p|p]; try lia.
  assert (Hd : 1 <= d <= 53).
  { unfold d. pose proof (Z.log2_nonneg (Z.pos p)).
    assert (Z.log2 (Z.pos p) < 53) by (apply Z.log2_lt_pow2; lia). lia. }
  assert (Hbounds : 2 ^ (d - 1) <= Z.pos p < 2 ^ d).
  { unfold d. replace (Z.log2 (Z.pos p) + 1 - 1) with (Z.log2 (Z.pos p)) by lia.
    apply Z.log2_spec. lia. }
  assert (Hscaled : 2 ^ 52 <= Z.pos p * 2 ^ (53 - d) < 2 ^ 53).
  { replace (2 ^ 52) with (2 ^ (d - 1) * 2 ^ (53 - d))
      by (rewrite pow2_add by lia; f_equal; lia).
    replace (2 ^ 53) with (2 ^ d * 2 ^ (53 - d))
      by (rewrite pow2_add by lia; f_equal; lia).
    assert (0 < 2 ^ (53 - d)) by (apply Z.pow_pos_nonneg; lia). nia. }
  unfold binary_normalize, binary_round.
  change (Z.pos (digits2_pos p)) with (Zdigits2 (Z.pos p)).
  rewrite Zdigits2_log2. fold d.
  assert (Hfexp : fexp 53 1024 (d + e) = e + d - 53) by (unfold fexp, emin; lia).
  rewrite Hfexp. unfold shl_align.
  destruct (e + d - 53 - e) as [|s|s] eqn:Hs; try lia.
  - assert (d = 53) by lia.
    rewrite (binary_round_aux_53 (Z.pos p) e loc_Exact); simpl round_nearest_even; try lia.
    + f_equal; [|lia]. replace (53 - d) with 0 by lia. f_equal. lia.
    + replace (53 - d) with 0 in Hscaled by lia. lia.
  - assert (Hs' : Z.pos s = 53 - d) by lia.
    rewrite (binary_round_aux_53 (Z.pos (Pos.iter xO p s)) (e + d - 53) loc_Exact);
      simpl round_nearest_even; rewrite ?iter_xO, ?Hs'; try lia.
    done.
Qed.

(** The square root of a float with a mantissa of 53 bits: the integer
    root of the mantissa scaled to 105 or 106 bits, rounded to nearest. *)
Lemma SFsqrt_53 mx ex :
  2 ^ 52 <= Z.pos mx < 2 ^ 53 -> -1022 <= ex <= 0 ->
  let e' := ex / 2 - 26 in
  let m' := Z.pos mx * 2 ^ (ex - 2 * e') in
  exists q r,
    m' = q * q + r /\ 0 <= r <= 2 * q /\ 2 ^ 52 <= q < 2 ^ 53
    /\ (if r <=? q then q else q + 1) < 2 ^ 53
    /\ SFsqrt 53 1024 (S754_finite false mx ex)
       = S754_finite false (Z.to_pos (if r <=? q then q else q + 1)) e'.
Proof.
  intros Hm He e' m'.
  assert (Hs : 52 <= ex - 2 * e' <= 53).
  { unfold e'. pose proof (Z.mul_div_le ex 2). pose proof (Z.mul_succ_div_gt ex 2). lia. }
  assert (Hm' : 2 ^ 104 <= m' < 2 ^ 106).
  { unfold m'. destruct (decide (ex - 2 * e' = 52)) as [->| ];
      [|replace (ex - 2 * e') with 53 by lia]; lia. }
  assert (Hm'53 : m' <= (2 ^ 53 - 1) * 2 ^ 53).
  { unfold m'. destruct (decide (ex - 2 * e' = 52)) as [->| ];
      [|replace (ex - 2 * e') with 53 by lia]; lia. }
  pose proof (Z.sqrtrem_spec m') as Hspec.
  destruct (Z.sqrtrem m') as [q r] eqn:Hqr.
  destruct Hspec as [Heq Hr]; [lia|].
  assert (Hq : 2 ^ 52 <= q < 2 ^ 53).
  { split.
    - destruct (Z.le_gt_cases (2 ^ 52) q) as [|Hlt]; [done|]. exfalso.
      assert (q <= 2 ^ 52 - 1) by lia.
      assert (q * q <= (2 ^ 52 - 1) * (2 ^ 52 - 1)) by nia. lia.
    - destruct (Z.lt_ge_cases q (2 ^ 53)) as [|Hge]; [done|]. exfalso.
      assert (2 ^ 53 * 2 ^ 53 <= q * q) by nia. lia. }
  assert (HQ : (if r <=? q then q else q + 1) < 2 ^ 53).
  { destruct (Z.leb_spec r q); [lia|].
    destruct (decide (q = 2 ^ 53 - 1)) as [->|]; [|lia]. lia. }
  exists q, r. split; [done|]. split; [done|]. split; [done|]. split; [done|].
  unfold SFsqrt, SFsqrt_core_binary.
  rewrite (Zdigits2_53 (Z.pos mx) Hm).
  rewrite !Z.div2_div.
  assert (He1 : Z.min (fexp 53 1024 ((53 + ex + 1) / 2)) (ex / 2) = e').
  { unfold fexp, emin, e'.
    replace (53 + ex + 1) with (ex + 27 * 2) by lia. rewrite Z.div_add by lia. lia. }
  rewrite He1.
  assert (Hshift : match ex - 2 * e' with
                   | 0 => Z.pos mx
                   | Z.pos _ => Z.shiftl (Z.pos mx) (ex - 2 * e')
                   | Z.neg _ => 0
                   end = m').
  { destruct (ex - 2 * e') as [|s|s] eqn:Hse; try lia.
    rewrite Z.shiftl_mul_pow2 by lia. done. }
  rewrite Hshift, Hqr.
  set (l := if r =? 0 then loc_Exact else loc_Inexact (if r <=? q then Lt else Gt)).
  assert (Hround : round_nearest_even q l = if r <=? q then q else q + 1).
  { unfold l. destruct (Z.eqb_spec r 0) as [->|Hr0]; simpl.
    - destruct (Z.leb_spec 0 q); [done|lia].
    - by destruct (r <=? q). }
  rewrite binary_round_aux_53; rewrite ?Hround; try done.
  unfold e'. pose proof (Z.mul_div_le ex 2). pose proof (Z.mul_succ_div_gt ex 2). lia.
Qed.

(** Comparison of two positive floats with mantissas of 53 bits. *)
Lemma SFleb_53 m1 e1 m2 e2 E :
  2 ^ 52 <= Z.pos m1 < 2 ^ 53 -> 2 ^ 52 <= Z.pos m2 < 2 ^ 53 ->
  E <= e1 -> E <= e2 ->
  SFleb (S754_finite false m1 e1) (S754_finite false m2 e2)
  = (Z.pos m1 * 2 ^ (e1 - E) <=? Z.pos m2 * 2 ^ (e2 - E)).
Proof.
  intros H1 H2 HE1 HE2. unfold SFleb, SFcompare.
  change (Pos.compare_cont Eq m1 m2) with (Z.pos m1 ?= Z.pos m2).
  assert (Hpos : forall a, 0 <= a -> 0 < 2 ^ a) by (intros; by apply Z.pow_pos_nonneg).
  destruct (Z.compare_spec e1 e2) as [->|Hlt|Hgt].
  - pose proof (Hpos (e2 - E)).
    destruct (Z.compare_spec (Z.pos m1) (Z.pos m2)) as [Heq|Hl|Hg]; symmetry.
    + apply Z.leb_le. rewrite Heq. lia.
    + apply Z.leb_le. nia.
    + apply Z.leb_gt. nia.
  - symmetry. apply Z.leb_le.
    replace (e2 - E) with ((e1 - E) + (e2 - e1)) by lia.
    rewrite Z.pow_add_r by lia.
    pose proof (Hpos (e1 - E)).
    assert (2 <= 2 ^ (e2 - e1)).
    { change 2 with (2 ^ 1) at 1. apply Z.pow_le_mono_r; lia. }
    assert (2 * Z.pos m2 <= Z.pos m2 * 2 ^ (e2 - e1)) by nia.
    assert (Z.pos m1 <= Z.pos m2 * 2 ^ (e2 - e1)) by lia.
    nia.
  - symmetry. apply Z.leb_gt.
    replace (e1 - E) with ((e2 - E) + (e1 - e2)) by lia.
    rewrite Z.pow_add_r by lia.
    pose proof (Hpos (e2 - E)).
    assert (2 <= 2 ^ (e1 - e2)).
    { change 2 with (2 ^ 1) at 1. apply Z.pow_le_mono_r; lia. }
    assert (2 * Z.pos m1 <= Z.pos m1 * 2 ^ (e1 - e2)) by nia.
    assert (Z.pos m2 < Z.pos m1 * 2 ^ (e1 - e2)) by lia.
    nia.
Qed.

(** The rounding argument, on integers: the integer root [q] of
    [4 * k * U ^ 2], rounded to nearest, is at most [n * U] exactly when
    [4 * k <= n ^ 2], as long as [n < U]. *)
Lemma rounded_root_le_half q r n U k :
  0 < U -> 0 <= n < U -> 0 <= k -> 0 <= q ->
  4 * k * (U * U) = q * q + r -> 0 <= r <= 2 * q ->
  (if r <=? q then q else q + 1) <= n * U <-> 4 * k <= n * n.
Proof.
  intros HU Hn Hk Hq Heq Hr. split.
  - intros HQ. destruct (Z.le_gt_cases (4 * k) (n * n)) as [|Hgt]; [done|exfalso].
    assert (Hgap : (n * n + 1) * (U * U) <= q * q + r) by nia.
    assert (Hqn : n * U <= q).
    { destruct (Z.le_gt_cases (n * U) q) as [|Hlt]; [done|exfalso].
      assert (q + 1 <= n * U) by lia.
      assert ((q + 1) * (q + 1) <= (n * U) * (n * U)) by nia. nia. }
    destruct (Z.leb_spec r q) as [Hrq|Hrq]; [|lia].
    assert (q = n * U) by lia. subst q.
    assert (n * U < U * U) by nia. nia.
  - intros Hle.
    assert (Hm : q * q + r <= (n * U) * (n * U)) by nia.
    assert (Hqn : q <= n * U).
    { destruct (Z.le_gt_cases q (n * U)) as [|Hlt]; [done|exfalso].
      assert ((n * U + 1) * (n * U + 1) <= q * q) by nia. nia. }
    destruct (Z.leb_spec r q) as [Hrq|Hrq]; [done|].
    destruct (decide (q = n * U)) as [->|]; [nia|lia].
Qed.

(** Roots of integers against half-integers: in binary64 the root of [k],
    rounded to nearest, is at most [n / 2] exactly when [4 * k <= n ^ 2]. *)
Lemma sqrt_of_le_half n k :
  0 <= n < 2 ^ 25 -> 0 <= k < 2 ^ 53 ->
  F64.leb (sqrt_of k) (F64.half_of n) = (4 * k <=? n * n).
Proof.
  intros Hn Hk.
  unfold sqrt_of, F64.sqrt, F64.of_Z, F64.half_of, F64.leb, F64.prec, F64.emax.
  destruct (decide (k = 0)) as [->|Hk0].
  { destruct n as [|p|p]; try lia; [done|].
    rewrite (binary_normalize_pos (Z.pos p) (-1)) by lia. simpl.
    symmetry. apply Z.leb_le. lia. }
  assert (Hpos : forall a, 0 <= a -> 0 < 2 ^ a) by (intros; by apply Z.pow_pos_nonneg).
  assert (Hnorm : forall z d, 0 < z -> d = Z.log2 z + 1 -> 1 <= d <= 53 ->
            2 ^ 52 <= z * 2 ^ (53 - d) < 2 ^ 53).
  { intros z d Hz -> Hd. pose proof (Z.log2_spec z Hz) as Hs.
    replace (Z.succ (Z.log2 z)) with (Z.log2 z + 1) in Hs by lia.
    pose proof (Hpos (53 - (Z.log2 z + 1)) ltac:(lia)).
    replace (2 ^ 52) with (2 ^ Z.log2 z * 2 ^ (53 - (Z.log2 z + 1)))
      by (rewrite pow2_add by lia; f_equal; lia).
    replace (2 ^ 53) with (2 ^ (Z.log2 z + 1) * 2 ^ (53 - (Z.log2 z + 1)))
      by (rewrite pow2_add by lia; f_equal; lia).
    nia. }
  rewrite (binary_normalize_pos k 0) by lia.
  set (dk := Z.log2 k + 1).
  assert (Hdk : 1 <= dk <= 53).
  { unfold dk. pose proof (Z.log2_nonneg k).
    assert (Z.log2 k < 53) by (apply Z.log2_lt_pow2; lia). lia. }
  pose proof (Hnorm k dk ltac:(lia) eq_refl Hdk) as Hmk.
  set (mk := Z.to_pos (k * 2 ^ (53 - dk))).
  assert (Hmk' : Z.pos mk = k * 2 ^ (53 - dk)) by (unfold mk; rewrite Z2Pos.id; lia).
  set (ek := 0 + dk - 53).
  destruct (SFsqrt_53 mk ek ltac:(lia) ltac:(unfold ek; lia))
    as (q & r & Heq & Hr & Hq & HQ & ->).
  destruct (decide (n = 0)) as [->|Hn0].
  { change (binary_normalize 53 1024 0 (-1) false) with (S754_zero false).
    simpl. symmetry. apply Z.leb_gt. lia. }
  rewrite (binary_normalize_pos n (-1)) by lia.
  set (dn := Z.log2 n + 1).
  assert (Hdn : 1 <= dn <= 25).
  { unfold dn. pose proof (Z.log2_nonneg n).
    assert (Z.log2 n < 25) by (apply Z.log2_lt_pow2; lia). lia. }
  pose proof (Hnorm n dn ltac:(lia) eq_refl ltac:(lia)) as Hmn.
  set (mn := Z.to_pos (n * 2 ^ (53 - dn))).
  assert (Hmn' : Z.pos mn = n * 2 ^ (53 - dn)) by (unfold mn; rewrite Z2Pos.id; lia).
  set (en := -1 + dn - 53).
  set (e' := ek / 2 - 26) in *.
  assert (He' : -52 <= e' <= -26 /\ 52 <= ek - 2 * e' <= 53).
  { unfold e', ek. pose proof (Z.mul_div_le (0 + dk - 53) 2).
    pose proof (Z.mul_succ_div_gt (0 + dk - 53) 2). lia. }
  set (Q := if r <=? q then q else q + 1) in *.
  assert (HQ' : 2 ^ 52 <= Q < 2 ^ 53).
  { split; [|done]. unfold Q. destruct (r <=? q); lia. }
  set (E := Z.min e' en).
  rewrite (SFleb_53 (Z.to_pos Q) e' mn en E); rewrite ?Z2Pos.id; try lia.
  apply eq_iff_eq_true. rewrite !Z.leb_le.
  set (U := 2 ^ (- e' - 1)).
  assert (HU : 2 ^ 25 <= U).
  { unfold U. apply Z.pow_le_mono_r; lia. }
  rewrite <- (rounded_root_le_half q r n U k); try lia.
  - fold Q. rewrite Hmn'.
    assert (Hrhs : n * 2 ^ (53 - dn) * 2 ^ (en - E) = n * U * 2 ^ (e' - E)).
    { unfold U. rewrite <- !Z.mul_assoc, !pow2_add by lia. do 2 f_equal. lia. }
    rewrite Hrhs. pose proof (Hpos (e' - E) ltac:(lia)). nia.
  - rewrite <- Heq, Hmk'. unfold U.
    rewrite pow2_add by lia. rewrite <- !Z.mul_assoc, !pow2_add by lia.
    replace 4 with (2 ^ 2) by done. rewrite (Z.mul_comm (2 ^ 2)).
    rewrite <- !Z.mul_assoc, !pow2_add by lia. do 2 f_equal. lia.
Qed.

Lemma wrap64_small z : - 2 ^ 63 <= z < 2 ^ 63 -> wrap64 z = z.
Proof. intros Hz. unfold wrap64. rewrite Z.mod_small; lia. Qed.

Lemma cell_circular_mask_disc resolution y x :
  0 <= resolution < 2 ^ 25 ->
  (y < Z.to_nat resolution)%nat -> (x < Z.to_nat resolution)%nat ->
  cell (circular_mask_of resolution (F64.half_of resolution)) y x
  = Some (in_disc resolution y x).
Proof.
  intros Hres Hy Hx. unfold circular_mask_of, dist_from_center.
  rewrite cell_fmap, cell_tabulate, !decide_True by done. simpl. f_equal.
  set (c := resolution / 2).
  assert (Hc : 2 * c <= resolution < 2 * c + 2).
  { unfold c. pose proof (Z.mul_div_le resolution 2).
    pose proof (Z.mul_succ_div_gt resolution 2). lia. }
  assert (Hdx : - 2 ^ 24 <= Z.of_nat x - c <= 2 ^ 24) by lia.
  assert (Hdy : - 2 ^ 24 <= Z.of_nat y - c <= 2 ^ 24) by lia.
  rewrite (wrap64_small (Z.of_nat x - c)), (wrap64_small (Z.of_nat y - c)) by lia.
  assert (Hx2 : 0 <= (Z.of_nat x - c) ^ 2 <= 2 ^ 48) by nia.
  assert (Hy2 : 0 <= (Z.of_nat y - c) ^ 2 <= 2 ^ 48) by nia.
  rewrite (wrap64_small ((Z.of_nat x - c) ^ 2)),
          (wrap64_small ((Z.of_nat y - c) ^ 2)) by lia.
  rewrite wrap64_small by lia.
  unfold in_disc. fold c. apply sqrt_of_le_half; lia.
Qed.

(** C9, as amended.  The mask that initialisation computes, and with
    which it zeroes the initial fields when the boundary is fixed, holds
    the cells whose float distance from the centre cell is at most the
    float value [threshold] of [RADIUS * (RESOLUTION / (2 * RADIUS))].  It
    is the mask that [circular_mask] derives from the settings, it does
    not depend on [FIXED_BOUNDARY], and every rendered frame shows both
    fields masked by it, whatever the boundary flag.  Whenever [threshold]
    is exactly [RESOLUTION / 2], and for every resolution below [2 ^ 25],
    the mask is exactly the set of cells whose pixel distance from the
    centre is at most [RESOLUTION / 2]. *)
Theorem circular_mask_is_disc_when_threshold_exact
    ext mode render_dir settings w cx w1 :
  process_mode_setup ext mode render_dir settings w = (Ok cx, w1) ->
  let n := Z.to_nat (RESOLUTION settings) in
  let center := (RESOLUTION settings / 2, RESOLUTION settings / 2) in
  exists threshold,
    py_truediv (F64.of_Z 1) (ZOOM_FACTOR settings) = Ok (cx_RADIUS cx)
    /\ mask_threshold (cx_RADIUS cx) (RESOLUTION settings) = Ok threshold
    /\ (forall y x, (y < n)%nat -> (x < n)%nat ->
          exists d, cell (dist_from_center n n center) y x = Some d
                    /\ cell (cx_circular_mask cx) y x = Some (F64.leb d threshold))
    /\ (FIXED_BOUNDARY settings = true ->
          exists u v, cx_state cx = (zero_outside (cx_circular_mask cx) u,
                                     zero_outside (cx_circular_mask cx) v))
    /\ circular_mask settings = Ok (cx_circular_mask cx)
    /\ (forall b, circular_mask (with_fixed_boundary b settings) = circular_mask settings)
    /\ (forall state,
          fig_u (figure_of mode settings cx state)
            = masked_where_not (cx_circular_mask cx) (snap_u state)
          /\ fig_v (figure_of mode settings cx state)
            = masked_where_not (cx_circular_mask cx) (snap_v state))
    /\ (0 <= RESOLUTION settings < 2 ^ 25 ->
        threshold = F64.half_of (RESOLUTION settings) ->
        forall y x, (y < n)%nat -> (x < n)%nat ->
          cell (cx_circular_mask cx) y x = Some (in_disc (RESOLUTION settings) y x)).
Proof.
  intros Hsetup n center.
  apply setup_ok_inv in Hsetup
    as [_ Hrad _ _ _ Hmask (ba & _ & Hst) _ _ _].
  pose proof Hmask as Hmask'. unfold circular_mask in Hmask'. rewrite Hrad in Hmask'.
  destruct (mask_threshold (cx_RADIUS cx) (RESOLUTION settings)) as [threshold|]
    eqn:Hthr; [|done].
  injection Hmask' as Hmask'.
  exists threshold. split; [done|]. split; [done|]. split; [|split; [|split; [|split; [|split]]]].
  - intros y x Hy Hx. rewrite <- Hmask'. unfold circular_mask_of. fold n. fold center.
    rewrite cell_fmap. unfold dist_from_center.
    rewrite cell_tabulate, !decide_True by done. eauto.
  - intros Hfixed. simpl in Hst. rewrite Hfixed in Hst. eauto.
  - done.
  - done.
  - done.
  - intros Hres -> y x Hy Hx. rewrite <- Hmask'. by apply cell_circular_mask_disc.
Qed.

(** C9, as stated, fails: with a resolution of 6 the cell of row 3,
    column 0 lies at pixel distance exactly 3 from the centre; it is in the
    mask for a zoom factor of 1 and outside it for a zoom factor of 49,
    where the threshold evaluates just below 3. *)
Lemma circular_mask_depends_on_zoom_factor :
  exists mask1 mask49,
    circular_mask (demo_settings 1 6 true) = Ok mask1
    /\ circular_mask (demo_settings 49 6 true) = Ok mask49
    /\ in_disc 6 3 0 = true
    /\ cell mask1 3 0 = Some true
    /\ cell mask49 3 0 = Some false.
Proof. eexists _, _. repeat split; vm_compute; reflexivity. Qed.

(** ** The theorems at work on the small configuration *)

Lemma demo_setup_ok items :
  process_mode_setup (demo_ext items) demo_mode demo_run_dir
    (demo_settings 2 2 true) demo_world
  = (Ok (demo_cx items), (demo_setup items).2).
Proof. vm_compute. reflexivity. Defined.

Lemma process_mode_aborts_on_invalid_snapshot_witness :
  List.find invalid_item demo_items_nan
    = Some (F64.of_Z 1, demo_snapshot S754_nan)
  /\ exists w',
       process_mode (demo_ext demo_items_nan) demo_mode demo_run_dir
         (demo_settings 2 2 true) demo_world = (Ok tt, w')
       /\ w_writes w' = [].
Proof.
  split; [reflexivity|].
  destruct (process_mode_aborts_on_invalid_snapshot
              (demo_ext demo_items_nan) demo_mode demo_run_dir (demo_settings 2 2 true)
              demo_world (demo_cx demo_items_nan) (demo_setup demo_items_nan).2
              demo_items_nan (F64.of_Z 1) (demo_snapshot S754_nan)
              (demo_setup_ok demo_items_nan) eq_refl eq_refl)
    as (w' & Hrun & _ & Hw & _).
  exists w'. split; [exact Hrun|exact Hw].
Defined.

Lemma fixed_boundary_zero_outside_mask_witness :
  FIXED_BOUNDARY (demo_settings 2 2 true) = true
  /\ cell (cx_circular_mask (demo_cx [])) 0 0 = Some false
  /\ cell (cx_state (demo_cx [])).1 0 0 = Some F64.zero
  /\ cell (cx_state (demo_cx [])).2 0 0 = Some F64.zero.
Proof.
  split; [reflexivity|]. split; [vm_compute; reflexivity|].
  destruct (fixed_boundary_zero_outside_mask
              (demo_ext []) demo_mode demo_run_dir (demo_settings 2 2 true)
              demo_world (demo_cx []) (demo_setup []).2 eq_refl (demo_setup_ok []))
    as [_ Hcells].
  apply (Hcells 0%nat 0%nat). vm_compute. reflexivity.
Defined.

Lemma process_mode_one_frame_per_snapshot_witness :
  forallb (fun item => negb (invalid_item item)) demo_items = true
  /\ exists r w' video,
       process_mode (demo_ext demo_items) demo_mode demo_run_dir
         (demo_settings 2 2 true) demo_world = (r, w')
       /\ w_writes w' =
            [("results/1/frames_spots_a", "frame_0000.png");
             ("results/1/frames_spots_a", "frame_0001.png")] ++ video.
Proof.
  split; [reflexivity|].
  assert (Hdir : w_fs (demo_setup demo_items).2 !! cx_frames_dir (demo_cx demo_items)
                 = Some ∅) by (vm_compute; reflexivity).
  destruct (process_mode_one_frame_per_snapshot
              (demo_ext demo_items) demo_mode demo_run_dir (demo_settings 2 2 true)
              demo_world (demo_cx demo_items) (demo_setup demo_items).2 demo_items
              (demo_setup_ok demo_items) eq_refl eq_refl)
    as (r & w' & video & Hrun & Hw & _).
  - intros item _. by eexists.
  - intros i _. unfold lookup_node. rewrite Hdir. simpl. by rewrite lookup_empty.
  - exists r, w', video. split; [exact Hrun|exact Hw].
Defined.

Lemma runs_listed_demo_world ext : runs_listed ext demo_world.
Proof. intros name _ [x Hx]. simpl in Hx. by rewrite lookup_empty in Hx. Defined.

Lemma numbers_readable_demo_world ext : numbers_readable ext (run_listing demo_world).
Proof.
  intros name Hname. unfold run_listing in Hname. simpl in Hname.
  rewrite lookup_empty in Hname. by apply elem_of_nil in Hname.
Defined.


Lemma process_mode_first_frame_not_found_witness :
  ext_solve (demo_ext []) (cx_eq (demo_cx [])) (cx_grid (demo_cx []))
    (cx_state (demo_cx [])) (T_MAX (demo_settings 2 2 true)) (DT (demo_settings 2 2 true))
    = Solved []
  /\ exists w',
       process_mode (demo_ext []) demo_mode demo_run_dir (demo_settings 2 2 true)
         demo_world
       = (Raise (ValueError (ErrText first_frame_not_found)), w')
       /\ w_writes w' = [].
Proof.
  split; [reflexivity|].
  set (w1 := (demo_setup []).2).
  set (w1' := (solve_and_validate (demo_ext []) (m_title demo_mode)
                 (demo_settings 2 2 true) (demo_cx []) w1).2).
  set (w2 := (render_frames (demo_ext []) demo_mode (demo_settings 2 2 true)
                (demo_cx []) [] w1').2).
  destruct (process_mode_first_frame_not_found
              (demo_ext []) demo_mode demo_run_dir (demo_settings 2 2 true)
              demo_world (demo_cx []) w1 [] w1' w2
              (demo_setup_ok []) eq_refl eq_refl eq_refl)
    as (Hrun & _ & _).
  exists w2. split; [exact Hrun|]. vm_compute. reflexivity.
Defined.

Lemma encoder_writes_readable_frames_in_order_witness :
  frame_files_of (map_to_list demo_frames).*1
    = ["frame_0000.png"; "frame_0001.png"; "frame_0002.png"]
  /\ exists w' v,
       encode_frames (path_join demo_run_dir "frames_spots_a") demo_run_dir "spots.mp4"
         demo_video_world = (Ok tt, w')
       /\ lookup_node (w_fs w') demo_run_dir "spots.mp4" = Some (File (FVideo v))
       /\ vid_frames v = [demo_image; demo_image]
       /\ w_log w' = [(WARNING, MsgErrorReadingFrame "frame_0001.png")].
Proof.
  split; [vm_compute; reflexivity|].
  destruct (encoder_writes_readable_frames_in_order
              (path_join demo_run_dir "frames_spots_a") demo_run_dir "spots.mp4"
              demo_video_world demo_frames demo_video)
    as (w' & Hrun & _ & _ & Hv & _ & Hlog & _).
  - vm_compute. discriminate.
  - vm_compute. reflexivity.
  - vm_compute. reflexivity.
  - exists w'. eexists. split; [exact Hrun|]. split; [exact Hv|].
    split; [|rewrite Hlog]; vm_compute; reflexivity.
Defined.

Lemma frame_names_keep_index_order_witness :
  String.ltb (frame_name 1) (frame_name 2) = true
  /\ frame_files_of [frame_name 1; frame_name 0; frame_name 2]
     = frame_name <$> seq 0 3.
Proof.
  apply (frame_names_keep_index_order 1 2 3); [lia|lia|lia|].
  apply perm_swap.
Defined.

Lemma circular_mask_is_disc_when_threshold_exact_witness :
  mask_threshold (cx_RADIUS (demo_cx [])) 2 = Ok (F64.half_of 2)
  /\ cell (cx_circular_mask (demo_cx [])) 0 0 = Some (in_disc 2 0 0)
  /\ cell (cx_circular_mask (demo_cx [])) 1 0 = Some (in_disc 2 1 0)
  /\ in_disc 2 0 0 = false /\ in_disc 2 1 0 = true.
Proof.
  split; [vm_compute; reflexivity|].
  destruct (circular_mask_is_disc_when_threshold_exact
              (demo_ext []) demo_mode demo_run_dir (demo_settings 2 2 true)
              demo_world (demo_cx []) (demo_setup []).2 (demo_setup_ok []))
    as (threshold & _ & Hthr & _ & _ & _ & _ & _ & Hcells).
  assert (Hexact : threshold = F64.half_of (RESOLUTION (demo_settings 2 2 true))).
  { vm_compute in Hthr. injection Hthr as <-. vm_compute. reflexivity. }
  assert (Hres : 0 <= RESOLUTION (demo_settings 2 2 true) < 2 ^ 25).
  { vm_compute. split; [discriminate|reflexivity]. }
  split; [|split; [|split]].
  - apply (Hcells Hres Hexact 0%nat 0%nat); vm_compute; lia.
  - apply (Hcells Hres Hexact 1%nat 0%nat); vm_compute; lia.
  - reflexivity.
  - reflexivity.
Defined.

Lemma process_mode_zero_a_division_error_witness :
  F64.is_zero (m_a demo_mode_zero_a) = true
  /\ exists w',
       process_mode (demo_ext demo_items) demo_mode_zero_a demo_run_dir
         (demo_settings 2 2 true) demo_world = (Raise ZeroDivisionError, w')
       /\ w_solves w' = [].
Proof.
  split; [reflexivity|].
  destruct (process_mode_zero_a_division_error
              (demo_ext demo_items) demo_mode_zero_a demo_run_dir
              (demo_settings 2 2 true) demo_world eq_refl)
    as (e & w' & Hrun & Hs & _ & _ & _ & He).
  exists w'. split; [|exact Hs].
  rewrite (He eq_refl eq_refl) in Hrun. exact Hrun.
Defined.

(** * Further properties of the module *)

(** ** Validation of one snapshot *)

Lemma existsb_elem_of {A} (p : A -> bool) (l : list A) :
  existsb p l = true <-> exists x, x ∈ l /\ p x = true.
Proof.
  rewrite existsb_exists. split; intros (x & Hx & Hp); exists x; split; try done;
    by apply list_elem_of_In.
Qed.

Lemma np_any_spec p (data : list Field) :
  np_any p data = true <->
  exists field row c, field ∈ data /\ row ∈ field /\ c ∈ row /\ p c = true.
Proof.
  unfold np_any. rewrite existsb_elem_of. split.
  - intros (field & Hf & (row & Hr & (c & Hc & Hp)%existsb_elem_of)%existsb_elem_of).
    by exists field, row, c.
  - intros (field & row & c & Hf & Hr & Hc & Hp). exists field. split; [done|].
    apply existsb_elem_of. exists row. split; [done|].
    apply existsb_elem_of. by exists c.
Qed.

(** X1.  [check_for_invalid_values] never raises.  It returns [True] exactly
    when some cell of the data is a NaN or an infinity; it then logs one
    ERROR record, and otherwise leaves the world as it was. *)
Theorem check_for_invalid_values_reports state_data title time_point w :
  exists b : bool,
    check_for_invalid_values state_data title time_point w
    = (Ok b, if b then set_log (w_log w ++ [(ERROR, MsgInvalidValues title time_point)]) w
             else w)
    /\ (b = true <->
        exists field row c, field ∈ state_data /\ row ∈ field /\ c ∈ row
                            /\ (c = S754_nan \/ exists s, c = S754_infinity s)).
Proof.
  exists (has_invalid_values state_data). split.
  - unfold check_for_invalid_values. by destruct (has_invalid_values state_data).
  - unfold has_invalid_values. rewrite orb_true_iff, !np_any_spec. split.
    + intros [(field & row & c & Hf & Hr & Hc & Hp)|(field & row & c & Hf & Hr & Hc & Hp)];
        exists field, row, c; repeat split; try done.
      * left. by destruct c.
      * right. destruct c; try done. eauto.
    + intros (field & row & c & Hf & Hr & Hc & [->|[s ->]]);
        [left|right]; eexists field, row, _; by repeat split.
Qed.

(** ** Exceptions of the solver *)

Lemma solve_and_validate_raised ext title settings cx w e :
  ext_solve ext (cx_eq cx) (cx_grid cx) (cx_state cx) (T_MAX settings) (DT settings)
    = SolveRaised e ->
  solve_and_validate ext title settings cx w =
  let w' := set_solves (w_solves w ++
              [{| sc_t_range := T_MAX settings; sc_dt := DT settings |}]) w in
  if caught_by_process_mode e
  then (Ok None, set_log (w_log w ++ [(ERROR, MsgWarningOrError title e)]) w')
  else (Raise e, w').
Proof.
  intros Hsolve. unfold solve_and_validate, try_except, bind.
  rewrite eq_solve_run, Hsolve. by destruct (caught_by_process_mode e).
Qed.

Lemma setup_keeps_files ext mode render_dir settings w cx w1 :
  process_mode_setup ext mode render_dir settings w = (Ok cx, w1) ->
  w_writes w1 = w_writes w /\ w_solves w1 = w_solves w
  /\ forall d n f, lookup_node (w_fs w1) d n = Some (File f) ->
                   lookup_node (w_fs w) d n = Some (File f).
Proof.
  intros Hsetup.
  apply setup_ok_inv in Hsetup as [_ _ _ _ _ _ _ _ [Hs Hw _ _ Hentry _ Hnodes _] _].
  repeat split; try done.
  intros d n f Hf. rewrite Hnodes in Hf; [done|].
  intros [= -> ->]. rewrite Hentry in Hf. done.
Qed.

(** X2.  A [RuntimeWarning] or a [ValueError] raised by [eq.solve] is caught:
    [process_mode] logs it as an ERROR and returns normally.  Nothing has
    been written: the tree is as initialisation left it, and every file in
    it was there before the mode started. *)
Theorem process_mode_swallows_solver_error
    ext mode render_dir settings w cx w1 e :
  process_mode_setup ext mode render_dir settings w = (Ok cx, w1) ->
  ext_solve ext (cx_eq cx) (cx_grid cx) (cx_state cx) (T_MAX settings) (DT settings)
    = SolveRaised e ->
  (e = RuntimeWarning \/ exists text, e = ValueError text) ->
  exists w',
    process_mode ext mode render_dir settings w = (Ok tt, w')
    /\ w_log w' = w_log w1 ++ [(ERROR, MsgWarningOrError (m_title mode) e)]
    /\ w_fs w' = w_fs w1
    /\ w_writes w' = w_writes w
    /\ (forall d n f, lookup_node (w_fs w') d n = Some (File f) ->
                      lookup_node (w_fs w) d n = Some (File f)).
Proof.
  intros Hsetup Hsolve He.
  assert (Hcaught : caught_by_process_mode e = true).
  { destruct He as [->|[text ->]]; done. }
  pose proof (solve_and_validate_raised ext (m_title mode) settings cx w1 e Hsolve) as Hsv.
  rewrite Hcaught in Hsv. simpl in Hsv.
  destruct (setup_keeps_files _ _ _ _ _ _ _ Hsetup) as (Hw & _ & Hfiles).
  eexists. unfold process_mode.
  rewrite (bind_ok _ _ _ _ _ Hsetup), (bind_ok _ _ _ _ _ Hsv).
  split; [reflexivity|]. simpl. by repeat split.
Qed.

(** X3.  An exception of [eq.solve] that is neither a [RuntimeWarning] nor
    a [ValueError] is not caught: it leaves [process_mode], nothing is
    logged after initialisation, and no file has been written. *)
Theorem process_mode_propagates_solver_error
    ext mode render_dir settings w cx w1 e :
  process_mode_setup ext mode render_dir settings w = (Ok cx, w1) ->
  ext_solve ext (cx_eq cx) (cx_grid cx) (cx_state cx) (T_MAX settings) (DT settings)
    = SolveRaised e ->
  e <> RuntimeWarning ->
  (forall text, e <> ValueError text) ->
  exists w',
    process_mode ext mode render_dir settings w = (Raise e, w')
    /\ w_log w' = w_log w1
    /\ w_fs w' = w_fs w1
    /\ w_writes w' = w_writes w.
Proof.
  intros Hsetup Hsolve Hrw Hve.
  assert (Hcaught : caught_by_process_mode e = false).
  { destruct e; try done. by destruct (Hve text). }
  pose proof (solve_and_validate_raised ext (m_title mode) settings cx w1 e Hsolve) as Hsv.
  rewrite Hcaught in Hsv. simpl in Hsv.
  destruct (setup_keeps_files _ _ _ _ _ _ _ Hsetup) as (Hw & _ & _).
  eexists. unfold process_mode.
  rewrite (bind_ok _ _ _ _ _ Hsetup), (bind_raise _ _ _ _ _ Hsv).
  split; [reflexivity|]. simpl. by repeat split.
Qed.

(** ** Run numbers and the order of the listing *)

Lemma is_next_render_number_perm ext names names' N :
  names ≡ₚ names' ->
  is_next_render_number ext names N -> is_next_render_number ext names' N.
Proof.
  intros Hperm (H1 & H2 & H3). split; [done|]. split.
  - intros name Hname. apply H2. by rewrite Hperm.
  - destruct H3 as [->|(name & Hname & ?)]; [by left|right].
    exists name. by rewrite <- Hperm.
Qed.

(** X4.  The run number does not depend on the order in which
    [os.listdir] reports the entries of the results root. *)
Theorem next_render_number_ignores_listing_order ext names names' :
  names ≡ₚ names' -> next_render_number ext names = next_render_number ext names'.
Proof.
  intros Hperm.
  assert (Hiff : numbers_readable ext names <-> numbers_readable ext names').
  { unfold numbers_readable. split; intros H name Hname; apply H.
    - by rewrite Hperm.
    - by rewrite <- Hperm. }
  destruct (numbers_readable_dec ext names) as [Hread|Hbad].
  - destruct (next_render_number_total ext names Hread) as (N & -> & HN).
    destruct (next_render_number_total ext names' (proj1 Hiff Hread)) as (N' & -> & HN').
    f_equal. apply (is_next_render_number_unique ext names'); [|done].
    by apply (is_next_render_number_perm ext names).
  - rewrite !next_render_number_unreadable; [done| |done]. by rewrite <- Hiff.
Qed.

(** ** Initialisation: the state, and when it succeeds *)

(** X5.  In the state that initialisation builds, every cell inside the
    circular mask (every cell of the grid, when the boundary is periodic)
    holds [a] in [u] and [b / a + 0.1 * noise] in [v], the noise being the
    draw of [random_normal] at that cell. *)
Theorem initial_state_inside_mask ext mode render_dir settings w cx w1 y x :
  process_mode_setup ext mode render_dir settings w = (Ok cx, w1) ->
  FIXED_BOUNDARY settings = false \/ cell (cx_circular_mask cx) y x = Some true ->
  (y < Z.to_nat (RESOLUTION settings))%nat ->
  (x < Z.to_nat (RESOLUTION settings))%nat ->
  exists b_over_a,
    py_truediv (m_b mode) (m_a mode) = Ok b_over_a
    /\ cell (cx_state cx).1 y x = Some (m_a mode)
    /\ cell (cx_state cx).2 y x
       = Some (F64.add b_over_a
                 (F64.mul F64.one_tenth (ext_random_normal ext (w_rng w) y x))).
Proof.
  intros Hsetup Hin Hy Hx.
  apply setup_ok_inv in Hsetup as [_ _ _ _ _ _ (ba & Hba & Hst) _ _ _]. simpl in Hst.
  exists ba. split; [done|].
  assert (Hu : cell (full (Z.to_nat (RESOLUTION settings)) (Z.to_nat (RESOLUTION settings))
                       (m_a mode)) y x = Some (m_a mode)).
  { by rewrite cell_full, !decide_True. }
  assert (Hv : cell ((fun row : list float =>
                        (fun c => F64.add ba (F64.mul F64.one_tenth c)) <$> row)
                     <$> tabulate (Z.to_nat (RESOLUTION settings))
                           (Z.to_nat (RESOLUTION settings))
                           (ext_random_normal ext (w_rng w))) y x
               = Some (F64.add ba (F64.mul F64.one_tenth
                                     (ext_random_normal ext (w_rng w) y x)))).
  { by rewrite cell_fmap, cell_tabulate, !decide_True. }
  destruct (FIXED_BOUNDARY settings) eqn:Hfixed.
  - destruct Hin as [|Hm]; [done|]. rewrite Hst. simpl.
    unfold zero_outside. rewrite !cell_zip_with, Hm, Hu, Hv. done.
  - rewrite Hst. simpl. done.
Qed.

Lemma makedirs_in_ok parent name w :
  (forall f, lookup_node (w_fs w) parent name <> Some (File f)) ->
  exists w', makedirs_in parent name w = (Ok tt, w').
Proof.
  intros Hnf. destruct (makedirs_in parent name w) as [r w'] eqn:Hmk.
  pose proof Hmk as Hmk'.
  apply makedirs_in_inv in Hmk' as [(_ & _ & f & Hf)|(-> & _)]; [|eauto].
  by destruct (Hnf f).
Qed.

Lemma mask_threshold_eq RADIUS resolution :
  mask_threshold RADIUS resolution
  = if F64.is_zero (F64.mul (F64.of_Z 2) RADIUS) then Raise ZeroDivisionError
    else Ok (F64.mul RADIUS (F64.div (F64.of_Z resolution) (F64.mul (F64.of_Z 2) RADIUS))).
Proof. unfold mask_threshold, py_truediv. by destruct (F64.is_zero _). Qed.

(** Initialisation completes when no step of it raises. *)
Lemma setup_completes ext mode render_dir settings w :
  let RADIUS := F64.div (F64.of_Z 1) (ZOOM_FACTOR settings) in
  ext_PDE ext (pde_of mode) = None ->
  F64.is_zero (ZOOM_FACTOR settings) = false ->
  ext_CartesianGrid ext {| g_radius := RADIUS;
                           g_resolution := RESOLUTION settings;
                           g_periodic := negb (FIXED_BOUNDARY settings) |} = None ->
  F64.is_zero (m_a mode) = false ->
  F64.is_zero (F64.mul (F64.of_Z 2) RADIUS) = false ->
  (forall f, lookup_node (w_fs w) render_dir (frames_dir_name (m_title mode))
             <> Some (File f)) ->
  exists cx w1, process_mode_setup ext mode render_dir settings w = (Ok cx, w1).
Proof.
  intros RADIUS HP Hz HG Ha H2 Hnf.
  unfold process_mode_setup, bind, logging, construct, lift, raise, ret, random_normal.
  rewrite HP. unfold py_truediv at 1. rewrite Hz. fold RADIUS. rewrite HG.
  unfold py_truediv at 1. rewrite Ha. rewrite mask_threshold_eq, H2.
  match goal with |- context [makedirs_in ?p ?n ?w0] =>
    destruct (makedirs_in_ok p n w0) as [wm ->]; [exact Hnf|] end.
  eauto.
Qed.

(** X6.  In an existing run directory, and for a title that is ASCII text
    and gives a plain name to the frames directory, lines 67 to 107 of
    [process_mode] complete exactly when the two library constructors
    accept their arguments, [ZOOM_FACTOR] and [a] are not zero, [2 * RADIUS]
    is not zero (it is, for an infinite zoom factor) and no file stands
    where the frames directory is to be made. *)
Theorem process_mode_setup_succeeds_iff ext mode render_dir settings w :
  is_Some (w_fs w !! render_dir) ->
  all_chars is_ascii (m_title mode) = true ->
  plain_name (frames_dir_name (m_title mode)) = true ->
  let RADIUS := F64.div (F64.of_Z 1) (ZOOM_FACTOR settings) in
  (exists cx w1, process_mode_setup ext mode render_dir settings w = (Ok cx, w1))
  <-> ext_PDE ext (pde_of mode) = None
      /\ F64.is_zero (ZOOM_FACTOR settings) = false
      /\ ext_CartesianGrid ext {| g_radius := RADIUS;
                                  g_resolution := RESOLUTION settings;
                                  g_periodic := negb (FIXED_BOUNDARY settings) |} = None
      /\ F64.is_zero (m_a mode) = false
      /\ F64.is_zero (F64.mul (F64.of_Z 2) RADIUS) = false
      /\ (forall f, lookup_node (w_fs w) render_dir (frames_dir_name (m_title mode))
                    <> Some (File f)).
Proof.
  intros _ _ _ RADIUS. split.
  - intros (cx & w1 & Hsetup).
    apply setup_ok_inv in Hsetup
      as [HP Hrad Hgrid Hgrid_ok _ Hmask (ba & [Ha _]%py_truediv_ok & _) _
          [_ _ _ _ _ _ _ Hnf] _].
    unfold circular_mask in Hmask. rewrite Hrad in Hmask.
    apply py_truediv_ok in Hrad as [Hz HR]. fold RADIUS in HR.
    rewrite HR, mask_threshold_eq in Hmask.
    destruct (F64.is_zero (F64.mul (F64.of_Z 2) RADIUS)) eqn:H2; [done|].
    rewrite Hgrid, HR in Hgrid_ok. done.
  - intros (HP & Hz & HG & Ha & H2 & Hnf). by apply setup_completes.
Qed.

(** ** The footprint of a mode *)

Section Footprint.

Context (mode : Mode) (rd : string).

Lemma mode_footprint_same w w' :
  w_fs w' = w_fs w -> w_writes w' = w_writes w -> mode_footprint mode rd w w'.
Proof.
  intros Hf Hw. split.
  - intros. by rewrite Hf.
  - intros. by rewrite Hf.
  - exists []. by rewrite app_nil_r.
Qed.

Lemma mode_quiet_same w w' :
  w_fs w' = w_fs w -> w_writes w' = w_writes w -> w_solves w' = w_solves w ->
  mode_quiet mode rd w w'.
Proof. intros Hf Hw Hs. split; [by apply mode_footprint_same|done]. Qed.

Lemma mode_quiet_refl w : mode_quiet mode rd w w.
Proof. by apply mode_quiet_same. Qed.

Lemma mode_footprint_trans w1 w2 w3 :
  mode_footprint mode rd w1 w2 -> mode_footprint mode rd w2 w3 ->
  mode_footprint mode rd w1 w3.
Proof.
  intros [Hd1 Hn1 (n1 & Hw1 & Hf1)] [Hd2 Hn2 (n2 & Hw2 & Hf2)]. split.
  - intros d H1 H2. by rewrite Hd2, Hd1.
  - intros d n Hdn. by rewrite Hn2, Hn1.
  - exists (n1 ++ n2). rewrite Hw2, Hw1, <- app_assoc. split; [done|].
    by apply Forall_app.
Qed.

Lemma mode_quiet_trans w1 w2 w3 :
  mode_quiet mode rd w1 w2 -> mode_quiet mode rd w2 w3 -> mode_quiet mode rd w1 w3.
Proof.
  intros [H1 Hs1] [H2 Hs2]. split; [by eapply mode_footprint_trans|congruence].
Qed.

(** An entry the mode may touch is created or replaced. *)
Lemma mode_quiet_insert w w' d n node entries new :
  w_fs w' = <[d := <[n := node]> entries]> (w_fs w) ->
  w_fs w !! d = Some entries ->
  mode_may_touch mode rd d n ->
  w_writes w' = w_writes w ++ new ->
  Forall (mode_may_write mode rd) new ->
  w_solves w' = w_solves w ->
  mode_quiet mode rd w w'.
Proof.
  intros Hfs Hd Htouch Hw Hnew Hs. split; [|done]. split.
  - intros d' H1 H2. rewrite Hfs. rewrite lookup_insert_ne; [done|].
    intros <-. destruct Htouch as [[? _]|[? _]]; done.
  - intros d' n' Hnot. unfold lookup_node. rewrite Hfs.
    destruct (decide (d' = d)) as [->|Hne].
    + rewrite lookup_insert_eq, Hd. simpl. rewrite lookup_insert_ne; [done|].
      by intros <-.
    + by rewrite lookup_insert_ne.
  - by exists new.
Qed.

Lemma quiet_logging lv m : respects (mode_quiet mode rd) (logging lv m).
Proof. intros w r w' [= <- <-]. by apply mode_quiet_same. Qed.

Lemma quiet_construct o : respects (mode_quiet mode rd) (construct o).
Proof. destruct o; intros w r w' [= <- <-]; apply mode_quiet_refl. Qed.

Lemma quiet_random_normal ext rows cols :
  respects (mode_quiet mode rd) (random_normal ext rows cols).
Proof. intros w r w' [= <- <-]. by apply mode_quiet_same. Qed.

Lemma quiet_imread d n : respects (mode_quiet mode rd) (imread d n).
Proof. intros w r w' [= <- <-]. apply mode_quiet_refl. Qed.

Lemma quiet_listdir d : respects (mode_quiet mode rd) (listdir d).
Proof.
  intros w r w'. unfold listdir.
  destruct (w_fs w !! d); intros [= <- <-]; apply mode_quiet_refl.
Qed.

Lemma quiet_makedirs_in :
  respects (mode_quiet mode rd) (makedirs_in rd (frames_dir_name (m_title mode))).
Proof.
  intros w r w' H.
  apply makedirs_in_inv in H as [(_ & -> & _)|(_ & [Hs Hw _ _ _ Hdirs Hnodes _])].
  - apply mode_quiet_refl.
  - split; [|done]. split.
    + done.
    + intros d n Hnot. apply Hnodes. intros [= -> ->]. apply Hnot. left. auto.
    + exists []. by rewrite app_nil_r.
Qed.

Lemma quiet_write_frame i f :
  respects (mode_quiet mode rd)
    (write_file (path_join rd (frames_dir_name (m_title mode))) (frame_name i) f).
Proof.
  intros w r w' H. apply write_file_inv in H as [[-> _]|(entries & _ & Hd & ->)].
  - apply mode_quiet_refl.
  - eapply mode_quiet_insert; try done.
    + right. eauto.
    + constructor; [|constructor]. right. eauto.
Qed.

Lemma quiet_VideoWriter fourcc fps size :
  respects (mode_quiet mode rd) (VideoWriter rd (m_filename mode) fourcc fps size).
Proof.
  intros w r w'. unfold VideoWriter.
  destruct (w_fs w !! rd) as [entries|] eqn:Hd;
    [|intros [= <- <-]; apply mode_quiet_refl].
  assert (Hopen : forall v,
            mode_quiet mode rd w (put_file rd (m_filename mode) entries (FVideo v) w)).
  { intros v. eapply mode_quiet_insert; try done.
    - left. auto.
    - constructor; [|constructor]. by left. }
  destruct (entries !! m_filename mode) as [[|f]|]; intros [= <- <-];
    [apply mode_quiet_refl|apply Hopen..].
Qed.

Lemma quiet_video_write frame :
  respects (mode_quiet mode rd) (video_write rd (m_filename mode) frame).
Proof.
  intros w r w'. unfold video_write.
  destruct (w_fs w !! rd) as [entries|] eqn:Hd;
    [|intros [= <- <-]; apply mode_quiet_refl].
  destruct (entries !! m_filename mode) as [[|[| v | | |]]|]; intros [= <- <-];
    try apply mode_quiet_refl.
  eapply (mode_quiet_insert _ _ _ _ _ _ []); try done.
  - left. auto.
  - simpl. by rewrite app_nil_r.
Qed.


Lemma respects_for_fold {A S} (R : World -> World -> Prop)
    (xs : list A) (body : S -> A -> M S) :
  (forall w, R w w) ->
  (forall w1 w2 w3, R w1 w2 -> R w2 w3 -> R w1 w3) ->
  (forall s x, x ∈ xs -> respects R (body s x)) ->
  forall s, respects R (for_fold xs s body).
Proof.
  intros Hrefl Htrans. induction xs as [|x xs IH]; intros Hbody s; simpl.
  - by apply respects_ret.
  - apply respects_bind; [done|apply Hbody; left|].
    intros s' _ _ _. apply IH. intros s0 y Hy. apply Hbody. by right.
Qed.

Lemma quiet_setup ext settings :
  respects (mode_quiet mode rd) (process_mode_setup ext mode rd settings).
Proof.
  pose proof mode_quiet_refl as Hr. pose proof mode_quiet_trans as Ht.
  unfold process_mode_setup.
  apply respects_bind; [done|apply quiet_logging|]. intros _ _ _ _.
  apply respects_bind; [done|apply quiet_construct|]. intros _ _ _ _.
  apply respects_bind; [done|by apply respects_lift|]. intros RADIUS _ _ _.
  apply respects_bind; [done|apply quiet_construct|]. intros _ _ _ _.
  apply respects_bind; [done|by apply respects_lift|]. intros b_over_a _ _ _.
  apply respects_bind; [done|apply quiet_random_normal|]. intros noise _ _ _.
  apply respects_bind; [done|by apply respects_lift|]. intros threshold _ _ _.
  apply respects_bind; [done|apply quiet_makedirs_in|]. intros _ _ _ _.
  apply respects_bind; [done|apply quiet_logging|]. intros _ _ _ _.
  by apply respects_ret.
Qed.


(** The [try] block: one call of the solver, and nothing else changes but
    the log. *)
Lemma solve_and_validate_calls_once ext title settings cx w r w' :
  solve_and_validate ext title settings cx w = (r, w') ->
  w_fs w' = w_fs w /\ w_writes w' = w_writes w
  /\ w_solves w' = w_solves w ++ [{| sc_t_range := T_MAX settings; sc_dt := DT settings |}].
Proof.
  unfold solve_and_validate, try_except, bind. rewrite eq_solve_run.
  set (w0 := set_solves _ w).
  destruct (ext_solve _ _ _ _ _ _) as [items|e].
  - destruct (for_each items _ w0) as [[[]|e] w1] eqn:Hv;
      apply validate_effect in Hv as (Hf & Hs & Hw).
    + intros [= <- <-]. by rewrite Hf, Hs, Hw.
    + destruct (caught_by_process_mode e); intros [= <- <-]; simpl;
        by rewrite Hf, Hs, Hw.
  - destruct (caught_by_process_mode e); intros [= <- <-]; done.
Qed.

Lemma quiet_render_frames ext settings cx items :
  cx_frames_dir cx = path_join rd (frames_dir_name (m_title mode)) ->
  respects (mode_quiet mode rd) (render_frames ext mode settings cx items).
Proof.
  intros Hfd.
  pose proof mode_quiet_refl as Hr. pose proof mode_quiet_trans as Ht.
  unfold render_frames.
  apply respects_bind; [done| |intros _ _ _ _; apply quiet_logging].
  apply respects_for_fold; [done..|]. intros size [i [t s]] _. unfold render_frame.
  apply respects_bind; [done|by apply respects_lift|]. intros img _ _ _.
  apply respects_bind; [done|rewrite Hfd; apply quiet_write_frame|]. intros _ _ _ _.
  apply respects_bind; [done|apply quiet_logging|]. intros _ _ _ _.
  destruct size; [by apply respects_ret|].
  apply respects_bind; [done|apply quiet_imread|].
  intros [f|] _ _ _; by apply respects_ret.
Qed.

Lemma quiet_encode_video settings cx :
  respects (mode_quiet mode rd) (encode_video mode rd settings cx).
Proof.
  pose proof mode_quiet_refl as Hr. pose proof mode_quiet_trans as Ht.
  unfold encode_video.
  apply respects_bind; [done|apply quiet_imread|].
  intros [f|] _ _ _; [|by apply respects_raise].
  apply respects_bind; [done|apply quiet_VideoWriter|]. intros _ _ _ _.
  apply respects_bind; [done| |intros _ _ _ _; apply quiet_logging].
  unfold encode_frames.
  apply respects_bind; [done|apply quiet_listdir|]. intros names _ _ _.
  apply respects_for_each; [done..|]. intros name _. unfold encode_frame.
  apply respects_bind; [done|apply quiet_imread|].
  intros [img|] _ _ _; [apply quiet_video_write|apply quiet_logging].
Qed.

End Footprint.

Lemma process_mode_quiet_but_one_call ext mode render_dir settings w r w' :
  process_mode ext mode render_dir settings w = (r, w') ->
  mode_footprint mode render_dir w w'
  /\ (w_solves w' = w_solves w
      \/ w_solves w' = w_solves w ++
           [{| sc_t_range := T_MAX settings; sc_dt := DT settings |}]).
Proof.
  unfold process_mode, bind.
  destruct (process_mode_setup _ _ _ _ w) as [[cx|e] w1] eqn:Hsetup.
  2:{ apply quiet_setup in Hsetup as [? ?]. intros [= <- <-]. auto. }
  pose proof Hsetup as Hq. apply quiet_setup in Hq as [Hf1 Hs1].
  apply setup_ok_inv in Hsetup as [_ _ _ _ _ _ _ Hfd _ _].
  destruct (solve_and_validate _ _ _ _ w1) as [[checked|e] w2] eqn:Hsolve;
    apply solve_and_validate_calls_once in Hsolve as (Hf2 & Hw2 & Hs2).
  2:{ intros [= <- <-]. split; [|right; congruence].
      eapply mode_footprint_trans; [done|]. by apply mode_footprint_same. }
  assert (Hq2 : mode_footprint mode render_dir w w2).
  { eapply mode_footprint_trans; [done|]. by apply mode_footprint_same. }
  destruct checked as [items|].
  2:{ intros [= <- <-]. split; [done|right; congruence]. }
  destruct (render_frames _ _ _ _ _ w2) as [[[]|e] w3] eqn:Hrender;
    apply (quiet_render_frames mode render_dir _ _ _ _ Hfd) in Hrender as [Hf3 Hs3].
  2:{ intros [= <- <-]. split; [by eapply mode_footprint_trans|right; congruence]. }
  intros [Hf4 Hs4]%quiet_encode_video. split; [|right; congruence].
  eapply mode_footprint_trans; [|done]. by eapply mode_footprint_trans.
Qed.


(** ** A mode from start to end *)

Lemma render_frames_trace ext mode settings cx items w entries :
  w_fs w !! cx_frames_dir cx = Some entries ->
  (forall item, item ∈ items -> is_Some (rendered_image ext mode settings cx item.2)) ->
  (forall i, (i < length items)%nat -> entries !! frame_name i <> Some Dir) ->
  exists w' entries',
    render_frames ext mode settings cx items w = (Ok tt, w')
    /\ w_fs w' !! cx_frames_dir cx = Some entries'
    /\ (forall i item, items !! i = Some item ->
          entries' !! frame_name i =
          (fun img => File (FImage img)) <$> rendered_image ext mode settings cx item.2)
    /\ (forall name, (forall i, (i < length items)%nat -> frame_name i <> name) ->
                     entries' !! name = entries !! name)
    /\ (forall d, d <> cx_frames_dir cx -> w_fs w' !! d = w_fs w !! d)
    /\ w_writes w' = w_writes w ++
         ((fun i => (cx_frames_dir cx, frame_name i)) <$> seq 0 (length items))
    /\ w_solves w' = w_solves w
    /\ w_log w' = w_log w ++
         ((fun p => (INFO, MsgSavedFrame p.1 (m_title mode) p.2.1)) <$> enumerate items)
         ++ [(INFO, MsgFinished (m_title mode))].
Proof.
  intros Hfd Himg Hdir.
  destruct (render_loop ext mode settings cx (enumerate items) w None entries Hfd)
    as (w' & size' & entries' & Hrun & Hfd' & Hin & Hout & Hd & Hw & Hl & Hs).
  { rewrite enumerate_indices. apply NoDup_seq. }
  { intros [i item] Hp%enumerate_elem. simpl. split.
    - apply Himg. by eapply list_elem_of_lookup_2.
    - apply Hdir. by eapply lookup_lt_Some. }
  unfold render_frames. rewrite (bind_ok _ _ _ _ _ Hrun). unfold logging.
  eexists _, entries'. split; [reflexivity|]. simpl. repeat split; try done.
  - intros i item Hi. by apply (Hin (i, item)), enumerate_lookup.
  - intros name Hname. apply Hout. intros [i item] Hp%enumerate_elem. simpl.
    apply Hname. by eapply lookup_lt_Some.
  - rewrite Hw. f_equal. rewrite <- enumerate_indices.
    rewrite <- list_fmap_compose. done.
  - rewrite Hl. by rewrite <- app_assoc.
Qed.


Lemma frame_name_0 : frame_name 0 = "frame_0000.png".
Proof. reflexivity. Qed.







(** ** A video file that cannot be opened *)

Lemma encode_loop_closed fd rd fname names : forall w,
  lookup_node (w_fs w) rd fname = Some Dir ->
  exists w' warnings,
    for_each names (encode_frame fd rd fname) w = (Ok tt, w')
    /\ w_fs w' = w_fs w /\ w_writes w' = w_writes w /\ w_solves w' = w_solves w
    /\ w_log w' = w_log w ++ warnings.
Proof.
  induction names as [|name names IH]; intros w Hdir.
  - exists w, []. by rewrite app_nil_r.
  - simpl. unfold bind at 1. unfold encode_frame, bind, imread.
    destruct (decode_node _) as [img|].
    + assert (Hw : video_write rd fname img w = (Ok tt, w)).
      { unfold video_write. unfold lookup_node in Hdir.
        destruct (w_fs w !! rd) as [entries|]; [|done]. simpl in Hdir. by rewrite Hdir. }
      rewrite Hw. by apply IH.
    + unfold logging.
      destruct (IH (set_log (w_log w ++ [(WARNING, MsgErrorReadingFrame name)]) w) Hdir)
        as (w' & warnings & Hrun & Hf & Hw & Hs & Hl).
      exists w', ((WARNING, MsgErrorReadingFrame name) :: warnings).
      split; [done|]. repeat split; try done.
      rewrite Hl. simpl. by rewrite <- app_assoc.
Qed.

(** X10.  [process_mode] does not check that the video writer has opened.
    When a directory stands at the path of the video (as when the video is
    named like the mode's frames directory), the frames are rendered, the
    run directory stays as initialisation left it, and the mode still ends
    by logging "Video saved to ..." and returns normally. *)
Theorem process_mode_reports_video_it_could_not_open
    ext mode render_dir settings w cx w1 items :
  process_mode_setup ext mode render_dir settings w = (Ok cx, w1) ->
  ext_solve ext (cx_eq cx) (cx_grid cx) (cx_state cx) (T_MAX settings) (DT settings)
    = Solved items ->
  forallb (fun item => negb (invalid_item item)) items = true ->
  (forall item, item ∈ items -> is_Some (rendered_image ext mode settings cx item.2)) ->
  (0 < length items)%nat ->
  (forall i, (i < length items)%nat ->
     lookup_node (w_fs w1) (cx_frames_dir cx) (frame_name i) <> Some Dir) ->
  lookup_node (w_fs w1) render_dir (m_filename mode) = Some Dir ->
  exists w',
    process_mode ext mode render_dir settings w = (Ok tt, w')
    /\ last (w_log w') = Some (INFO, MsgVideoSaved (path_join render_dir (m_filename mode)))
    /\ w_fs w' !! render_dir = w_fs w1 !! render_dir
    /\ w_writes w' = w_writes w ++
         ((fun i => (cx_frames_dir cx, frame_name i)) <$> seq 0 (length items)).
Proof.
  intros Hsetup Hsolve Hfin Himg Hpos Hdir Hvideo.
  pose proof (setup_ok_inv _ _ _ _ _ _ _ Hsetup)
    as [_ _ _ _ _ _ _ Hfd [_ Hmw _ [entries Hentries] _ _ _ _] _].
  rewrite <- Hfd in Hentries.
  assert (Hne : cx_frames_dir cx <> render_dir) by (rewrite Hfd; apply path_join_ne).
  pose proof (solve_and_validate_finite ext (m_title mode) settings cx w1 items
                Hsolve Hfin) as Hsv.
  set (w1' := set_solves _ w1) in Hsv.
  destruct (render_frames_trace ext mode settings cx items w1' entries)
    as (w2 & entries' & Hrender & Hfd' & Hin & _ & Hd & Hw & _ & _);
    [exact Hentries|exact Himg| |].
  { intros i Hi. specialize (Hdir i Hi). unfold lookup_node in Hdir.
    by rewrite Hentries in Hdir. }
  assert (Hrd2 : w_fs w2 !! render_dir = w_fs w1 !! render_dir) by by rewrite Hd.
  assert (Hvideo2 : lookup_node (w_fs w2) render_dir (m_filename mode) = Some Dir).
  { unfold lookup_node. rewrite Hrd2. exact Hvideo. }
  destruct items as [|item0 items'] eqn:Hitems; [simpl in Hpos; lia|].
  rewrite <- Hitems in *.
  destruct (Himg item0) as [img0 Himg0]; [rewrite Hitems; left|].
  assert (Hfirst : decode_node (entries' !! "frame_0000.png") = Some img0).
  { rewrite <- frame_name_0, (Hin 0%nat item0), Himg0; [done|by rewrite Hitems]. }
  assert (Hopen : VideoWriter render_dir (m_filename mode) "mp4v" (FRAME_RATE settings)
                    (img_width img0, img_height img0) w2 = (Ok tt, w2)).
  { unfold VideoWriter. unfold lookup_node in Hvideo2.
    destruct (w_fs w2 !! render_dir) as [rentries|]; [|done].
    simpl in Hvideo2. by rewrite Hvideo2. }
  destruct (encode_loop_closed (cx_frames_dir cx) render_dir (m_filename mode)
              (frame_files_of (map_to_list entries').*1) w2 Hvideo2)
    as (w3 & warnings & Hloop & Hf3 & Hw3 & _ & _).
  eexists. split.
  { unfold process_mode.
    rewrite (bind_ok _ _ _ _ _ Hsetup), (bind_ok _ _ _ _ _ Hsv).
    rewrite (bind_ok _ _ _ _ _ Hrender).
    unfold encode_video, bind, imread, lookup_node. rewrite Hfd'. simpl.
    rewrite Hfirst, Hopen. unfold encode_frames, bind, listdir. rewrite Hfd', Hloop.
    unfold logging. reflexivity. }
  simpl. split; [apply last_snoc|]. split.
  - by rewrite Hf3.
  - rewrite Hw3, Hw. simpl. by rewrite Hmw.
Qed.

(** ** A frame that cannot be rendered *)

Lemma for_fold_app {A S} (xs ys : list A) (body : S -> A -> M S) : forall s w,
  for_fold (xs ++ ys) s body w =
  match for_fold xs s body w with
  | (Ok s', w') => for_fold ys s' body w'
  | (Raise e, w') => (Raise e, w')
  end.
Proof.
  induction xs as [|x xs IH]; intros s w; [done|].
  simpl. unfold bind. destruct (body s x w) as [[s'|e] w']; [apply IH|done].
Qed.

Lemma enumerate_lookup_Some {A} (xs : list A) j p :
  enumerate xs !! j = Some p <-> p.1 = j /\ xs !! j = Some p.2.
Proof.
  unfold enumerate. rewrite lookup_zip_with. destruct p as [i x]. simpl. split.
  - destruct (seq 0 (length xs) !! j) as [i'|] eqn:Hj; simpl; [|done].
    destruct (xs !! j) as [y|] eqn:Hy; simpl; [|done].
    apply lookup_seq in Hj as [-> _]. by intros [= <- <-].
  - intros [-> Hx]. rewrite lookup_seq_lt by (by eapply lookup_lt_Some).
    simpl. by rewrite Hx.
Qed.

(** X11.  When [plt.savefig] raises for the snapshot of index [k], the
    earlier snapshots having rendered, [process_mode] raises that
    exception: exactly the frames of indices below [k] have been written,
    they hold their images, and the run directory is as initialisation left
    it, without a video. *)
Theorem process_mode_stops_at_failing_frame
    ext mode render_dir settings w cx w1 items k item e :
  process_mode_setup ext mode render_dir settings w = (Ok cx, w1) ->
  ext_solve ext (cx_eq cx) (cx_grid cx) (cx_state cx) (T_MAX settings) (DT settings)
    = Solved items ->
  forallb (fun item => negb (invalid_item item)) items = true ->
  items !! k = Some item ->
  ext_savefig ext (figure_of mode settings cx item.2) = Raise e ->
  (forall i it, (i < k)%nat -> items !! i = Some it ->
     is_Some (rendered_image ext mode settings cx it.2)) ->
  (forall i, (i < k)%nat ->
     lookup_node (w_fs w1) (cx_frames_dir cx) (frame_name i) <> Some Dir) ->
  exists w',
    process_mode ext mode render_dir settings w = (Raise e, w')
    /\ w_writes w' = w_writes w ++
         ((fun i => (cx_frames_dir cx, frame_name i)) <$> seq 0 k)
    /\ (forall i it, (i < k)%nat -> items !! i = Some it ->
          lookup_node (w_fs w') (cx_frames_dir cx) (frame_name i)
          = (fun img => File (FImage img)) <$> rendered_image ext mode settings cx it.2)
    /\ w_fs w' !! render_dir = w_fs w1 !! render_dir.
Proof.
  intros Hsetup Hsolve Hfin Hk Hfail Himg Hdir.
  pose proof (setup_ok_inv _ _ _ _ _ _ _ Hsetup)
    as [_ _ _ _ _ _ _ Hfd [_ Hmw _ [entries Hentries] _ _ _ _] _].
  rewrite <- Hfd in Hentries.
  assert (Hne : cx_frames_dir cx <> render_dir) by (rewrite Hfd; apply path_join_ne).
  pose proof (solve_and_validate_finite ext (m_title mode) settings cx w1 items
                Hsolve Hfin) as Hsv.
  set (w1' := set_solves _ w1) in Hsv.
  assert (Hlt : (k < length items)%nat) by by eapply lookup_lt_Some.
  assert (HEk : enumerate items !! k = Some (k, item)) by by apply enumerate_lookup_Some.
  assert (Hprefix : forall p, p ∈ take k (enumerate items) ->
                              (p.1 < k)%nat /\ items !! p.1 = Some p.2).
  { intros p (j & Hj)%list_elem_of_lookup.
    apply lookup_take_Some in Hj as [Hj Hjk].
    apply enumerate_lookup_Some in Hj as [-> Hj]. done. }
  assert (Hidx : (take k (enumerate items)).*1 = seq 0 k).
  { rewrite fmap_take, enumerate_indices, take_seq. f_equal. lia. }
  destruct (render_loop ext mode settings cx (take k (enumerate items)) w1' None entries
              Hentries)
    as (w2 & size' & entries' & Hloop & Hfd' & Hin & _ & Hd & Hw & _ & _).
  { rewrite Hidx. apply NoDup_seq. }
  { intros p [Hp1 Hp2]%Hprefix. split.
    - by eapply Himg.
    - specialize (Hdir _ Hp1). unfold lookup_node in Hdir.
      by rewrite Hentries in Hdir. }
  exists w2. split.
  { unfold process_mode.
    rewrite (bind_ok _ _ _ _ _ Hsetup), (bind_ok _ _ _ _ _ Hsv).
    apply bind_raise. unfold render_frames. apply bind_raise.
    rewrite <- (take_drop_middle _ _ _ HEk), for_fold_app, Hloop.
    destruct item as [t s]. simpl. unfold bind, lift. simpl in Hfail.
    by rewrite Hfail. }
  split; [|split].
  - rewrite Hw. simpl. rewrite Hmw. f_equal.
    rewrite <- Hidx, <- list_fmap_compose. done.
  - intros i it Hi Hit. unfold lookup_node. rewrite Hfd'. simpl.
    apply (Hin (i, it)). apply list_elem_of_lookup. exists i.
    apply lookup_take_Some. split; [|done]. by apply enumerate_lookup_Some.
  - by rewrite Hd.
Qed.

(** ** Initialisation that fails *)




(** ** [main] up to the dispatch of the modes *)

Lemma main_until_dispatch ext raw w :
  runs_listed ext w ->
  numbers_readable ext (run_listing w) ->
  exists N settings w3,
    next_render_number ext (run_listing w) = Ok N
    /\ resolve_settings raw = Ok settings
    /\ main ext (Ok raw) w =
         (for_each (raw_modes raw)
            (fun mode => apply_async
               (process_mode ext mode (path_join results_dir (py_str N)) settings)) ;;;
          logging INFO MsgAllModesProcessed) w3
    /\ w_fs w3 !! path_join results_dir (py_str N)
       = Some (<["settings.txt" := File (FSettings settings)]>
                 (<["processing.log" := File FLog]> ∅))
    /\ w_solves w3 = w_solves w
    /\ w_writes w3 = w_writes w ++
         [(path_join results_dir (py_str N), "processing.log");
          (path_join results_dir (py_str N), "settings.txt")]
    /\ w_log w3 = w_log w ++
         [(INFO, MsgCreatedResultsDir (path_join results_dir (py_str N)));
          (INFO, MsgLoggingConfigured);
          (INFO, MsgSettingsSaved
                   (path_join (path_join results_dir (py_str N)) "settings.txt"))].
Proof.
  intros Hlisted Hread.
  destruct (resolve_settings_ok raw) as (settings & Hres & _ & _).
  set (entries0 := default ∅ (w_fs w !! results_dir)).
  assert (exists w0, makedirs results_dir w = (Ok tt, w0)
                     /\ w_fs w0 !! results_dir = Some entries0
                     /\ (forall d, d <> results_dir -> w_fs w0 !! d = w_fs w !! d)
                     /\ w_solves w0 = w_solves w /\ w_writes w0 = w_writes w
                     /\ w_log w0 = w_log w)
    as (w0 & Hmk0 & Hroot0 & Hother0 & Hs0 & Hw0 & Hl0).
  { unfold makedirs, entries0. destruct (w_fs w !! results_dir) as [e|] eqn:He.
    - exists w. by repeat split.
    - eexists. split; [done|]. simpl. rewrite lookup_insert_eq. split; [done|].
      split; [|done]. intros d Hd. by rewrite lookup_insert_ne. }
  assert (Hnames : run_listing w = (map_to_list entries0).*1).
  { unfold run_listing, entries0. destruct (w_fs w !! results_dir); [done|].
    simpl. by rewrite map_to_list_empty. }
  destruct (next_render_number_total ext (run_listing w) Hread) as (N & HN & Hspec).
  pose proof Hspec as (HN1 & HN2 & _).
  destruct (next_render_number_after ext (run_listing w) (py_str N :: run_listing w) N
              Hread HN) as (Hnotin & _ & _); [done|].
  set (sN := py_str N) in *. set (rd := path_join results_dir sN).
  assert (Hdig : isdigit ext sN = true) by (apply py_str_isdigit; lia).
  assert (HsN : entries0 !! sN = None).
  { destruct (entries0 !! sN) eqn:He; [|done]. exfalso. apply Hnotin.
    rewrite Hnames. apply elem_of_keys. eauto. }
  assert (Hrd_ne : rd <> results_dir) by apply path_join_ne.
  assert (Hfresh : w_fs w !! rd = None).
  { destruct (w_fs w !! rd) eqn:He; [|done]. exfalso.
    destruct (Hlisted sN Hdig) as [x Hx]; [eexists; exact He|].
    unfold lookup_node in Hx. unfold entries0 in HsN.
    destruct (w_fs w !! results_dir); simpl in *; congruence. }
  destruct (makedirs_in results_dir sN w0) as [r1 w1] eqn:Hmk1.
  pose proof (makedirs_in_log _ _ _ _ _ Hmk1) as [Hlog1 _].
  pose proof Hmk1 as Hmk1'.
  apply makedirs_in_inv in Hmk1'
    as [(_ & _ & f & Hf)|(-> & [Hs1 Hw1 _ [rentries Hrd1] _ _ Hnodes _])].
  { unfold lookup_node in Hf. rewrite Hroot0 in Hf. simpl in Hf. congruence. }
  fold rd in Hrd1.
  assert (Hrentries : rentries = ∅).
  { apply map_eq. intros n. rewrite lookup_empty.
    specialize (Hnodes rd n). unfold lookup_node in Hnodes.
    assert (Hrd0 : w_fs w0 !! rd = None).
    { rewrite (Hother0 rd Hrd_ne). exact Hfresh. }
    rewrite Hrd1, Hrd0 in Hnodes. apply Hnodes.
    intros Heq. apply Hrd_ne. exact (f_equal fst Heq). }
  subst rentries.
  set (w1' := set_log (w_log w1 ++ [(INFO, MsgCreatedResultsDir rd)]) w1).
  assert (Hlogfile : setup_logging rd w1'
            = (Ok tt, put_file rd "processing.log" ∅ FLog w1')).
  { apply write_file_run; [done|]. by rewrite lookup_empty. }
  set (w2 := put_file rd "processing.log" ∅ FLog w1') in *.
  set (w2' := set_log (w_log w2 ++ [(INFO, MsgLoggingConfigured)]) w2).
  assert (Hsettings : write_settings_to_file settings rd w2'
            = (Ok tt, put_file rd "settings.txt"
                        (<["processing.log" := File FLog]> ∅)
                        (FSettings settings) w2')).
  { apply write_file_run.
    - simpl. by rewrite lookup_insert_eq.
    - rewrite lookup_insert_ne by done. by rewrite lookup_empty. }
  set (w3 := put_file rd "settings.txt" _ (FSettings settings) w2') in *.
  set (w3' := set_log (w_log w3 ++
                [(INFO, MsgSettingsSaved (path_join rd "settings.txt"))]) w3).
  exists N, settings, w3'. split; [done|]. split; [done|]. split.
  { unfold main. unfold bind at 1. unfold lift at 1.
    unfold bind at 1. unfold lift at 1. rewrite Hres.
    rewrite (bind_ok _ _ _ _ _ Hmk0).
    unfold bind at 1. unfold listdir at 1. rewrite Hroot0.
    unfold bind at 1. unfold lift at 1. rewrite <- Hnames, HN.
    fold sN. fold rd.
    rewrite (bind_ok _ _ _ _ _ Hmk1).
    unfold bind at 1. unfold logging at 1. fold w1'.
    rewrite (bind_ok _ _ _ _ _ Hlogfile).
    unfold bind at 1. unfold logging at 1. fold w2'.
    rewrite (bind_ok _ _ _ _ _ Hsettings).
    unfold bind at 1. unfold logging at 1. fold w3'. reflexivity. }
  simpl. rewrite lookup_insert_eq. repeat split.
  - congruence.
  - rewrite Hw1, Hw0. by rewrite <- app_assoc.
  - rewrite Hlog1, Hl0. by rewrite <- !app_assoc.
Qed.



Lemma frames_dir_name_head title :
  exists rest, frames_dir_name title = String "f" rest.
Proof. unfold frames_dir_name. rewrite app_cons. eauto. Qed.

Lemma resolve_settings_zoom raw settings :
  resolve_settings raw = Ok settings ->
  ZOOM_FACTOR settings = raw_zoom_factor raw /\ s_raw settings = raw
  /\ DT settings = F64.div (raw_dt raw) (F64.of_Z 100).
Proof.
  destruct (resolve_settings_ok raw) as (settings' & Hres & Hdt & Hraw).
  rewrite Hres. intros [= <-]. repeat split; try done.
  unfold resolve_settings in Hres. destruct (py_truediv _ _); [|done].
  by injection Hres as <-.
Qed.



(** ** The calls of the solver *)

Lemma calls_only_refl call w : calls_only call w w.
Proof. exists []. by rewrite app_nil_r. Qed.

Lemma calls_only_trans call w1 w2 w3 :
  calls_only call w1 w2 -> calls_only call w2 w3 -> calls_only call w1 w3.
Proof.
  intros (c1 & H1 & F1) (c2 & H2 & F2). exists (c1 ++ c2).
  rewrite H2, H1, <- app_assoc. split; [done|]. by apply Forall_app.
Qed.

Lemma calls_only_same call w w' : w_solves w' = w_solves w -> calls_only call w w'.
Proof. intros H. exists []. by rewrite app_nil_r. Qed.

Lemma respects_calls_makedirs call d : respects (calls_only call) (makedirs d).
Proof.
  intros w r w'. unfold makedirs.
  destruct (w_fs w !! d); intros [= <- <-]; by apply calls_only_same.
Qed.

Lemma respects_calls_listdir call d : respects (calls_only call) (listdir d).
Proof.
  intros w r w'. unfold listdir.
  destruct (w_fs w !! d); intros [= <- <-]; by apply calls_only_same.
Qed.

Lemma respects_calls_makedirs_in call parent name :
  respects (calls_only call) (makedirs_in parent name).
Proof.
  intros w r w' H. apply makedirs_in_inv in H as [(_ & -> & _)|(_ & [])];
    by apply calls_only_same.
Qed.

Lemma respects_calls_logging call lv m : respects (calls_only call) (logging lv m).
Proof. intros w r w' [= <- <-]. by apply calls_only_same. Qed.

Lemma respects_calls_write_file call d name f :
  respects (calls_only call) (write_file d name f).
Proof.
  intros w r w' H. apply write_file_inv in H as [[-> _]|(? & _ & _ & ->)];
    by apply calls_only_same.
Qed.

Lemma respects_calls_process_mode ext mode render_dir settings :
  respects (calls_only {| sc_t_range := T_MAX settings; sc_dt := DT settings |})
    (process_mode ext mode render_dir settings).
Proof.
  intros w r w' [_ [Hs|Hs]]%process_mode_quiet_but_one_call.
  - by apply calls_only_same.
  - eexists. split; [exact Hs|]. by repeat constructor.
Qed.

Lemma respects_calls_dispatch ext render_dir settings modes :
  respects (calls_only {| sc_t_range := T_MAX settings; sc_dt := DT settings |})
    (for_each modes (fun mode => apply_async (process_mode ext mode render_dir settings))).
Proof.
  apply respects_for_each;
    [apply calls_only_refl|apply calls_only_trans|].
  intros mode _. apply respects_apply_async. apply respects_calls_process_mode.
Qed.

(** A mode whose initialisation completes calls the solver, once. *)
Lemma process_mode_calls_once ext mode render_dir settings w cx w1 :
  process_mode_setup ext mode render_dir settings w = (Ok cx, w1) ->
  w_solves (process_mode ext mode render_dir settings w).2
  = w_solves w ++ [{| sc_t_range := T_MAX settings; sc_dt := DT settings |}].
Proof.
  intros Hsetup. unfold process_mode. rewrite (bind_ok _ _ _ _ _ Hsetup).
  pose proof Hsetup as Hq. apply quiet_setup in Hq as [_ Hs1].
  apply setup_ok_inv in Hsetup as [_ _ _ _ _ _ _ Hfd _ _].
  unfold bind.
  destruct (solve_and_validate _ _ _ _ w1) as [[checked|e] w2] eqn:Hsolve;
    apply solve_and_validate_calls_once in Hsolve as (_ & _ & Hs2).
  2:{ simpl. congruence. }
  destruct checked as [items|]; [|simpl; congruence].
  destruct (render_frames _ _ _ _ _ w2) as [[[]|e] w3] eqn:Hrender;
    apply (quiet_render_frames mode render_dir _ _ _ _ Hfd) in Hrender as [_ Hs3].
  2:{ simpl. congruence. }
  destruct (encode_video mode render_dir settings cx w3) as [r w4] eqn:Henc.
  apply quiet_encode_video in Henc as [_ Hs4]. simpl. congruence.
Qed.

Lemma resolve_settings_call raw settings :
  resolve_settings raw = Ok settings ->
  {| sc_t_range := T_MAX settings; sc_dt := DT settings |}
  = {| sc_t_range := raw_t_max raw; sc_dt := F64.div (raw_dt raw) (F64.of_Z 100) |}.
Proof.
  intros Hres. destruct (resolve_settings_zoom _ _ Hres) as (_ & _ & ->).
  unfold resolve_settings in Hres. destruct (py_truediv _ _); [|done].
  by injection Hres as <-.
Qed.

(** C7.  Whatever the settings document and the world, every call of
    [eq.solve] that a run of [main] makes receives as [t_range] the
    document's [t_max] and as [dt] the document's [dt] divided by 100, in
    binary64.  The call is made: a mode whose initialisation completes
    calls the solver with these arguments, once; and when the
    initialisation of the first mode of the batch cannot fail ([main]
    reaches the modes, the libraries accept the equation and the grid, no
    division is by zero), the first call that [main] records is this
    one. *)
Theorem main_solver_time_step ext raw w :
  let call := {| sc_t_range := raw_t_max raw;
                 sc_dt := F64.div (raw_dt raw) (F64.of_Z 100) |} in
  (exists calls,
     w_solves (main ext (Ok raw) w).2 = w_solves w ++ calls
     /\ Forall (fun c => c = call) calls)
  /\ (forall settings mode render_dir w0 cx w1,
        resolve_settings raw = Ok settings ->
        process_mode_setup ext mode render_dir settings w0 = (Ok cx, w1) ->
        w_solves (process_mode ext mode render_dir settings w0).2 = w_solves w0 ++ [call])
  /\ (forall settings mode rest,
        resolve_settings raw = Ok settings ->
        raw_modes raw = mode :: rest ->
        runs_listed ext w ->
        numbers_readable ext (run_listing w) ->
        plain_mode mode = true ->
        ext_PDE ext (pde_of mode) = None ->
        F64.is_zero (ZOOM_FACTOR settings) = false ->
        ext_CartesianGrid ext
          {| g_radius := F64.div (F64.of_Z 1) (ZOOM_FACTOR settings);
             g_resolution := RESOLUTION settings;
             g_periodic := negb (FIXED_BOUNDARY settings) |} = None ->
        F64.is_zero (m_a mode) = false ->
        F64.is_zero (F64.mul (F64.of_Z 2) (F64.div (F64.of_Z 1) (ZOOM_FACTOR settings)))
          = false ->
        exists calls,
          w_solves (main ext (Ok raw) w).2 = w_solves w ++ call :: calls).
Proof.
  intros call. split; [|split].
  - assert (H : respects (calls_only call) (main ext (Ok raw))).
    { pose proof (calls_only_refl call) as Hr. pose proof (calls_only_trans call) as Ht.
      unfold main.
      apply respects_bind; [done|apply respects_lift; done|]. intros raw' ? ? [= <- _].
      destruct (resolve_settings_ok raw) as (settings & Hres & _ & _).
      apply respects_bind; [done|apply respects_lift; done|].
      intros settings' ? ? Heq. unfold lift in Heq. rewrite Hres in Heq.
      injection Heq as <-.
      apply respects_bind; [done|apply respects_calls_makedirs|]. intros _ _ _ _.
      apply respects_bind; [done|apply respects_calls_listdir|]. intros names _ _ _.
      apply respects_bind; [done|apply respects_lift; done|]. intros N _ _ _.
      apply respects_bind; [done|apply respects_calls_makedirs_in|]. intros _ _ _ _.
      apply respects_bind; [done|apply respects_calls_logging|]. intros _ _ _ _.
      apply respects_bind; [done|apply respects_calls_write_file|]. intros _ _ _ _.
      apply respects_bind; [done|apply respects_calls_logging|]. intros _ _ _ _.
      apply respects_bind; [done|apply respects_calls_write_file|]. intros _ _ _ _.
      apply respects_bind; [done|apply respects_calls_logging|]. intros _ _ _ _.
      apply respects_bind; [done| |intros _ _ _ _; apply respects_calls_logging].
      unfold call. rewrite <- (resolve_settings_call _ _ Hres).
      apply respects_calls_dispatch. }
    destruct (main ext (Ok raw) w) as [r w'] eqn:Hrun. by apply H in Hrun.
  - intros settings mode render_dir w0 cx w1 Hres Hsetup.
    rewrite (process_mode_calls_once _ _ _ _ _ _ _ Hsetup).
    unfold call. by rewrite (resolve_settings_call _ _ Hres).
  - intros settings mode rest Hres Hmodes Hlisted Hread _ HP Hz HG Ha H2.
    destruct (main_until_dispatch ext raw w Hlisted Hread)
      as (N & settings' & w3 & _ & Hres' & Hmain & Hrd & Hs3 & _).
    rewrite Hres in Hres'. injection Hres' as <-.
    set (rd := path_join results_dir (py_str N)) in *.
    destruct (setup_completes ext mode rd settings w3 HP Hz HG Ha H2)
      as (cx & w1 & Hsetup).
    { intros f. unfold lookup_node. rewrite Hrd. simpl.
      destruct (frames_dir_name_head (m_title mode)) as [tail ->].
      by rewrite !lookup_insert_ne, lookup_empty. }
    pose proof (process_mode_calls_once _ _ _ _ _ _ _ Hsetup) as Hcall.
    rewrite (resolve_settings_call _ _ Hres) in Hcall. fold call in Hcall.
    rewrite Hmain, Hmodes. simpl. unfold bind at 1. unfold bind at 1.
    unfold apply_async at 1.
    set (w4 := (process_mode ext mode rd settings w3).2) in *.
    destruct (for_each rest _ w4) as [r w5] eqn:Hrest.
    apply respects_calls_dispatch in Hrest as (calls & Hcalls & _).
    exists calls.
    assert (Hend : w_solves w5 = w_solves w ++ call :: calls).
    { rewrite Hcalls, Hcall, Hs3, <- app_assoc. done. }
    destruct r as [[]|e]; simpl; exact Hend.
Qed.

(** ** The name of the frames directory *)

Lemma all_chars_map_chars p f s :
  all_chars p (map_chars f s) = all_chars (fun c => p (f c)) s.
Proof. induction s as [|c s IH]; [done|]. simpl. by rewrite IH. Qed.

Lemma length_map_chars f s : String.length (map_chars f s) = String.length s.
Proof. induction s as [|c s IH]; [done|]. simpl. by rewrite IH. Qed.

Lemma map_chars_compose f g s :
  map_chars f (map_chars g s) = map_chars (fun c => f (g c)) s.
Proof. induction s as [|c s IH]; [done|]. simpl. by rewrite IH. Qed.

Lemma map_chars_ext (q : ascii -> bool) f g s :
  (forall c, q c = true -> f c = g c) ->
  all_chars q s = true -> map_chars f s = map_chars g s.
Proof.
  intros Hfg. induction s as [|c s IH]; [done|]. simpl.
  intros [Hc Hs]%andb_prop. by rewrite (Hfg c Hc), IH.
Qed.

(** X15.  For an ASCII title, the name of the frames directory holds no
    space and no upper-case letter and is 7 characters longer than the
    title; titles that differ only in letter case, or in spaces against
    underscores, get the same frames directory. *)
Theorem frames_dir_name_normalised title :
  all_chars is_ascii title = true ->
  all_chars is_normalised (frames_dir_name title) = true
  /\ String.length (frames_dir_name title) = (7 + String.length title)%nat
  /\ frames_dir_name (lower title) = frames_dir_name title
  /\ frames_dir_name (replace_space title) = frames_dir_name title.
Proof.
  intros Hascii. unfold frames_dir_name.
  rewrite all_chars_append, length_append. unfold lower, replace_space.
  rewrite !map_chars_compose, all_chars_map_chars, length_map_chars.
  repeat split.
  - simpl. eapply all_chars_impl; [|exact Hascii].
    intros c Hc. destruct c as [[] [] [] [] [] [] [] []]; try discriminate Hc; reflexivity.
  - f_equal. eapply map_chars_ext; [|exact Hascii].
    intros c Hc. destruct c as [[] [] [] [] [] [] [] []]; try discriminate Hc; reflexivity.
  - f_equal. eapply map_chars_ext; [|exact Hascii].
    intros c Hc. destruct c as [[] [] [] [] [] [] [] []]; try discriminate Hc; reflexivity.
Qed.

(** ** The encoder and the order of the listing *)

(** X16.  The list of frame files that the encoder visits does not
    depend on the order in which [os.listdir] reports the entries of the
    frames directory. *)
Theorem frame_files_of_ignores_listing_order names names' :
  names ≡ₚ names' -> frame_files_of names = frame_files_of names'.
Proof.
  intros Hperm. unfold frame_files_of, sorted.
  apply (Sorted_unique String.le).
  - apply Sorted_merge_sort. apply _.
  - apply Sorted_merge_sort. apply _.
  - rewrite !merge_sort_Permutation. by rewrite Hperm.
Qed.

(** ** The mask and the edges of the grid *)

(** X17.  Under the conditions in which the mask is the exact disc
    (threshold exactly [RESOLUTION / 2], resolution up to 256), the whole
    centre row and the whole centre column of the grid lie inside the mask:
    the disc reaches all four edges of the grid. *)
Theorem circular_mask_holds_centre_row_and_column
    ext mode render_dir settings w cx w1 i :
  process_mode_setup ext mode render_dir settings w = (Ok cx, w1) ->
  0 <= RESOLUTION settings <= 256 ->
  mask_threshold (cx_RADIUS cx) (RESOLUTION settings)
    = Ok (F64.half_of (RESOLUTION settings)) ->
  (i < Z.to_nat (RESOLUTION settings))%nat ->
  let c := Z.to_nat (RESOLUTION settings / 2) in
  cell (cx_circular_mask cx) c i = Some true
  /\ cell (cx_circular_mask cx) i c = Some true.
Proof.
  intros Hsetup Hres Hthr Hi c.
  apply setup_ok_inv in Hsetup as [_ Hrad _ _ _ Hmask _ _ _ _].
  unfold circular_mask in Hmask. rewrite Hrad, Hthr in Hmask. injection Hmask as <-.
  set (n := RESOLUTION settings) in *.
  assert (Hhalf : 2 * (n / 2) <= n < 2 * (n / 2) + 2).
  { pose proof (Z.mul_div_le n 2). pose proof (Z.mul_succ_div_gt n 2). lia. }
  assert (Hc : (c < Z.to_nat n)%nat) by (unfold c; lia).
  assert (Hzc : Z.of_nat c = n / 2) by (unfold c; lia).
  rewrite !cell_circular_mask_disc by (done || lia).
  unfold in_disc. fold n. rewrite Hzc.
  split; f_equal; apply Z.leb_le; nia.
Qed.

(** ** The further properties at work on the small configuration *)

Lemma demo_setup_solver_raises_ok e :
  process_mode_setup (demo_ext_solver_raises e) demo_mode demo_run_dir
    (demo_settings 2 2 true) demo_world
  = (Ok (demo_cx []), (demo_setup []).2).
Proof. vm_compute. reflexivity. Defined.

Lemma process_mode_swallows_solver_error_witness :
  exists w',
    process_mode (demo_ext_solver_raises RuntimeWarning) demo_mode demo_run_dir
      (demo_settings 2 2 true) demo_world = (Ok tt, w')
    /\ w_writes w' = []
    /\ last (w_log w') = Some (ERROR, MsgWarningOrError "Spots A" RuntimeWarning).
Proof.
  destruct (process_mode_swallows_solver_error
              (demo_ext_solver_raises RuntimeWarning) demo_mode demo_run_dir
              (demo_settings 2 2 true) demo_world (demo_cx []) (demo_setup []).2
              RuntimeWarning (demo_setup_solver_raises_ok _) eq_refl (or_introl eq_refl))
    as (w' & Hrun & Hlog & _ & Hw & _).
  exists w'. split; [exact Hrun|]. split; [exact Hw|]. rewrite Hlog. apply last_snoc.
Defined.

Lemma process_mode_propagates_solver_error_witness :
  exists w',
    process_mode (demo_ext_solver_raises (LibraryError 5)) demo_mode demo_run_dir
      (demo_settings 2 2 true) demo_world = (Raise (LibraryError 5), w')
    /\ w_writes w' = [].
Proof.
  destruct (process_mode_propagates_solver_error
              (demo_ext_solver_raises (LibraryError 5)) demo_mode demo_run_dir
              (demo_settings 2 2 true) demo_world (demo_cx []) (demo_setup []).2
              (LibraryError 5) (demo_setup_solver_raises_ok _) eq_refl)
    as (w' & Hrun & _ & _ & Hw).
  - discriminate.
  - discriminate.
  - exists w'. split; [exact Hrun|exact Hw].
Defined.

Lemma demo_setup_savefig_fails_ok :
  process_mode_setup (demo_ext_savefig_fails (F64.of_Z 2) demo_items) demo_mode
    demo_run_dir (demo_settings 2 2 true) demo_world
  = (Ok (demo_cx demo_items), (demo_setup demo_items).2).
Proof. vm_compute. reflexivity. Defined.

Lemma process_mode_stops_at_failing_frame_witness :
  exists w',
    process_mode (demo_ext_savefig_fails (F64.of_Z 2) demo_items) demo_mode demo_run_dir
      (demo_settings 2 2 true) demo_world = (Raise (LibraryError 3), w')
    /\ w_writes w' = [("results/1/frames_spots_a", "frame_0000.png")].
Proof.
  destruct (process_mode_stops_at_failing_frame
              (demo_ext_savefig_fails (F64.of_Z 2) demo_items) demo_mode demo_run_dir
              (demo_settings 2 2 true) demo_world (demo_cx demo_items)
              (demo_setup demo_items).2 demo_items 1%nat
              (F64.of_Z 1, demo_snapshot (F64.of_Z 2)) (LibraryError 3)
              demo_setup_savefig_fails_ok eq_refl eq_refl eq_refl)
    as (w' & Hrun & Hw & _).
  - vm_compute. reflexivity.
  - intros i it Hi Hit. destruct i as [|i]; [|lia].
    injection Hit as <-. vm_compute. eauto.
  - intros i Hi. destruct i as [|i]; [|lia]. vm_compute. discriminate.
  - exists w'. split; [exact Hrun|exact Hw].
Defined.




Lemma demo_setup_clash_ok :
  process_mode_setup (demo_ext demo_items) demo_mode_clash demo_run_dir
    (demo_settings 2 2 true) demo_world
  = (Ok (demo_cx demo_items), (demo_setup demo_items).2).
Proof. vm_compute. reflexivity. Defined.

Lemma process_mode_reports_video_it_could_not_open_witness :
  exists w',
    process_mode (demo_ext demo_items) demo_mode_clash demo_run_dir
      (demo_settings 2 2 true) demo_world = (Ok tt, w')
    /\ last (w_log w') = Some (INFO, MsgVideoSaved "results/1/frames_spots_a")
    /\ lookup_node (w_fs w') demo_run_dir "frames_spots_a" = Some Dir.
Proof.
  destruct (process_mode_reports_video_it_could_not_open
              (demo_ext demo_items) demo_mode_clash demo_run_dir (demo_settings 2 2 true)
              demo_world (demo_cx demo_items) (demo_setup demo_items).2 demo_items
              demo_setup_clash_ok eq_refl eq_refl)
    as (w' & Hrun & Hlast & Hrd & _).
  - intros item _. by eexists.
  - simpl. lia.
  - intros i _. vm_compute. discriminate.
  - vm_compute. reflexivity.
  - exists w'. split; [exact Hrun|]. split; [exact Hlast|].
    unfold lookup_node. rewrite Hrd. vm_compute. reflexivity.
Defined.


Lemma main_solver_time_step_witness :
  exists calls,
    w_solves (main (demo_ext demo_items) (Ok (demo_raw 2 2 true)) demo_world).2
    = {| sc_t_range := F64.of_Z 20; sc_dt := F64.div (F64.of_Z 1) (F64.of_Z 100) |}
      :: calls.
Proof.
  destruct (main_solver_time_step (demo_ext demo_items) (demo_raw 2 2 true) demo_world)
    as (_ & _ & Hfirst).
  destruct (Hfirst (demo_settings 2 2 true) demo_mode [] eq_refl eq_refl
              (runs_listed_demo_world _) (numbers_readable_demo_world _)
              eq_refl eq_refl eq_refl eq_refl eq_refl eq_refl)
    as [calls Hcalls].
  exists calls. exact Hcalls.
Defined.

Lemma process_mode_setup_succeeds_iff_witness :
  plain_name (frames_dir_name (m_title demo_mode)) = true
  /\ exists cx w1,
       process_mode_setup (demo_ext []) demo_mode demo_run_dir (demo_settings 2 2 true)
         demo_stale_world = (Ok cx, w1).
Proof.
  split; [reflexivity|].
  apply (process_mode_setup_succeeds_iff (demo_ext []) demo_mode demo_run_dir
           (demo_settings 2 2 true) demo_stale_world).
  - vm_compute. eauto.
  - reflexivity.
  - reflexivity.
  - repeat split; try reflexivity. intros f. vm_compute. discriminate.
Defined.


Lemma initial_state_inside_mask_witness :
  cell (cx_circular_mask (demo_cx [])) 1 1 = Some true
  /\ cell (cx_state (demo_cx [])).1 1 1 = Some (F64.of_Z 1)
  /\ cell (cx_state (demo_cx [])).2 1 1 = Some (F64.of_Z 3).
Proof.
  assert (Hmask : cell (cx_circular_mask (demo_cx [])) 1 1 = Some true)
    by (vm_compute; reflexivity).
  split; [exact Hmask|].
  destruct (initial_state_inside_mask
              (demo_ext []) demo_mode demo_run_dir (demo_settings 2 2 true)
              demo_world (demo_cx []) (demo_setup []).2 1%nat 1%nat
              (demo_setup_ok []) (or_intror Hmask))
    as (ba & Hba & Hu & Hv).
  - vm_compute. lia.
  - vm_compute. lia.
  - split; [exact Hu|]. rewrite Hv. injection Hba as <-. vm_compute. reflexivity.
Defined.



Lemma next_render_number_ignores_listing_order_witness :
  next_render_number (demo_ext []) ["3"; "notes"; "1"]
  = next_render_number (demo_ext []) ["1"; "3"; "notes"]
  /\ next_render_number (demo_ext []) ["1"; "3"; "notes"] = Ok 4.
Proof.
  split; [|reflexivity].
  apply next_render_number_ignores_listing_order.
  change ["3"; "notes"; "1"] with (["3"; "notes"] ++ ["1"]).
  by rewrite (Permutation_app_comm ["3"; "notes"] ["1"]).
Defined.

Lemma frames_dir_name_normalised_witness :
  frames_dir_name "Spots A" = "frames_spots_a"
  /\ frames_dir_name (lower "Spots A") = frames_dir_name "Spots A".
Proof.
  split; [reflexivity|].
  apply (frames_dir_name_normalised "Spots A"). reflexivity.
Defined.

Lemma frame_files_of_ignores_listing_order_witness :
  frame_files_of ["frame_0001.png"; "notes.txt"; "frame_0000.png"]
  = frame_files_of ["frame_0000.png"; "frame_0001.png"; "notes.txt"]
  /\ frame_files_of ["frame_0000.png"; "frame_0001.png"; "notes.txt"]
     = ["frame_0000.png"; "frame_0001.png"].
Proof.
  split; [|vm_compute; reflexivity].
  apply frame_files_of_ignores_listing_order.
  change ["frame_0001.png"; "notes.txt"; "frame_0000.png"]
    with (["frame_0001.png"; "notes.txt"] ++ ["frame_0000.png"]).
  by rewrite (Permutation_app_comm ["frame_0001.png"; "notes.txt"] ["frame_0000.png"]).
Defined.

Lemma circular_mask_holds_centre_row_and_column_witness :
  cell (cx_circular_mask (demo_cx [])) 1 0 = Some true
  /\ cell (cx_circular_mask (demo_cx [])) 0 1 = Some true.
Proof.
  apply (circular_mask_holds_centre_row_and_column
           (demo_ext []) demo_mode demo_run_dir (demo_settings 2 2 true)
           demo_world (demo_cx []) (demo_setup []).2 0%nat (demo_setup_ok [])).
  - vm_compute. split; discriminate.
  - vm_compute. reflexivity.
  - vm_compute. lia.
Defined.
